(** * Store monitoring: uptime/downtime estimator and report worker

    Shallow embedding of [script.py]: the helper functions
    ([parse_time_to_minutes], [calculate_overlap], the table lookups),
    the estimator [calculate_uptime_downtime], the per-store report
    [generate_store_report], and the report job life cycle
    ([trigger_report], [generate_report_and_update_db], [get_report]).

    Conventions.
    - A naive UTC [datetime] is an integer number of microseconds since
      1970-01-01T00:00:00 (the resolution of Python's datetime); a
      [timedelta] is a number of microseconds.
    - A time zone ([tzinfo]) is its UTC offset as a function of the UTC
      instant, which is all [astimezone] uses.  The zone database behind
      [pytz.timezone] is a parameter of the development.
    - Tables are lists of rows in insertion order; [first] of a query
      without ordering is the first matching row.
    - Python integers are unbounded: [Z].  [//] is floor division
      ([Z.div]); [/] on integers is true division, modelled by the exact
      rational quotient in [Q] (the final rounding of that quotient to a
      binary64 float is not modelled). *)

From Stdlib Require Import ZArith List String Ascii Bool Lia QArith Sorted.
Import ListNotations.
Open Scope Z_scope.

(** ** Exceptions *)

(** The only exception that escapes the modelled functions:
    [pytz.timezone] on a name that is not in the zone database. *)
Inductive exn : Type :=
| UnknownTimeZoneError (zone : string).

Inductive result (A : Type) : Type :=
| Ok (a : A)
| Raise (e : exn).
Arguments Ok {A} a.
Arguments Raise {A} e.

Definition bind {A B : Type} (r : result A) (k : A -> result B) : result B :=
  match r with
  | Ok a => k a
  | Raise e => Raise e
  end.

Notation "x <- c ;; k" := (bind c (fun x => k))
  (at level 61, c at next level, right associativity).
Notation "' p <- c ;; k" := (bind c (fun p => k))
  (at level 61, p pattern, c at next level, right associativity).

(** ** Strings: [str.split] and [int] *)

Module Py.

Fixpoint split (sep : ascii) (s : string) : list string :=
  match s with
  | EmptyString => [EmptyString]
  | String c r =>
      if Ascii.eqb c sep then EmptyString :: split sep r
      else match split sep r with
           | h :: t => String c h :: t
           | [] => [String c EmptyString]
           end
  end.

Fixpoint join (sep : ascii) (parts : list string) : string :=
  match parts with
  | [] => EmptyString
  | [p] => p
  | p :: rest => (p ++ String sep (join sep rest))%string
  end.

Fixpoint contains (c : ascii) (s : string) : bool :=
  match s with
  | EmptyString => false
  | String d r => Ascii.eqb d c || contains c r
  end.

(** The number of a byte. *)
Definition byte (c : ascii) : Z := Z.of_nat (nat_of_ascii c).

(** The payload of a UTF-8 continuation byte. *)
Definition continuation (c : ascii) : option Z :=
  let n := byte c in
  if (128 <=? n) && (n <? 192) then Some (n - 128) else None.

(** The code points of a str, read off its UTF-8 bytes; [None] when
    the bytes are not the UTF-8 encoding of a str. *)
Fixpoint code_points (s : string) : option (list Z) :=
  match s with
  | EmptyString => Some []
  | String b0 r0 =>
      let n0 := byte b0 in
      if n0 <? 128 then option_map (cons n0) (code_points r0)
      else if n0 <? 194 then None
      else if n0 <? 224 then
        match r0 with
        | String b1 r1 =>
            match continuation b1 with
            | Some c1 =>
                option_map (cons ((n0 - 192) * 64 + c1)) (code_points r1)
            | None => None
            end
        | _ => None
        end
      else if n0 <? 240 then
        match r0 with
        | String b1 (String b2 r2) =>
            match continuation b1, continuation b2 with
            | Some c1, Some c2 =>
                let cp := ((n0 - 224) * 64 + c1) * 64 + c2 in
                if (cp <? 2048) || ((55296 <=? cp) && (cp <=? 57343)) then None
                else option_map (cons cp) (code_points r2)
            | _, _ => None
            end
        | _ => None
        end
      else if n0 <? 245 then
        match r0 with
        | String b1 (String b2 (String b3 r3)) =>
            match continuation b1, continuation b2, continuation b3 with
            | Some c1, Some c2, Some c3 =>
                let cp := (((n0 - 240) * 64 + c1) * 64 + c2) * 64 + c3 in
                if (cp <? 65536) || (1114111 <? cp) then None
                else option_map (cons cp) (code_points r3)
            | _, _, _ => None
            end
        | _ => None
        end
      else None
  end.

(** The code points above ASCII that [int] treats as blanks (the
    characters with [str.isspace] there). *)
Definition unicode_spaces : list Z :=
  [
    133; 160; 5760; 8192; 8193; 8194; 8195; 8196; 8197; 8198; 8199;
    8200; 8201; 8202; 8232; 8233; 8239; 8287; 12288
  ].

(** The digit zero of each run of ten decimal digits above ASCII
    (Unicode 14.0.0, the character database of Python 3.11). *)
Definition decimal_zeros : list Z :=
  [
    1632; 1776; 1984; 2406; 2534; 2662; 2790; 2918; 3046; 3174; 3302;
    3430; 3558; 3664; 3792; 3872; 4160; 4240; 6112; 6160; 6470; 6608;
    6784; 6800; 6992; 7088; 7232; 7248; 42528; 43216; 43264; 43472;
    43504; 43600; 44016; 65296; 66720; 68912; 69734; 69872; 69942;
    70096; 70384; 70736; 70864; 71248; 71360; 71472; 71904; 72016;
    72784; 73040; 73120; 92768; 92864; 93008; 120782; 120792; 120802;
    120812; 120822; 123200; 123632; 125264; 130032
  ].

Definition decimal (c : Z) : option Z :=
  match find (fun z => (z <=? c) && (c <? z + 10)) decimal_zeros with
  | Some z => Some (c - z)
  | None => None
  end.

(** What a character is to [int].  Characters below 127 are taken as
    they are: the blanks are 9-13 and 32 only.  From 127 on, blanks and
    decimal digits of any script are first turned into ASCII ones. *)
Inductive token : Type :=
| Blank
| Digit (d : Z)
| Plus
| Minus
| Underscore
| Other.

Definition classify (c : Z) : token :=
  if c <? 127 then
    if ((9 <=? c) && (c <=? 13)) || (c =? 32) then Blank
    else if (48 <=? c) && (c <=? 57) then Digit (c - 48)
    else if c =? 43 then Plus
    else if c =? 45 then Minus
    else if c =? 95 then Underscore
    else Other
  else if existsb (Z.eqb c) unicode_spaces then Blank
  else match decimal c with
       | Some d => Digit d
       | None => Other
       end.

Definition is_blank (t : token) : bool :=
  match t with
  | Blank => true
  | _ => false
  end.

Fixpoint skip_blanks (l : list token) : list token :=
  match l with
  | Blank :: r => skip_blanks r
  | _ => l
  end.

(** Decimal digits with single underscores allowed between digits: the
    value, the number of digits and what follows them. *)
Fixpoint scan (acc count : Z) (after_digit : bool) (l : list token)
  : option (Z * Z * list token) :=
  match l with
  | Digit d :: r => scan (10 * acc + d) (count + 1) true r
  | Underscore :: r => if after_digit then scan acc count false r else None
  | _ => if after_digit then Some (acc, count, l) else None
  end.

(** [sys.get_int_max_str_digits()], at its default. *)
Definition max_str_digits : Z := 4300.

(** [int(s)] for a str: blanks, an optional sign, the digits, blanks.
    [None] stands for ValueError. *)
Definition int (s : string) : option Z :=
  match code_points s with
  | None => None
  | Some cps =>
      let l := skip_blanks (map classify cps) in
      let '(negative, l) :=
        match l with
        | Plus :: r => (false, r)
        | Minus :: r => (true, r)
        | _ => (false, l)
        end in
      match scan 0 0 false l with
      | Some (v, count, rest) =>
          if forallb is_blank rest && (count <=? max_str_digits)
          then Some (if negative then - v else v)
          else None
      | None => None
      end
  end.

End Py.

(** ** Helper functions *)

(** [h, m, s = map(int, time_str.split(':'))]: ValueError when a part is
    not an integer or when there are not exactly three parts. *)
Definition unpack_hms (parts : list (option Z)) : option (Z * Z * Z) :=
  match parts with
  | [Some h; Some m; Some s] => Some (h, m, s)
  | _ => None
  end.

Definition parse_time_to_minutes (time_str : string) : Z :=
  match unpack_hms (map Py.int (Py.split ":" time_str)) with
  | Some (h, m, s) => h * 60 + m + s / 60
  | None => 0
  end.

Definition calculate_overlap
  (business_start_minutes business_end_minutes
   interval_start_minutes interval_end_minutes : Z) : Z :=
  let overlap_start := Z.max business_start_minutes interval_start_minutes in
  let overlap_end := Z.min business_end_minutes interval_end_minutes in
  Z.max 0 (overlap_end - overlap_start).

(** ** Dates and times *)

Definition datetime : Type := Z.
Definition timedelta : Type := Z.

Definition US_PER_MINUTE : Z := 60000000.
Definition US_PER_HOUR : Z := 3600000000.
Definition US_PER_DAY : Z := 86400000000.

Definition timedelta_of (weeks days hours : Z) : timedelta :=
  (weeks * 7 + days) * US_PER_DAY + hours * US_PER_HOUR.

(** A zone: the UTC offset in force at a UTC instant. *)
Definition tzinfo : Type := datetime -> timedelta.

(** An aware datetime, as returned by [astimezone]. *)
Record aware : Type := Aware { instant : datetime; utcoffset : timedelta }.

Definition astimezone (tz : tzinfo) (t : datetime) : aware :=
  {| instant := t; utcoffset := tz t |}.

(** Wall-clock reading, in microseconds since the local epoch. *)
Definition wall (a : aware) : Z := instant a + utcoffset a.

(** [.date()], as a day number (day 0 is 1970-01-01, a Thursday). *)
Definition date (a : aware) : Z := wall a / US_PER_DAY.
(** [.weekday()]: Monday is 0. *)
Definition weekday (a : aware) : Z := (date a + 3) mod 7.
Definition hour (a : aware) : Z := (wall a mod US_PER_DAY) / US_PER_HOUR.
Definition minute (a : aware) : Z :=
  ((wall a mod US_PER_DAY) / US_PER_MINUTE) mod 60.

(** Aware datetimes are ordered by the instant they denote. *)
Definition aware_ltb (a b : aware) : bool := instant a <? instant b.

(** ** Database models *)

Module StoreStatus.
Record t : Type := Build
  { store_id : string; timestamp_utc : datetime; status : string }.
End StoreStatus.

Module BusinessHours.
Record t : Type := Build
  { store_id : string; day_of_week : Z;
    start_time_local : string; end_time_local : string }.
End BusinessHours.

Module StoreTimezone.
Record t : Type := Build { store_id : string; timezone_str : string }.
End StoreTimezone.

Module Report.
Record t : Type := Build
  { id : string; status : string; filename : option string }.
End Report.

Record Session : Type := MkSession
  { store_status : list StoreStatus.t;
    business_hours : list BusinessHours.t;
    store_timezone : list StoreTimezone.t;
    reports : list Report.t }.

(** ** Query helpers *)

(** [order_by]: a stable insertion sort; [le x y] says that [x] may come
    before [y]. *)
Fixpoint insert_by {A : Type} (le : A -> A -> bool) (x : A) (l : list A)
  : list A :=
  match l with
  | [] => [x]
  | y :: r => if le x y then x :: y :: r else y :: insert_by le x r
  end.

Fixpoint order_by {A : Type} (le : A -> A -> bool) (l : list A) : list A :=
  match l with
  | [] => []
  | x :: r => insert_by le x (order_by le r)
  end.

Definition first {A : Type} (l : list A) : option A := hd_error l.

Definition asc (x y : StoreStatus.t) : bool :=
  StoreStatus.timestamp_utc x <=? StoreStatus.timestamp_utc y.
Definition desc (x y : StoreStatus.t) : bool :=
  StoreStatus.timestamp_utc y <=? StoreStatus.timestamp_utc x.

Definition get_store_timezone (session : Session) (store_id : string)
  : string :=
  match first (filter (fun r => String.eqb (StoreTimezone.store_id r) store_id)
                 (store_timezone session)) with
  | Some timezone_record => StoreTimezone.timezone_str timezone_record
  | None => "America/Chicago"%string
  end.

(** The [BusinessHours] row of a store for a day of the week. *)
Definition query_business_hours (session : Session) (store_id : string)
  (day_of_week : Z) : option BusinessHours.t :=
  first (filter (fun r => String.eqb (BusinessHours.store_id r) store_id
                          && (BusinessHours.day_of_week r =? day_of_week))
           (business_hours session)).

Definition get_business_hours (session : Session) (store_id : string)
  (day_of_week : Z) : Z * Z :=
  match query_business_hours session store_id day_of_week with
  | Some business_hours_record =>
      let start_minutes :=
        parse_time_to_minutes (BusinessHours.start_time_local business_hours_record) in
      let end_minutes :=
        parse_time_to_minutes (BusinessHours.end_time_local business_hours_record) in
      (start_minutes, end_minutes)
  | None => (0, 24 * 60)
  end.

(** The latest status at or before [start_time]; among rows of the same
    timestamp, the one inserted first. *)
Definition query_initial_status (session : Session) (store_id : string)
  (start_time : datetime) : option StoreStatus.t :=
  first (order_by desc
           (filter (fun r => String.eqb (StoreStatus.store_id r) store_id
                             && (StoreStatus.timestamp_utc r <=? start_time))
              (store_status session))).

(** The statuses of the closed range [start_time, end_time], ascending. *)
Definition query_status_records (session : Session) (store_id : string)
  (start_time end_time : datetime) : list StoreStatus.t :=
  order_by asc
    (filter (fun r => String.eqb (StoreStatus.store_id r) store_id
                      && (start_time <=? StoreStatus.timestamp_utc r)
                      && (StoreStatus.timestamp_utc r <=? end_time))
       (store_status session)).

(** ** The estimator *)

(** Which of the two paths of [calculate_uptime_downtime] is taken: the
    early return that books the whole window as downtime, or the loop
    over the list [all_status_points]. *)
Inductive path : Type :=
| WholeWindowInactive
| StatusPoints (all_status_points : list (aware * string)).

Definition minute_of_day (a : aware) : Z := hour a * 60 + minute a.

(** [if current_status == 'active': uptime += m else: downtime += m]. *)
Definition credit (current_status : string) (overlap_minutes : Z)
  (acc : Z * Z) : Z * Z :=
  let '(uptime, downtime) := acc in
  if String.eqb current_status "active" then (uptime + overlap_minutes, downtime)
  else (uptime, downtime + overlap_minutes).

(** Business hours of the store on [day_of_week] against an interval of
    minutes of that day. *)
Definition overlap_on (session : Session) (store_id : string)
  (day_of_week interval_start_minutes interval_end_minutes : Z) : Z :=
  let '(business_start_minutes, business_end_minutes) :=
    get_business_hours session store_id day_of_week in
  calculate_overlap business_start_minutes business_end_minutes
    interval_start_minutes interval_end_minutes.

Definition last_status_of (status_records : list StoreStatus.t)
  (current_status : string) : string :=
  match status_records with
  | [] => current_status
  | r :: rest => StoreStatus.status (last rest r)
  end.

Definition all_status_points (local_timezone : tzinfo)
  (start_time end_time : datetime)
  (initial_status : option StoreStatus.t)
  (status_records : list StoreStatus.t) : list (aware * string) :=
  let local_start_time := astimezone local_timezone start_time in
  let local_end_time := astimezone local_timezone end_time in
  let current_status :=
    match initial_status with
    | Some r => StoreStatus.status r
    | None => "inactive"%string
    end in
  [(local_start_time, current_status)]
  ++ map (fun record =>
            (astimezone local_timezone (StoreStatus.timestamp_utc record),
             StoreStatus.status record))
       (filter (fun record =>
                  let local_record_time :=
                    astimezone local_timezone (StoreStatus.timestamp_utc record) in
                  aware_ltb local_start_time local_record_time
                  && aware_ltb local_record_time local_end_time)
          status_records)
  ++ [(local_end_time, last_status_of status_records current_status)].

Definition calculation_path (local_timezone : tzinfo) (session : Session)
  (store_id : string) (start_time end_time : datetime) : path :=
  let initial_status := query_initial_status session store_id start_time in
  let status_records :=
    query_status_records session store_id start_time end_time in
  match initial_status, status_records with
  | None, [] => WholeWindowInactive
  | _, _ =>
      StatusPoints (all_status_points local_timezone start_time end_time
                      initial_status status_records)
  end.

(** One iteration of the loop over consecutive points. *)
Definition segment (session : Session) (store_id : string)
  (current_point next_point : aware * string) (acc : Z * Z) : Z * Z :=
  let current_time := fst current_point in
  let next_time := fst next_point in
  let current_status := snd current_point in
  if negb (date current_time =? date next_time) then
    let acc :=
      credit current_status
        (overlap_on session store_id (weekday current_time)
           (minute_of_day current_time) (23 * 60 + 59)) acc in
    credit current_status
      (overlap_on session store_id (weekday next_time)
         0 (minute_of_day next_time)) acc
  else
    credit current_status
      (overlap_on session store_id (weekday current_time)
         (minute_of_day current_time) (minute_of_day next_time)) acc.

(** [for i in range(len(all_status_points) - 1)]. *)
Fixpoint segments (session : Session) (store_id : string)
  (points : list (aware * string)) (acc : Z * Z) : Z * Z :=
  match points with
  | current_point :: ((next_point :: _) as rest) =>
      segments session store_id rest
        (segment session store_id current_point next_point acc)
  | _ => acc
  end.

Section Estimator.

  (** [pytz.timezone]: the zone of a name, or [None] for a name that the
      zone database does not have. *)
Variable pytz_timezone : string -> option tzinfo.

Definition lookup_timezone (timezone_str : string) : result tzinfo :=
    match pytz_timezone timezone_str with
    | Some tz => Ok tz
    | None => Raise (UnknownTimeZoneError timezone_str)
    end.

Definition calculate_uptime_downtime (session : Session) (store_id : string)
    (start_time end_time : datetime) : result (Z * Z) :=
    let timezone_str := get_store_timezone session store_id in
    local_timezone <- lookup_timezone timezone_str ;;
    let local_start_time := astimezone local_timezone start_time in
    let local_end_time := astimezone local_timezone end_time in
    let uptime := 0 in
    let downtime := 0 in
    match calculation_path local_timezone session store_id start_time end_time with
    | WholeWindowInactive =>
        let day_of_week := weekday local_start_time in
        let overlap_minutes :=
          overlap_on session store_id day_of_week
            (minute_of_day local_start_time) (minute_of_day local_end_time) in
        Ok (uptime, downtime + overlap_minutes)
    | StatusPoints points =>
        Ok (segments session store_id points (uptime, downtime))
    end.

End Estimator.

(** ** The per-store report *)

(** One row of the report.  The [_last_hour] fields are the integers the
    estimator returns; the others are true quotients by 60. *)
Record ReportRow : Type := MkRow
  { row_store_id : string;
    uptime_last_hour : Z;
    uptime_last_day : Q;
    uptime_last_week : Q;
    downtime_last_hour : Z;
    downtime_last_day : Q;
    downtime_last_week : Q }.

(** [n / 60] on an integer [n]. *)
Definition div60 (n : Z) : Q := n # 60.

Section Report.

Variable pytz_timezone : string -> option tzinfo.

Definition generate_store_report (session : Session) (store_id : string)
  (now : datetime) : result ReportRow :=
  let last_hour_start := now - timedelta_of 0 0 1 in
  let last_day_start := now - timedelta_of 0 1 0 in
  let last_week_start := now - timedelta_of 1 0 0 in
  '(uptime_last_hour, downtime_last_hour) <-
    calculate_uptime_downtime pytz_timezone session store_id last_hour_start now ;;
  '(uptime_last_day, downtime_last_day) <-
    calculate_uptime_downtime pytz_timezone session store_id last_day_start now ;;
  '(uptime_last_week, downtime_last_week) <-
    calculate_uptime_downtime pytz_timezone session store_id last_week_start now ;;
  Ok {| row_store_id := store_id;
        uptime_last_hour := uptime_last_hour;
        uptime_last_day := div60 uptime_last_day;
        uptime_last_week := div60 uptime_last_week;
        downtime_last_hour := downtime_last_hour;
        downtime_last_day := div60 downtime_last_day;
        downtime_last_week := div60 downtime_last_week |}.

End Report.

(** ** The report job and its worker *)

(** What a run does besides updating the job row: calls of
    [generate_store_report] and the write of the CSV file. *)
Inductive event : Type :=
| StoreReportCall (store_id : string)
| CsvSaved (name : string).

(** The process: the database, the files of the temporary directory,
    the jobs submitted to the single-worker executor and not yet run,
    and the effects so far. *)
Record World : Type := MkWorld
  { db : Session;
    tmpdir : list (string * list ReportRow);
    executor : list string;
    effects : list event }.

Inductive response : Type :=
| ReportId (report_id : string)
| InternalServerError
| ReportNotFound
| StatusRunning
| StatusError
| CsvFile (name : string) (rows : list ReportRow)
| CsvFileNotFound
| StatusUnknown.

Definition query_get (reports : list Report.t) (report_id : string)
  : option Report.t :=
  find (fun r => String.eqb (Report.id r) report_id) reports.

Definition update_report (report_id : string) (f : Report.t -> Report.t)
  (reports : list Report.t) : list Report.t :=
  map (fun r => if String.eqb (Report.id r) report_id then f r else r) reports.

Definition with_reports (session : Session) (rs : list Report.t) : Session :=
  {| store_status := store_status session;
     business_hours := business_hours session;
     store_timezone := store_timezone session;
     reports := rs |}.

Definition set_error (r : Report.t) : Report.t :=
  {| Report.id := Report.id r; Report.status := "Error";
     Report.filename := Report.filename r |}.

Definition set_complete (name : string) (r : Report.t) : Report.t :=
  {| Report.id := Report.id r; Report.status := "Complete";
     Report.filename := Some name |}.

(** [db.func.max(StoreStatus.timestamp_utc)]. *)
Fixpoint max_timestamp (rows : list StoreStatus.t) : option datetime :=
  match rows with
  | [] => None
  | r :: rest =>
      match max_timestamp rest with
      | None => Some (StoreStatus.timestamp_utc r)
      | Some m => Some (Z.max (StoreStatus.timestamp_utc r) m)
      end
  end.

(** [.distinct()], in order of first occurrence. *)
Fixpoint distinct (l : list string) : list string :=
  match l with
  | [] => []
  | x :: r => x :: filter (fun y => negb (String.eqb x y)) (distinct r)
  end.

(** The slices [store_ids[i:i + batch_size]] for
    [i in range(0, len(store_ids), batch_size)]. *)
Definition batches {A : Type} (batch_size : nat) (l : list A) : list (list A) :=
  map (fun k => firstn batch_size (skipn (k * batch_size)%nat l))
    (seq 0 ((List.length l + batch_size - 1) / batch_size)%nat).

Section Worker.

Variable pytz_timezone : string -> option tzinfo.

(** [tempfile.NamedTemporaryFile(..., delete=False)]: the name of the
    new file, chosen from the names present in the directory. *)
Variable mkstemp : list string -> string.

(** [[generate_store_report(db.session, store_id, now) for store_id in batch]],
    with the calls it makes. *)
Fixpoint batch_results (session : Session) (now : datetime)
  (batch : list string) (log : list event)
  : result (list ReportRow) * list event :=
  match batch with
  | [] => (Ok [], log)
  | store_id :: rest =>
      let log := log ++ [StoreReportCall store_id] in
      match generate_store_report pytz_timezone session store_id now with
      | Raise e => (Raise e, log)
      | Ok r =>
          match batch_results session now rest log with
          | (Ok rs, log) => (Ok (r :: rs), log)
          | (Raise e, log) => (Raise e, log)
          end
      end
  end.

(** The loop over the batches, extending [all_results]. *)
Fixpoint process_batches (session : Session) (now : datetime)
  (bs : list (list string)) (all_results : list ReportRow) (log : list event)
  : result (list ReportRow) * list event :=
  match bs with
  | [] => (Ok all_results, log)
  | batch :: rest =>
      match batch_results session now batch log with
      | (Ok rs, log) => process_batches session now rest (all_results ++ rs) log
      | (Raise e, log) => (Raise e, log)
      end
  end.

Definition generate_report_and_update_db (report_id : string) (w : World)
  : World :=
  match query_get (reports (db w)) report_id with
  | None => w
  | Some _ =>
      match max_timestamp (store_status (db w)) with
      | None =>
          {| db := with_reports (db w)
                     (update_report report_id set_error (reports (db w)));
             tmpdir := tmpdir w; executor := executor w; effects := effects w |}
      | Some max_timestamp_utc =>
          let store_ids :=
            distinct (map StoreStatus.store_id (store_status (db w))) in
          let batch_size := 100%nat in
          match process_batches (db w) max_timestamp_utc
                  (batches batch_size store_ids) [] (effects w) with
          | (Ok all_results, log) =>
              let name := mkstemp (map fst (tmpdir w)) in
              {| db := with_reports (db w)
                         (update_report report_id (set_complete name)
                            (reports (db w)));
                 tmpdir := (name, all_results) :: tmpdir w;
                 executor := executor w;
                 effects := log ++ [CsvSaved name] |}
          | (Raise e, log) =>
              {| db := with_reports (db w)
                         (update_report report_id set_error (reports (db w)));
                 tmpdir := tmpdir w; executor := executor w; effects := log |}
          end
      end
  end.

(** [trigger_report]: [uuid] is the identifier drawn for the new row; a
    clash with an existing primary key fails the commit, which is rolled
    back. *)
Definition trigger_report (uuid : string) (w : World) : World * response :=
  match query_get (reports (db w)) uuid with
  | Some _ => (w, InternalServerError)
  | None =>
      let report :=
        {| Report.id := uuid; Report.status := "Running";
           Report.filename := None |} in
      ({| db := with_reports (db w) (reports (db w) ++ [report]);
          tmpdir := tmpdir w;
          executor := executor w ++ [uuid];
          effects := effects w |},
       ReportId uuid)
  end.

(** The executor's single worker takes the oldest submitted job. *)
Definition worker_run (w : World) : World :=
  match executor w with
  | [] => w
  | report_id :: rest =>
      generate_report_and_update_db report_id
        {| db := db w; tmpdir := tmpdir w; executor := rest;
           effects := effects w |}
  end.

Definition get_report (report_id : string) (w : World) : response :=
  match query_get (reports (db w)) report_id with
  | None => ReportNotFound
  | Some report =>
      if String.eqb (Report.status report) "Running" then StatusRunning
      else if String.eqb (Report.status report) "Error" then StatusError
      else if String.eqb (Report.status report) "Complete" then
        match Report.filename report with
        | None => InternalServerError
        | Some name =>
            match find (fun f => String.eqb (fst f) name) (tmpdir w) with
            | Some f => CsvFile name (snd f)
            | None => CsvFileNotFound
            end
        end
      else StatusUnknown
  end.

(** The operations of the running service. *)
Inductive operation : Type :=
| Trigger (uuid : string)
| Work
| Poll (report_id : string).

Definition step (o : operation) (w : World) : World :=
  match o with
  | Trigger uuid => fst (trigger_report uuid w)
  | Work => worker_run w
  | Poll _ => w
  end.

Definition run (ops : list operation) (w : World) : World :=
  fold_left (fun w o => step o w) ops w.

End Worker.

(** ** Calendar helper for writing instants down *)

(** Day number of a civil date of the proleptic Gregorian calendar. *)
Definition days_from_civil (year month day : Z) : Z :=
  let y := if month <=? 2 then year - 1 else year in
  let era := y / 400 in
  let yoe := y - era * 400 in
  let mp := if 2 <? month then month - 3 else month + 9 in
  let doy := (153 * mp + 2) / 5 + day - 1 in
  let doe := yoe * 365 + yoe / 4 - yoe / 100 + doy in
  era * 146097 + doe - 719468.

(** [datetime(year, month, day, hour, minute, second)]. *)
Definition mkdatetime (year month day hh mm ss : Z) : datetime :=
  days_from_civil year month day * US_PER_DAY
  + hh * US_PER_HOUR + mm * US_PER_MINUTE + ss * 1000000.

(** ** Zones used in the examples *)

Definition utc : tzinfo := fun _ => 0.

(** America/Chicago as the zone database has it for instants of 2023:
    CST (UTC-6) until 2023-03-12 08:00 UTC, CDT (UTC-5) from then until
    2023-11-05 07:00 UTC, CST afterwards. *)
Definition america_chicago_2023 : tzinfo :=
  fun t =>
    if (mkdatetime 2023 3 12 8 0 0 <=? t) && (t <? mkdatetime 2023 11 5 7 0 0)
    then -5 * US_PER_HOUR
    else -6 * US_PER_HOUR.

Definition zones_2023 (name : string) : option tzinfo :=
  if String.eqb name "UTC" then Some utc
  else if String.eqb name "America/Chicago" then Some america_chicago_2023
  else None.


(** ** Notions the statements use *)

(** A time string that reads as three integers separated by colons. *)
Definition parses_as_hms (time_str : string) : Prop :=
  exists (a b c : string) (h m s : Z),
    time_str = (a ++ ":" ++ b ++ ":" ++ c)%string
    /\ Py.int a = Some h /\ Py.int b = Some m /\ Py.int c = Some s.

(** ** Scenarios *)

(** A day at a given clock time, UTC. *)
Definition at_clock (day hh mm : Z) : datetime :=
  day * US_PER_DAY + hh * US_PER_HOUR + mm * US_PER_MINUTE.

(** Carry-forward scenario: zone UTC, business hours Monday 09:00-17:00,
    one observation (Monday 10:00, active).  [monday] is the day number
    of the Monday. *)
Definition carry_forward (monday : Z) : Session :=
  {| store_status :=
       [StoreStatus.Build "store" (at_clock monday 10 0) "active"];
     business_hours :=
       [BusinessHours.Build "store" 0 "09:00:00" "17:00:00"];
     store_timezone := [StoreTimezone.Build "store" "UTC"];
     reports := [] |}.

(** The store has an observation at or before [t]. *)
Definition observed_at_or_before (session : Session) (store_id : string)
  (t : datetime) : Prop :=
  exists r, In r (store_status session)
            /\ StoreStatus.store_id r = store_id
            /\ StoreStatus.timestamp_utc r <= t.

(** The store has an observation strictly inside the window. *)
Definition observed_strictly_inside (session : Session) (store_id : string)
  (start_time end_time : datetime) : Prop :=
  exists r, In r (store_status session)
            /\ StoreStatus.store_id r = store_id
            /\ start_time < StoreStatus.timestamp_utc r < end_time.

(** The store has an observation in the closed window. *)
Definition observed_within (session : Session) (store_id : string)
  (start_time end_time : datetime) : Prop :=
  exists r, In r (store_status session)
            /\ StoreStatus.store_id r = store_id
            /\ start_time <= StoreStatus.timestamp_utc r <= end_time.

Definition no_observations (session : Session) (store_id : string) : Prop :=
  forall r, In r (store_status session) -> StoreStatus.store_id r <> store_id.

Definition no_business_hours (session : Session) (store_id : string) : Prop :=
  forall r, In r (business_hours session) ->
            BusinessHours.store_id r <> store_id.

Definition empty_session : Session :=
  {| store_status := []; business_hours := []; store_timezone := [];
     reports := [] |}.

(** One observation, exactly at the end of the window
    2023-01-23 09:00 - 11:00 UTC. *)
Definition observed_at_end : Session :=
  {| store_status :=
       [StoreStatus.Build "store" (mkdatetime 2023 1 23 11 0 0) "active"];
     business_hours := [];
     store_timezone := [StoreTimezone.Build "store" "UTC"];
     reports := [] |}.

(** A name for a new temporary file: longer than every name present. *)
Definition longer_name (names : list string) : string :=
  String "t" (fold_right String.append EmptyString names).

(** Two stores with one observation each; the zone name of store [b] is
    not in the zone database.  One report has been triggered and waits
    for the worker. *)
Definition two_stores : World :=
  {| db :=
       {| store_status :=
            [StoreStatus.Build "a" (mkdatetime 2023 1 23 10 0 0) "active";
             StoreStatus.Build "b" (mkdatetime 2023 1 23 10 30 0) "active"];
          business_hours := [];
          store_timezone :=
            [StoreTimezone.Build "a" "UTC";
             StoreTimezone.Build "b" "Mars/Olympus"];
          reports := [Report.Build "job" "Running" None] |};
     tmpdir := [];
     executor := ["job"%string];
     effects := [] |}.

(** A world without any observation in which one report waits. *)
Definition no_observation_world : World :=
  {| db :=
       {| store_status := [];
          business_hours := [BusinessHours.Build "a" 0 "09:00:00" "17:00:00"];
          store_timezone := [StoreTimezone.Build "a" "UTC"];
          reports := [Report.Build "job" "Running" None] |};
     tmpdir := [];
     executor := ["job"%string];
     effects := [] |}.

(** ** The life cycle of a job *)

(** The job row of an identifier, found by primary key. *)
Definition job (w : World) (report_id : string) : option Report.t :=
  query_get (reports (db w)) report_id.

(** The worlds the service can be in: it starts without reports and
    without submitted jobs (the data tables and the temporary directory
    are arbitrary), and moves by its operations. *)
Inductive reachable (pytz_timezone : string -> option tzinfo)
  (mkstemp : list string -> string) : World -> Prop :=
| reachable_start (w : World) :
    reports (db w) = [] -> executor w = [] ->
    reachable pytz_timezone mkstemp w
| reachable_step (o : operation) (w : World) :
    reachable pytz_timezone mkstemp w ->
    reachable pytz_timezone mkstemp (step pytz_timezone mkstemp o w).

(** The allowed change of a job row in one step: none, or from Running
    to Complete with a filename, or from Running to Error without one. *)
Definition transition (r r' : Report.t) : Prop :=
  r' = r
  \/ (Report.status r = "Running"%string
      /\ Report.status r' = "Complete"%string
      /\ exists name, Report.filename r' = Some name)
  \/ (Report.status r = "Running"%string
      /\ Report.status r' = "Error"%string
      /\ Report.filename r' = None).

Definition well_formed_job (w : World) (r : Report.t) : Prop :=
  (Report.status r = "Running"%string /\ Report.filename r = None)
  \/ (Report.status r = "Error"%string /\ Report.filename r = None)
  \/ (Report.status r = "Complete"%string
      /\ exists name, Report.filename r = Some name
                      /\ In name (map fst (tmpdir w))).

(** What holds in every reachable world: submitted jobs are distinct and
    still Running, and every job row is well formed. *)
Definition invariant (w : World) : Prop :=
  NoDup (executor w)
  /\ (forall report_id, In report_id (executor w) ->
        exists r, job w report_id = Some r
                  /\ Report.status r = "Running"%string)
  /\ (forall report_id r, job w report_id = Some r ->
        Report.id r = report_id /\ well_formed_job w r).

(** What one step may do to the job rows and to the temporary
    directory: each row changes by an allowed transition, a row that is
    not Running does not change, and files are only added, under names
    that were not present. *)
Definition step_effect (w w' : World) : Prop :=
  (forall report_id r, job w report_id = Some r ->
     exists r', job w' report_id = Some r' /\ transition r r'
                /\ (Report.status r <> "Running"%string -> r' = r))
  /\ (exists new, tmpdir w' = new ++ tmpdir w
                  /\ forall f, In f new -> ~ In (fst f) (map fst (tmpdir w))).

(** A service with one store and one observation, before any trigger. *)
Definition one_store : World :=
  {| db :=
       {| store_status :=
            [StoreStatus.Build "a" (mkdatetime 2023 1 23 10 0 0) "active"];
          business_hours := [];
          store_timezone := [StoreTimezone.Build "a" "UTC"];
          reports := [] |};
     tmpdir := [];
     executor := [];
     effects := [] |}.

(** ** Scheduled-open minutes of a window *)

(** The number of [k] in [a, a + n) with [p k]. *)
Fixpoint count_from (p : Z -> bool) (a : Z) (n : nat) : Z :=
  match n with
  | O => 0
  | S n' => (if p a then 1 else 0) + count_from p (a + 1) n'
  end.

(** The store is within its business hours at instant [t], read on the
    local clock of the zone. *)
Definition is_open_at (tz : tzinfo) (session : Session) (store_id : string)
  (t : datetime) : bool :=
  let local := astimezone tz t in
  let '(business_start_minutes, business_end_minutes) :=
    get_business_hours session store_id (weekday local) in
  (business_start_minutes <=? minute_of_day local)
  && (minute_of_day local <? business_end_minutes).

(** The minutes of a window, counted from its start; a last partial
    minute counts as one. *)
Definition window_minutes (start_time end_time : datetime) : nat :=
  Z.to_nat ((end_time - start_time + US_PER_MINUTE - 1) / US_PER_MINUTE).

(** Total scheduled-open minutes in the window: the minutes of the
    window at whose beginning the store is within its business hours. *)
Definition scheduled_open_minutes (tz : tzinfo) (session : Session)
  (store_id : string) (start_time end_time : datetime) : Z :=
  count_from
    (fun k => is_open_at tz session store_id (start_time + k * US_PER_MINUTE))
    0 (window_minutes start_time end_time).

(** The same test on a minute of the local time line: minute [j] is
    minute [j mod 1440] of day [j / 1440]. *)
Definition open_minute (session : Session) (store_id : string) (j : Z) : bool :=
  let '(business_start_minutes, business_end_minutes) :=
    get_business_hours session store_id ((j / 1440 + 3) mod 7) in
  (business_start_minutes <=? j mod 1440)
  && (j mod 1440 <? business_end_minutes).

(** The local minute of an aware datetime. *)
Definition local_minute (a : aware) : Z := wall a / US_PER_MINUTE.

Definition total (acc : Z * Z) : Z := fst acc + snd acc.

(** A store in the default zone, open around the clock, observed active
    at 2023-03-12 07:00 UTC, one hour before the clocks of
    America/Chicago go from 02:00 to 03:00. *)
Definition spring_forward : Session :=
  {| store_status :=
       [StoreStatus.Build "store" (mkdatetime 2023 3 12 7 0 0) "active"];
     business_hours := [];
     store_timezone := [];
     reports := [] |}.

(** Order of two points on the local time line. *)
Definition minute_le (p q : aware * string) : Prop :=
  local_minute (fst p) <= local_minute (fst q).

(** ** Further notions the statements use *)

(** The two-digit decimal text of a number below 100. *)
Definition two_digits (n : Z) : string :=
  String (ascii_of_nat (48 + Z.to_nat (n / 10)))
    (String (ascii_of_nat (48 + Z.to_nat (n mod 10))) EmptyString).

(** The text [HH:MM:SS] of a clock time. *)
Definition format_hms (h m s : Z) : string :=
  (two_digits h ++ ":" ++ two_digits m ++ ":" ++ two_digits s)%string.

(** The database with only the rows of one store in the three data
    tables. *)
Definition rows_of_store (store_id : string) (session : Session) : Session :=
  {| store_status :=
       filter (fun r => String.eqb (StoreStatus.store_id r) store_id)
         (store_status session);
     business_hours :=
       filter (fun r => String.eqb (BusinessHours.store_id r) store_id)
         (business_hours session);
     store_timezone :=
       filter (fun r => String.eqb (StoreTimezone.store_id r) store_id)
         (store_timezone session);
     reports := reports session |}.

(** The database without the observations later than [t]. *)
Definition observed_until (t : datetime) (session : Session) : Session :=
  {| store_status :=
       filter (fun r => StoreStatus.timestamp_utc r <=? t)
         (store_status session);
     business_hours := business_hours session;
     store_timezone := store_timezone session;
     reports := reports session |}.

(** A store observed active one day and never again. *)
Definition seen_once : Session :=
  {| store_status :=
       [StoreStatus.Build "store" (mkdatetime 2023 1 2 12 0 0) "active"];
     business_hours := [];
     store_timezone := [StoreTimezone.Build "store" "UTC"];
     reports := [] |}.

(** Every job that is still Running waits in the executor. *)
Definition running_jobs_wait (w : World) : Prop :=
  forall report_id r,
    job w report_id = Some r -> Report.status r = "Running"%string ->
    In report_id (executor w).

(** ** The report as CSV text, without the job *)

(** A list comprehension whose body may raise: the first exception
    leaves the comprehension. *)
Fixpoint comprehension {A B : Type} (f : A -> result B) (l : list A)
  : result (list B) :=
  match l with
  | [] => Ok []
  | x :: r => y <- f x ;; ys <- comprehension f r ;; Ok (y :: ys)
  end.

Section Csv.

Variable pytz_timezone : string -> option tzinfo.

(** [pd.DataFrame(report_data).to_csv(index=False)]: the CSV text of the
    rows. *)
Variable to_csv : list ReportRow -> string.

Definition generate_report_csv (session : Session) : result string :=
  let store_ids :=
    distinct (map StoreStatus.store_id (store_status session)) in
  match max_timestamp (store_status session) with
  | None => Ok "No data available to generate report."%string
  | Some max_timestamp_utc =>
      let now := max_timestamp_utc in
      report_data <-
        comprehension
          (fun store_id =>
             generate_store_report pytz_timezone session store_id now)
          store_ids ;;
      Ok (to_csv report_data)
  end.

End Csv.

(** The identifiers of the Running rows of the job table, in row order,
    which is the order in which the jobs were triggered. *)
Definition running_ids (reports : list Report.t) : list string :=
  map Report.id
    (filter (fun r => String.eqb (Report.status r) "Running") reports).
(** * Properties *)

(** ** [calculate_overlap] *)

Lemma calculate_overlap_nonneg bs be i_s i_e :
  0 <= calculate_overlap bs be i_s i_e.
Proof. unfold calculate_overlap. lia. Qed.

Lemma calculate_overlap_le_interval bs be i_s i_e :
  i_s <= i_e -> calculate_overlap bs be i_s i_e <= i_e - i_s.
Proof. unfold calculate_overlap. lia. Qed.

(** C6. [calculate_overlap] is
    [max(0, min(business_end, interval_end) - max(business_start, interval_start))]
    for all integers, and for [0 <= business_start <= business_end <= 1440]
    and [interval_start <= interval_end] its result lies between 0 and the
    smaller of the two lengths. *)
Theorem calculate_overlap_formula_and_bounds :
  forall business_start business_end interval_start interval_end : Z,
    calculate_overlap business_start business_end interval_start interval_end
    = Z.max 0 (Z.min business_end interval_end
               - Z.max business_start interval_start)
    /\ (0 <= business_start <= business_end ->
        business_end <= 1440 ->
        interval_start <= interval_end ->
        0 <= calculate_overlap business_start business_end
               interval_start interval_end
          <= Z.min (business_end - business_start)
               (interval_end - interval_start)).
Proof.
  intros bs be i_s i_e. split.
  - reflexivity.
  - intros Hb _ Hi. unfold calculate_overlap. lia.
Qed.

Lemma calculate_overlap_formula_and_bounds_witness :
  calculate_overlap 540 1020 600 1080
  = Z.max 0 (Z.min 1020 1080 - Z.max 540 600)
  /\ 0 <= calculate_overlap 540 1020 600 1080 <= Z.min (1020 - 540) (1080 - 600).
Proof.
  destruct (calculate_overlap_formula_and_bounds 540 1020 600 1080) as [E B].
  split; [exact E | apply B; lia].
Defined.

(** ** [parse_time_to_minutes] *)

Lemma split_not_nil sep s : Py.split sep s <> [].
Proof.
  destruct s as [|c r]; simpl; [discriminate|].
  destruct (Ascii.eqb c sep); [discriminate|].
  destruct (Py.split sep r); discriminate.
Qed.

Lemma join_split sep s : Py.join sep (Py.split sep s) = s.
Proof.
  induction s as [|c r IH]; simpl; [reflexivity|].
  destruct (Ascii.eqb_spec c sep) as [->|Hc].
  - pose proof (split_not_nil sep r) as Hnil.
    destruct (Py.split sep r) as [|p ps]; [contradiction|].
    simpl. simpl in IH. rewrite IH. reflexivity.
  - pose proof (split_not_nil sep r) as Hnil.
    destruct (Py.split sep r) as [|p ps]; [contradiction|].
    destruct ps as [|q qs]; simpl in *; rewrite <- IH; reflexivity.
Qed.

Lemma unpack_hms_some parts h m s :
  unpack_hms parts = Some (h, m, s) -> parts = [Some h; Some m; Some s].
Proof.
  destruct parts as [|[a|] [|[b|] [|[c|] [|d rest]]]]; simpl; try discriminate.
  intros E; inversion E; reflexivity.
Qed.

Lemma split_app_sep sep a r :
  Py.contains sep a = false ->
  Py.split sep (a ++ String sep r) = a :: Py.split sep r.
Proof.
  induction a as [|c a IH]; simpl; intros H.
  - rewrite Ascii.eqb_refl. reflexivity.
  - apply orb_false_elim in H. destruct H as [Hc Ha].
    rewrite Hc, (IH Ha). reflexivity.
Qed.

Lemma split_no_sep sep a :
  Py.contains sep a = false -> Py.split sep a = [a].
Proof.
  induction a as [|c a IH]; simpl; intros H; [reflexivity|].
  apply orb_false_elim in H. destruct H as [Hc Ha].
  rewrite Hc, (IH Ha). reflexivity.
Qed.

Lemma eqb_colon_byte c : Ascii.eqb c ":" = true -> Py.byte c = 58.
Proof.
  intros H. apply Ascii.eqb_eq in H. subst c. reflexivity.
Qed.

Lemma high_byte_not_colon c : 128 <= Py.byte c -> Ascii.eqb c ":" = false.
Proof.
  intros H. destruct (Ascii.eqb c ":") eqn:E; [|reflexivity].
  apply eqb_colon_byte in E. lia.
Qed.

Lemma continuation_not_colon c p :
  Py.continuation c = Some p -> Ascii.eqb c ":" = false.
Proof.
  unfold Py.continuation. intros H. apply high_byte_not_colon.
  destruct (128 <=? Py.byte c) eqn:L; [|discriminate]. lia.
Qed.

(** A colon among the bytes of a str is the code point 58 of the str:
    the bytes of the longer UTF-8 sequences are all above 127. *)
Lemma code_points_colon n : forall s cps,
  (String.length s <= n)%nat ->
  Py.code_points s = Some cps -> Py.contains ":" s = true -> In 58 cps.
Proof.
  induction n as [|n IH]; intros s cps L D C.
  - destruct s; [discriminate C | simpl in L; lia].
  - destruct s as [|b0 r0]; [discriminate C|].
    cbn [Py.code_points] in D. cbn [Py.contains] in C. simpl in L.
    destruct (Py.byte b0 <? 128) eqn:A.
    + destruct (Py.code_points r0) as [t|] eqn:T; [|discriminate].
      injection D as <-.
      destruct (Ascii.eqb b0 ":") eqn:E.
      * left. apply eqb_colon_byte. exact E.
      * right. apply (IH r0); [lia | exact T | exact C].
    + rewrite (high_byte_not_colon b0) in C by lia. simpl in C.
      destruct (Py.byte b0 <? 194); [discriminate|].
      destruct (Py.byte b0 <? 224).
      { destruct r0 as [|b1 r1]; [discriminate|].
        destruct (Py.continuation b1) as [c1|] eqn:C1; [|discriminate].
        cbn [Py.contains] in C. rewrite (continuation_not_colon _ _ C1) in C.
        simpl in C, L.
        destruct (Py.code_points r1) as [t|] eqn:T; [|discriminate].
        injection D as <-. right. apply (IH r1); [lia | exact T | exact C]. }
      destruct (Py.byte b0 <? 240).
      { destruct r0 as [|b1 [|b2 r2]]; try discriminate.
        destruct (Py.continuation b1) as [c1|] eqn:C1; [|discriminate].
        destruct (Py.continuation b2) as [c2|] eqn:C2; [|discriminate].
        cbn [Py.contains] in C.
        rewrite (continuation_not_colon _ _ C1),
          (continuation_not_colon _ _ C2) in C.
        simpl in C, L. cbv zeta in D.
        match type of D with (if ?g then _ else _) = _ => destruct g end;
          [discriminate|].
        destruct (Py.code_points r2) as [t|] eqn:T; [|discriminate].
        injection D as <-. right. apply (IH r2); [lia | exact T | exact C]. }
      destruct (Py.byte b0 <? 245); [|discriminate].
      destruct r0 as [|b1 [|b2 [|b3 r3]]]; try discriminate.
      destruct (Py.continuation b1) as [c1|] eqn:C1; [|discriminate].
      destruct (Py.continuation b2) as [c2|] eqn:C2; [|discriminate].
      destruct (Py.continuation b3) as [c3|] eqn:C3; [|discriminate].
      cbn [Py.contains] in C.
      rewrite (continuation_not_colon _ _ C1),
        (continuation_not_colon _ _ C2),
        (continuation_not_colon _ _ C3) in C.
      simpl in C, L. cbv zeta in D.
      match type of D with (if ?g then _ else _) = _ => destruct g end;
        [discriminate|].
      destruct (Py.code_points r3) as [t|] eqn:T; [|discriminate].
      injection D as <-. right. apply (IH r3); [lia | exact T | exact C].
Qed.

Lemma skip_blanks_other l : In Py.Other l -> In Py.Other (Py.skip_blanks l).
Proof.
  induction l as [|t l IH]; [auto|].
  destruct t; simpl; auto. intros [H|H]; [discriminate | auto].
Qed.

Lemma scan_other l : forall acc count b v n rest,
  Py.scan acc count b l = Some (v, n, rest) ->
  In Py.Other l -> In Py.Other rest.
Proof.
  induction l as [|t l IH]; intros acc count b v n rest S O; [destruct O|].
  destruct t; simpl in S;
    try (destruct b; [injection S as <- <- <-; exact O | discriminate]).
  - destruct O as [O|O]; [discriminate|]. eapply IH; eassumption.
  - destruct b; [|discriminate].
    destruct O as [O|O]; [discriminate|]. eapply IH; eassumption.
Qed.

Lemma blanks_no_other l : forallb Py.is_blank l = true -> ~ In Py.Other l.
Proof.
  intros H O. rewrite forallb_forall in H. apply H in O. discriminate.
Qed.

(** [int] reads no text with a colon in it. *)
Lemma int_no_colon s v : Py.int s = Some v -> Py.contains ":" s = false.
Proof.
  unfold Py.int. intros H.
  destruct (Py.contains ":" s) eqn:C; [exfalso|reflexivity].
  destruct (Py.code_points s) as [cps|] eqn:D; [|discriminate].
  assert (O : In Py.Other (Py.skip_blanks (map Py.classify cps))).
  { apply skip_blanks_other.
    change Py.Other with (Py.classify 58). apply in_map.
    eapply code_points_colon; [apply Nat.le_refl | exact D | exact C]. }
  set (l := Py.skip_blanks (map Py.classify cps)) in *. clearbody l.
  assert (G : forall neg l', In Py.Other l' ->
    match Py.scan 0 0 false l' with
    | Some (v0, count, rest) =>
        if forallb Py.is_blank rest && (count <=? Py.max_str_digits)
        then Some (if neg : bool then - v0 else v0) else None
    | None => None
    end = Some v -> False).
  { intros neg l' O' H'.
    destruct (Py.scan 0 0 false l') as [[[v0 count] rest]|] eqn:S;
      [|discriminate].
    destruct (forallb Py.is_blank rest) eqn:B; [|discriminate].
    exact (blanks_no_other _ B (scan_other _ _ _ _ _ _ _ S O')). }
  destruct l as [|t l']; [destruct O|].
  destruct t; try (apply (G false _ O H)).
  - destruct O as [O|O]; [discriminate|]. apply (G false _ O H).
  - destruct O as [O|O]; [discriminate|]. apply (G true _ O H).
Qed.

(** The code's try block succeeds exactly on the strings that read as
    three colon-separated integers. *)
Lemma parses_as_hms_iff time_str :
  parses_as_hms time_str
  <-> unpack_hms (map Py.int (Py.split ":" time_str)) <> None.
Proof.
  split.
  - intros (a & b & c & h & m & s & -> & Ha & Hb & Hc).
    cbn [String.append].
    rewrite (split_app_sep _ _ _ (int_no_colon _ _ Ha)).
    rewrite (split_app_sep _ _ _ (int_no_colon _ _ Hb)).
    rewrite (split_no_sep _ _ (int_no_colon _ _ Hc)).
    simpl. rewrite Ha, Hb, Hc. discriminate.
  - intros H.
    destruct (unpack_hms (map Py.int (Py.split ":" time_str)))
      as [[[h m] s]|] eqn:E; [|contradiction].
    apply unpack_hms_some in E.
    pose proof (join_split ":" time_str) as J.
    destruct (Py.split ":" time_str) as [|a [|b [|c [|d rest]]]];
      simpl in E; try discriminate.
    inversion E as [[Ha Hb Hc]].
    exists a, b, c, h, m, s. simpl in J. rewrite <- J. auto.
Qed.

Lemma parse_time_to_minutes_malformed time_str :
  ~ parses_as_hms time_str -> parse_time_to_minutes time_str = 0.
Proof.
  rewrite parses_as_hms_iff. unfold parse_time_to_minutes.
  destruct (unpack_hms (map Py.int (Py.split ":" time_str)))
    as [[[h m] s]|]; [intros H; exfalso; apply H; discriminate|reflexivity].
Qed.

(** C10. A time string that does not read as three colon-separated
    integers parses to 0 minutes; hence a [BusinessHours] row whose two
    time strings are malformed gives business hours [(0, 0)], which
    overlap no interval: the store is closed that day, nothing is raised
    and the 24/7 default is not used. *)
Theorem malformed_time_strings_close_the_day :
  (forall time_str : string,
      ~ parses_as_hms time_str -> parse_time_to_minutes time_str = 0)
  /\ (forall (session : Session) (store_id : string) (day_of_week : Z)
        (row : BusinessHours.t),
        query_business_hours session store_id day_of_week = Some row ->
        ~ parses_as_hms (BusinessHours.start_time_local row) ->
        ~ parses_as_hms (BusinessHours.end_time_local row) ->
        get_business_hours session store_id day_of_week = (0, 0)
        /\ get_business_hours session store_id day_of_week <> (0, 24 * 60)
        /\ forall interval_start interval_end : Z,
            overlap_on session store_id day_of_week
              interval_start interval_end = 0).
Proof.
  split; [exact parse_time_to_minutes_malformed|].
  intros session store_id day row Hrow Hs He.
  assert (G : get_business_hours session store_id day = (0, 0)).
  { unfold get_business_hours. rewrite Hrow.
    rewrite (parse_time_to_minutes_malformed _ Hs).
    rewrite (parse_time_to_minutes_malformed _ He). reflexivity. }
  split; [exact G|]. split.
  - rewrite G. discriminate.
  - intros i_s i_e. unfold overlap_on. rewrite G.
    unfold calculate_overlap. lia.
Qed.

Lemma malformed_time_strings_close_the_day_witness :
  parse_time_to_minutes "9 am" = 0
  /\ get_business_hours
       {| store_status := [];
          business_hours := [BusinessHours.Build "s1" 0 "09:00" "17h"];
          store_timezone := []; reports := [] |} "s1" 0 = (0, 0).
Proof.
  assert (N : forall t, unpack_hms (map Py.int (Py.split ":" t)) = None ->
                        ~ parses_as_hms t)
    by (intros t E; rewrite parses_as_hms_iff, E; intros H; apply H; reflexivity).
  destruct malformed_time_strings_close_the_day as [P B]. split.
  - apply P. apply N. reflexivity.
  - eapply B; [reflexivity| |]; apply N; reflexivity.
Defined.

(** ** Clock arithmetic *)

Lemma minute_of_day_wall a :
  minute_of_day a = (wall a / US_PER_MINUTE) mod 1440.
Proof.
  unfold minute_of_day, hour, minute, US_PER_DAY, US_PER_HOUR, US_PER_MINUTE.
  generalize (wall a). intros w.
  pose proof (Z.div_mod w 86400000000 ltac:(lia)) as E1.
  pose proof (Z.mod_pos_bound w 86400000000 ltac:(lia)) as B1.
  set (r := w mod 86400000000) in *.
  set (q := w / 86400000000) in *. clearbody r q.
  assert (Hw : w / 60000000 = q * 1440 + r / 60000000).
  { rewrite E1. replace (86400000000 * q + r) with (r + (q * 1440) * 60000000) by lia.
    rewrite Z.div_add by lia. lia. }
  rewrite Hw.
  rewrite (Z.add_comm (q * 1440)), Z.mod_add by lia.
  assert (Hr : 0 <= r / 60000000 < 1440).
  { split; [apply Z.div_pos; lia|apply Z.div_lt_upper_bound; lia]. }
  rewrite (Z.mod_small (r / 60000000) 1440) by exact Hr.
  pose proof (Z.div_mod (r / 60000000) 60 ltac:(lia)) as E2.
  replace (r / 3600000000) with ((r / 60000000) / 60)
    by (rewrite Z.div_div by lia; reflexivity).
  lia.
Qed.

Lemma date_wall a : date a = (wall a / US_PER_MINUTE) / 1440.
Proof.
  unfold date, US_PER_DAY, US_PER_MINUTE.
  rewrite Z.div_div by lia. reflexivity.
Qed.

Lemma at_clock_utc_fields day hh mm :
  0 <= hh < 24 -> 0 <= mm < 60 ->
  date (astimezone utc (at_clock day hh mm)) = day
  /\ minute_of_day (astimezone utc (at_clock day hh mm)) = hh * 60 + mm.
Proof.
  intros Hh Hm.
  assert (W : wall (astimezone utc (at_clock day hh mm)) / US_PER_MINUTE
              = day * 1440 + (hh * 60 + mm)).
  { unfold wall, astimezone, utc, at_clock, US_PER_DAY, US_PER_HOUR,
      US_PER_MINUTE. simpl.
    replace (day * 86400000000 + hh * 3600000000 + mm * 60000000 + 0)
      with ((day * 1440 + (hh * 60 + mm)) * 60000000) by lia.
    apply Z.div_mul. lia. }
  rewrite date_wall, minute_of_day_wall, W. split.
  - rewrite (Z.add_comm (day * 1440)), Z.div_add by lia.
    rewrite Z.div_small by lia. lia.
  - rewrite (Z.add_comm (day * 1440)), Z.mod_add by lia.
    apply Z.mod_small. lia.
Qed.

(** ** The estimator on the carry-forward scenario *)

(** C5. Zone UTC, business hours Monday 09:00-17:00, one observation
    (Monday 10:00, active), window from Monday 09:00 to Monday 11:00:
    the points are (09:00, inactive), (10:00, active), (11:00, active)
    and the result is uptime 60, downtime 60.  This holds on every
    Monday and for every zone database that knows UTC. *)
Theorem carry_forward_scenario :
  forall (pytz_timezone : string -> option tzinfo) (monday : Z),
    pytz_timezone "UTC"%string = Some utc ->
    (monday + 3) mod 7 = 0 ->
    calculation_path utc (carry_forward monday) "store"
      (at_clock monday 9 0) (at_clock monday 11 0)
    = StatusPoints
        [(astimezone utc (at_clock monday 9 0), "inactive"%string);
         (astimezone utc (at_clock monday 10 0), "active"%string);
         (astimezone utc (at_clock monday 11 0), "active"%string)]
    /\ calculate_uptime_downtime pytz_timezone (carry_forward monday) "store"
         (at_clock monday 9 0) (at_clock monday 11 0) = Ok (60, 60).
Proof.
  intros pytz_timezone monday Hutc Hmon.
  assert (O1 : at_clock monday 9 0 < at_clock monday 10 0)
    by (unfold at_clock, US_PER_DAY, US_PER_HOUR, US_PER_MINUTE; lia).
  assert (O2 : at_clock monday 10 0 < at_clock monday 11 0)
    by (unfold at_clock, US_PER_DAY, US_PER_HOUR, US_PER_MINUTE; lia).
  destruct (at_clock_utc_fields monday 9 0 ltac:(lia) ltac:(lia)) as [D9 M9].
  destruct (at_clock_utc_fields monday 10 0 ltac:(lia) ltac:(lia)) as [D10 M10].
  destruct (at_clock_utc_fields monday 11 0 ltac:(lia) ltac:(lia)) as [D11 M11].
  remember (at_clock monday 9 0) as t9.
  remember (at_clock monday 10 0) as t10.
  remember (at_clock monday 11 0) as t11.
  assert (P : calculation_path utc (carry_forward monday) "store" t9 t11
    = StatusPoints
        [(astimezone utc t9, "inactive"%string);
         (astimezone utc t10, "active"%string);
         (astimezone utc t11, "active"%string)]).
  { unfold calculation_path, query_initial_status, query_status_records,
      carry_forward. simpl. rewrite <- Heqt10.
    rewrite (proj2 (Z.leb_gt t10 t9)) by lia.
    rewrite (proj2 (Z.leb_le t9 t10)) by lia.
    rewrite (proj2 (Z.leb_le t10 t11)) by lia.
    simpl. unfold all_status_points, aware_ltb. simpl.
    rewrite (proj2 (Z.ltb_lt t9 t10)) by lia.
    rewrite (proj2 (Z.ltb_lt t10 t11)) by lia.
    reflexivity. }
  split; [exact P|].
  unfold calculate_uptime_downtime.
  replace (get_store_timezone (carry_forward monday) "store") with "UTC"%string
    by reflexivity.
  unfold lookup_timezone. rewrite Hutc. cbn [bind]. rewrite P.
  cbn [segments]. unfold segment. cbn [fst snd].
  rewrite D9, D10, D11, Z.eqb_refl. cbn [negb].
  unfold weekday. rewrite D9, D10, Hmon, M9, M10, M11.
  vm_compute. reflexivity.
Qed.

Lemma carry_forward_scenario_witness :
  days_from_civil 2023 1 23 = 19380
  /\ (19380 + 3) mod 7 = 0
  /\ calculate_uptime_downtime zones_2023 (carry_forward 19380) "store"
       (at_clock 19380 9 0) (at_clock 19380 11 0) = Ok (60, 60).
Proof.
  split; [reflexivity|]. split; [reflexivity|].
  apply (carry_forward_scenario zones_2023 19380); reflexivity.
Defined.

(** ** Queries *)

Lemma insert_by_in {A} (le : A -> A -> bool) x y l :
  In y (insert_by le x l) <-> y = x \/ In y l.
Proof.
  induction l as [|z l IH]; simpl.
  - intuition congruence.
  - destruct (le x z); simpl; [intuition congruence|].
    rewrite IH. intuition congruence.
Qed.

Lemma order_by_in {A} (le : A -> A -> bool) y l :
  In y (order_by le l) <-> In y l.
Proof.
  induction l as [|x l IH]; simpl; [tauto|].
  rewrite insert_by_in, IH. intuition congruence.
Qed.

Lemma list_nil_iff {A} (l : list A) : l = [] <-> forall x, ~ In x l.
Proof.
  split.
  - intros -> x [].
  - destruct l as [|x l]; [reflexivity|].
    intros H. exfalso. apply (H x). left. reflexivity.
Qed.

Lemma first_none_iff {A} (l : list A) : first l = None <-> l = [].
Proof. destruct l; simpl; split; congruence. Qed.

Lemma query_initial_status_none session store_id start_time :
  query_initial_status session store_id start_time = None
  <-> ~ observed_at_or_before session store_id start_time.
Proof.
  unfold query_initial_status, observed_at_or_before.
  rewrite first_none_iff, list_nil_iff. split.
  - intros H (r & Hin & Hid & Hts). apply (H r).
    rewrite order_by_in, filter_In. split; [exact Hin|].
    rewrite Hid, String.eqb_refl. simpl. apply Z.leb_le. exact Hts.
  - intros H r Hr. rewrite order_by_in, filter_In in Hr.
    destruct Hr as [Hin Hc]. apply andb_prop in Hc. destruct Hc as [Hid Hts].
    apply H. exists r. rewrite String.eqb_eq in Hid. rewrite Z.leb_le in Hts.
    auto.
Qed.

Lemma query_status_records_in session store_id start_time end_time r :
  In r (query_status_records session store_id start_time end_time)
  <-> In r (store_status session)
      /\ StoreStatus.store_id r = store_id
      /\ start_time <= StoreStatus.timestamp_utc r <= end_time.
Proof.
  unfold query_status_records. rewrite order_by_in, filter_In.
  rewrite !andb_true_iff, String.eqb_eq, !Z.leb_le. tauto.
Qed.

Lemma query_status_records_nil session store_id start_time end_time :
  query_status_records session store_id start_time end_time = []
  <-> ~ observed_within session store_id start_time end_time.
Proof.
  rewrite list_nil_iff. unfold observed_within. split.
  - intros H (r & Hr). apply (H r). apply query_status_records_in. exact Hr.
  - intros H r Hr. apply H. exists r. apply query_status_records_in. exact Hr.
Qed.

(** ** Which path the estimator takes *)

Lemma early_return_iff tz session store_id s e :
  calculation_path tz session store_id s e = WholeWindowInactive
  <-> ~ observed_at_or_before session store_id s
      /\ ~ observed_within session store_id s e.
Proof.
  rewrite <- query_initial_status_none, <- query_status_records_nil.
  unfold calculation_path.
  destruct (query_initial_status session store_id s) as [i|];
    destruct (query_status_records session store_id s e) as [|r rs];
    split; try discriminate; try tauto.
  - intros [H _]. discriminate.
  - intros [H _]. discriminate.
  - intros [_ H]. discriminate.
Qed.

(** C3, as the code has it.  The estimator takes the early return that
    books the whole window as downtime exactly when the store has no
    observation at or before [start_time] and none in the closed range
    from [start_time] to [end_time]: the range of the query includes both
    ends, so an observation exactly at [end_time] prevents the early
    return. *)
Theorem early_return_iff_no_observation_in_closed_range :
  forall (local_timezone : tzinfo) (session : Session) (store_id : string)
         (start_time end_time : datetime),
    calculation_path local_timezone session store_id start_time end_time
    = WholeWindowInactive
    <-> ~ observed_at_or_before session store_id start_time
        /\ ~ observed_within session store_id start_time end_time.
Proof. intros. apply early_return_iff. Qed.

Lemma early_return_iff_no_observation_in_closed_range_witness :
  calculation_path utc empty_session "store"
    (mkdatetime 2023 1 23 9 0 0) (mkdatetime 2023 1 23 11 0 0)
  = WholeWindowInactive.
Proof.
  apply (early_return_iff_no_observation_in_closed_range utc empty_session
           "store" (mkdatetime 2023 1 23 9 0 0) (mkdatetime 2023 1 23 11 0 0)).
  split; intros (r & [] & _).
Defined.

(** C3, counterexample to the open range.  With a single observation
    exactly at the end of the window there is no observation at or
    before the start and none strictly inside, and yet the estimator
    builds the list of points. *)
Lemma observation_at_window_end_prevents_early_return :
  ~ observed_at_or_before observed_at_end "store" (mkdatetime 2023 1 23 9 0 0)
  /\ ~ observed_strictly_inside observed_at_end "store"
         (mkdatetime 2023 1 23 9 0 0) (mkdatetime 2023 1 23 11 0 0)
  /\ calculation_path utc observed_at_end "store"
       (mkdatetime 2023 1 23 9 0 0) (mkdatetime 2023 1 23 11 0 0)
     = StatusPoints
         [(astimezone utc (mkdatetime 2023 1 23 9 0 0), "inactive"%string);
          (astimezone utc (mkdatetime 2023 1 23 11 0 0), "active"%string)]
  /\ calculation_path utc observed_at_end "store"
       (mkdatetime 2023 1 23 9 0 0) (mkdatetime 2023 1 23 11 0 0)
     <> WholeWindowInactive.
Proof.
  repeat split.
  - intros (r & [<-|[]] & _ & H). vm_compute in H. apply H. reflexivity.
  - intros (r & [<-|[]] & _ & _ & H). vm_compute in H. discriminate.
  - vm_compute. discriminate.
Qed.

(** ** A store without data *)

Lemma minute_of_day_bounds a : 0 <= minute_of_day a < 1440.
Proof. rewrite minute_of_day_wall. apply Z.mod_pos_bound. lia. Qed.

Lemma no_observations_path tz session store_id start_time end_time :
  no_observations session store_id ->
  calculation_path tz session store_id start_time end_time
  = WholeWindowInactive.
Proof.
  intros H. apply early_return_iff. split.
  - intros (r & Hin & Hid & _). exact (H r Hin Hid).
  - intros (r & Hin & Hid & _). exact (H r Hin Hid).
Qed.

Lemma no_business_hours_default session store_id day_of_week :
  no_business_hours session store_id ->
  get_business_hours session store_id day_of_week = (0, 24 * 60).
Proof.
  intros H. unfold get_business_hours, query_business_hours.
  replace (filter _ (business_hours session)) with (@nil BusinessHours.t);
    [reflexivity|].
  symmetry. apply list_nil_iff. intros r Hr. apply filter_In in Hr.
  destruct Hr as [Hin Hc]. apply andb_prop in Hc. destruct Hc as [Hid _].
  apply String.eqb_eq in Hid. exact (H r Hin Hid).
Qed.

(** C1, what the code computes.  For a store with no business hours row
    and no observation, over the 24 hours that start at [start_time], the
    estimator resolves the zone and returns uptime 0 and a downtime that
    is the distance between the two clock readings of the window's ends:
    at most 1439, never 1440, and 0 whenever the zone has the same offset
    at both ends. *)
Theorem no_data_day_window_downtime :
  forall (pytz_timezone : string -> option tzinfo) (session : Session)
         (store_id : string) (start_time : datetime) (tz : tzinfo),
    pytz_timezone (get_store_timezone session store_id) = Some tz ->
    no_observations session store_id ->
    no_business_hours session store_id ->
    exists downtime : Z,
      calculate_uptime_downtime pytz_timezone session store_id
        start_time (start_time + timedelta_of 0 1 0) = Ok (0, downtime)
      /\ 0 <= downtime <= 1439
      /\ (tz (start_time + timedelta_of 0 1 0) = tz start_time ->
          downtime = 0).
Proof.
  intros pytz session store_id s tz Htz Hobs Hbh.
  unfold calculate_uptime_downtime, lookup_timezone. rewrite Htz. cbn [bind].
  rewrite (no_observations_path tz _ _ _ _ Hobs).
  unfold overlap_on. rewrite (no_business_hours_default _ _ _ Hbh).
  eexists. split; [reflexivity|].
  pose proof (minute_of_day_bounds (astimezone tz s)) as B1.
  pose proof (minute_of_day_bounds (astimezone tz (s + timedelta_of 0 1 0))) as B2.
  split; [unfold calculate_overlap; lia|].
  intros Hoff.
  assert (E : minute_of_day (astimezone tz (s + timedelta_of 0 1 0))
              = minute_of_day (astimezone tz s)).
  { rewrite !minute_of_day_wall. unfold wall, astimezone. simpl.
    rewrite Hoff. unfold timedelta_of, US_PER_DAY, US_PER_HOUR, US_PER_MINUTE.
    replace (s + ((0 * 7 + 1) * 86400000000 + 0 * 3600000000) + tz s)
      with (s + tz s + 1440 * 60000000) by lia.
    rewrite Z.div_add by lia.
    rewrite <- (Z.mod_add ((s + tz s) / 60000000) 1 1440) by lia.
    reflexivity. }
  rewrite E. unfold calculate_overlap. lia.
Qed.

Lemma no_data_day_window_downtime_witness :
  exists downtime : Z,
    calculate_uptime_downtime zones_2023 empty_session "store"
      (mkdatetime 2023 1 24 0 0 0)
      (mkdatetime 2023 1 24 0 0 0 + timedelta_of 0 1 0) = Ok (0, downtime)
    /\ 0 <= downtime <= 1439
    /\ (america_chicago_2023 (mkdatetime 2023 1 24 0 0 0 + timedelta_of 0 1 0)
        = america_chicago_2023 (mkdatetime 2023 1 24 0 0 0) ->
        downtime = 0).
Proof.
  apply (no_data_day_window_downtime zones_2023 empty_session "store"
           (mkdatetime 2023 1 24 0 0 0) america_chicago_2023).
  - reflexivity.
  - intros r [].
  - intros r [].
Defined.

(** C1, at a concrete window.  A store without any row, default zone,
    window 2023-01-24 00:00 to 2023-01-25 00:00 UTC: the result is
    uptime 0 and downtime 0. *)
Example no_data_day_window_at_2023_01_24 :
  calculate_uptime_downtime zones_2023 empty_session "store"
    (mkdatetime 2023 1 24 0 0 0) (mkdatetime 2023 1 25 0 0 0) = Ok (0, 0).
Proof. vm_compute. reflexivity. Qed.

(** ** The per-store report *)






(** ** The worker *)

Lemma batches_cover {A} (n : nat) (l : list A) (x : A) :
  (0 < n)%nat -> In x l ->
  exists batch, In batch (batches n l) /\ In x batch.
Proof.
  intros Hn Hx.
  destruct (In_nth l x x Hx) as (i & Hi & Hnth).
  pose proof (Nat.div_mod_eq i n) as Ei.
  pose proof (Nat.mod_upper_bound i n ltac:(lia)) as Bi.
  exists (firstn n (skipn (i / n * n) l)). split.
  - unfold batches. apply in_map_iff. exists (i / n)%nat. split; [reflexivity|].
    apply in_seq. split; [lia|]. simpl.
    replace (List.length l + n - 1)%nat with ((List.length l - 1) + 1 * n)%nat by lia.
    rewrite Nat.div_add by lia.
    pose proof (Nat.Div0.div_le_mono i (List.length l - 1) n ltac:(lia)). lia.
  - rewrite <- Hnth.
    replace (nth i l x) with (nth (i mod n) (firstn n (skipn (i / n * n) l)) x).
    + apply nth_In. rewrite length_firstn, length_skipn. lia.
    + rewrite nth_firstn.
      destruct (Nat.ltb_spec (i mod n) n) as [_|]; [|lia].
      rewrite nth_skipn. f_equal. lia.
Qed.

Section WorkerFacts.

Variable pytz_timezone : string -> option tzinfo.
Variable mkstemp : list string -> string.

Lemma batch_results_log session now batch : forall log,
  exists calls,
    snd (batch_results pytz_timezone session now batch log)
    = log ++ map StoreReportCall calls.
Proof.
  induction batch as [|store_id rest IH]; intros log; simpl.
  - exists []. simpl. rewrite app_nil_r. reflexivity.
  - destruct (generate_store_report pytz_timezone session store_id now).
    + destruct (IH (log ++ [StoreReportCall store_id])) as (calls & E).
      destruct (batch_results pytz_timezone session now rest
                  (log ++ [StoreReportCall store_id])) as [[rs|e] log'];
        simpl in *; exists (store_id :: calls); rewrite E, <- app_assoc;
        reflexivity.
    + exists [store_id]. reflexivity.
Qed.

Lemma batch_results_raises session now batch store_id e : forall log,
  In store_id batch ->
  generate_store_report pytz_timezone session store_id now = Raise e ->
  exists e', fst (batch_results pytz_timezone session now batch log) = Raise e'.
Proof.
  induction batch as [|x rest IH]; intros log Hin He; [destruct Hin|].
  simpl.
  destruct (generate_store_report pytz_timezone session x now) as [r|e0] eqn:Ex.
  - destruct Hin as [->|Hin]; [congruence|].
    destruct (IH (log ++ [StoreReportCall x]) Hin He) as (e' & E).
    destruct (batch_results pytz_timezone session now rest
                (log ++ [StoreReportCall x])) as [[rs|e1] log'];
      simpl in *; [discriminate|]. exists e1. reflexivity.
  - exists e0. reflexivity.
Qed.

Lemma process_batches_log session now bs : forall all_results log,
  exists calls,
    snd (process_batches pytz_timezone session now bs all_results log)
    = log ++ map StoreReportCall calls.
Proof.
  induction bs as [|batch rest IH]; intros all_results log; simpl.
  - exists []. simpl. rewrite app_nil_r. reflexivity.
  - destruct (batch_results_log session now batch log) as (c1 & E1).
    destruct (batch_results pytz_timezone session now batch log)
      as [[rs|e] log1]; simpl in E1; subst log1.
    + destruct (IH (all_results ++ rs) (log ++ map StoreReportCall c1))
        as (c2 & E2).
      exists (c1 ++ c2). rewrite E2, map_app, app_assoc. reflexivity.
    + exists c1. reflexivity.
Qed.

Lemma process_batches_raises session now bs batch store_id e :
  forall all_results log,
  In batch bs -> In store_id batch ->
  generate_store_report pytz_timezone session store_id now = Raise e ->
  exists e',
    fst (process_batches pytz_timezone session now bs all_results log)
    = Raise e'.
Proof.
  induction bs as [|b rest IH]; intros all_results log Hb Hin He;
    [destruct Hb|]. simpl.
  destruct (batch_results pytz_timezone session now b log)
    as [[rs|e1] log1] eqn:Eb.
  - destruct Hb as [->|Hb].
    + destruct (batch_results_raises session now batch store_id e log Hin He)
        as (e' & E).
      rewrite Eb in E. discriminate.
    + eapply IH; eassumption.
  - exists e1. reflexivity.
Qed.

Lemma query_get_update_same report_id f rs :
  (forall r, Report.id (f r) = Report.id r) ->
  query_get (update_report report_id f rs) report_id
  = option_map f (query_get rs report_id).
Proof.
  intros Hid. unfold query_get, update_report.
  induction rs as [|r rs IH]; simpl; [reflexivity|].
  destruct (String.eqb (Report.id r) report_id) eqn:E.
  - rewrite Hid, E. reflexivity.
  - rewrite E. exact IH.
Qed.

Lemma query_get_update_other report_id other f rs :
  (forall r, Report.id (f r) = Report.id r) ->
  other <> report_id ->
  query_get (update_report report_id f rs) other = query_get rs other.
Proof.
  intros Hid Hne. unfold query_get, update_report.
  induction rs as [|r rs IH]; simpl; [reflexivity|].
  destruct (String.eqb_spec (Report.id r) report_id) as [E|E].
  - rewrite Hid. destruct (String.eqb_spec (Report.id r) other) as [E'|E'].
    + congruence.
    + exact IH.
  - destruct (String.eqb (Report.id r) other); [reflexivity|exact IH].
Qed.

Lemma max_timestamp_none rows : max_timestamp rows = None <-> rows = [].
Proof.
  destruct rows as [|r rest]; simpl; [tauto|].
  destruct (max_timestamp rest); split; discriminate.
Qed.

End WorkerFacts.

(** C7. When the worker runs a job and the dataset has no observation
    (there is no maximum timestamp), the job row gets status Error and
    keeps its empty filename; no [generate_store_report] call is made,
    no file is written, and the other jobs are untouched. *)
Theorem empty_dataset_sets_error :
  forall (pytz_timezone : string -> option tzinfo)
         (mkstemp : list string -> string)
         (report_id : string) (w : World) (report : Report.t),
    query_get (reports (db w)) report_id = Some report ->
    store_status (db w) = [] ->
    let w' := generate_report_and_update_db pytz_timezone mkstemp report_id w in
    max_timestamp (store_status (db w)) = None
    /\ query_get (reports (db w')) report_id = Some (set_error report)
    /\ Report.status (set_error report) = "Error"%string
    /\ Report.filename (set_error report) = Report.filename report
    /\ tmpdir w' = tmpdir w
    /\ effects w' = effects w
    /\ (forall other, other <> report_id ->
          query_get (reports (db w')) other = query_get (reports (db w)) other).
Proof.
  intros pytz mkstemp report_id w report Hget Hempty w'.
  assert (Hmax : max_timestamp (store_status (db w)) = None)
    by (apply max_timestamp_none; exact Hempty).
  subst w'. unfold generate_report_and_update_db. rewrite Hget, Hmax.
  cbn [db tmpdir effects with_reports reports].
  repeat split.
  - rewrite query_get_update_same by reflexivity. rewrite Hget. reflexivity.
  - intros other Hne. apply query_get_update_other; [reflexivity|exact Hne].
Qed.

Lemma empty_dataset_sets_error_witness :
  let w' := generate_report_and_update_db zones_2023 longer_name "job"
              no_observation_world in
  query_get (reports (db w')) "job" = Some (Report.Build "job" "Error" None)
  /\ tmpdir w' = [] /\ effects w' = [].
Proof.
  destruct (empty_dataset_sets_error zones_2023 longer_name "job"
              no_observation_world (Report.Build "job" "Running" None)
              eq_refl eq_refl) as (_ & G & _ & _ & T & E & _).
  repeat split; assumption.
Defined.

(** C2, as the code has it.  If the report of some store of the run
    raises, the exception leaves the loop over the stores: the handler of
    the run sets the job's status to Error, the filename stays as it
    was, no file is written, and the only effects are the calls made up
    to the failure. *)
Theorem failing_store_sets_error :
  forall (pytz_timezone : string -> option tzinfo)
         (mkstemp : list string -> string)
         (report_id : string) (w : World) (report : Report.t)
         (now : datetime) (store_id : string) (e : exn),
    query_get (reports (db w)) report_id = Some report ->
    max_timestamp (store_status (db w)) = Some now ->
    In store_id (distinct (map StoreStatus.store_id (store_status (db w)))) ->
    generate_store_report pytz_timezone (db w) store_id now = Raise e ->
    let w' := generate_report_and_update_db pytz_timezone mkstemp report_id w in
    query_get (reports (db w')) report_id = Some (set_error report)
    /\ Report.status (set_error report) = "Error"%string
    /\ Report.filename (set_error report) = Report.filename report
    /\ tmpdir w' = tmpdir w
    /\ exists calls, effects w' = effects w ++ map StoreReportCall calls.
Proof.
  intros pytz mkstemp report_id w report now store_id e Hget Hmax Hin He w'.
  subst w'. unfold generate_report_and_update_db. rewrite Hget, Hmax.
  destruct (batches_cover 100 _ store_id ltac:(lia) Hin)
    as (batch & Hbatch & Hstore).
  destruct (process_batches_raises pytz (db w) now _ batch store_id e
              [] (effects w) Hbatch Hstore He) as (e' & Er).
  destruct (process_batches_log pytz (db w) now
              (batches 100 (distinct (map StoreStatus.store_id
                                        (store_status (db w)))))
              [] (effects w)) as (calls & El).
  destruct (process_batches pytz (db w) now _ [] (effects w))
    as [[rows|e1] log]; simpl in Er, El; [discriminate|].
  cbn [db tmpdir effects with_reports reports].
  repeat split; auto.
  - rewrite query_get_update_same by reflexivity. rewrite Hget. reflexivity.
  - exists calls. exact El.
Qed.

Lemma failing_store_sets_error_witness :
  let w' := generate_report_and_update_db zones_2023 longer_name "job"
              two_stores in
  query_get (reports (db w')) "job" = Some (Report.Build "job" "Error" None)
  /\ tmpdir w' = [].
Proof.
  destruct (failing_store_sets_error zones_2023 longer_name "job" two_stores
              (Report.Build "job" "Running" None)
              (mkdatetime 2023 1 23 10 30 0) "b"
              (UnknownTimeZoneError "Mars/Olympus")
              eq_refl eq_refl ltac:(simpl; tauto) eq_refl)
    as (G & _ & _ & T & _).
  split; assumption.
Defined.

(** C2, counterexample.  Two distinct stores; the report of store [a]
    is computed, the report of store [b] raises.  After the worker's run
    the job is in Error, not Complete, and there is no artifact (rather
    than one with a single row). *)
Lemma one_failing_store_of_two :
  distinct (map StoreStatus.store_id (store_status (db two_stores)))
  = ["a"; "b"]%string
  /\ (exists row,
        generate_store_report zones_2023 (db two_stores) "a"
          (mkdatetime 2023 1 23 10 30 0) = Ok row)
  /\ generate_store_report zones_2023 (db two_stores) "b"
       (mkdatetime 2023 1 23 10 30 0)
     = Raise (UnknownTimeZoneError "Mars/Olympus")
  /\ query_get (reports (db (worker_run zones_2023 longer_name two_stores)))
       "job" = Some (Report.Build "job" "Error" None)
  /\ tmpdir (worker_run zones_2023 longer_name two_stores) = []
  /\ effects (worker_run zones_2023 longer_name two_stores)
     = [StoreReportCall "a"; StoreReportCall "b"].
Proof.
  split; [reflexivity|]. split; [eexists; vm_compute; reflexivity|].
  repeat split; vm_compute; reflexivity.
Qed.

(** *** A run in which every store's report is computed *)

Lemma firstn_plus {A} (a b : nat) : forall l : list A,
  firstn (a + b) l = firstn a l ++ firstn b (skipn a l).
Proof.
  induction a as [|a IH]; intros l; [reflexivity|].
  destruct l as [|x l]; simpl.
  - rewrite firstn_nil. reflexivity.
  - rewrite IH. reflexivity.
Qed.

Lemma batches_prefix {A} (n : nat) (l : list A) (k : nat) :
  List.concat (map (fun i => firstn n (skipn (i * n) l)) (seq 0 k))
  = firstn (k * n) l.
Proof.
  induction k as [|k IH]; [reflexivity|].
  rewrite seq_S, map_app, List.concat_app, IH. simpl.
  rewrite app_nil_r, <- firstn_plus. f_equal. lia.
Qed.

(** The batches are the list of stores, cut in slices. *)
Lemma batches_concat {A} (n : nat) (l : list A) :
  (0 < n)%nat -> List.concat (batches n l) = l.
Proof.
  intros Hn. unfold batches. rewrite batches_prefix.
  apply firstn_all2.
  pose proof (Nat.div_mod_eq (List.length l + n - 1) n) as E.
  pose proof (Nat.mod_upper_bound (List.length l + n - 1) n ltac:(lia)) as B.
  nia.
Qed.

Section WorkerSuccess.

Variable pytz_timezone : string -> option tzinfo.
Variable mkstemp : list string -> string.




End WorkerSuccess.

(** ** The life cycle of a job *)

Section LifeCycle.

Variable pytz_timezone : string -> option tzinfo.
Variable mkstemp : list string -> string.

(** The contract of [NamedTemporaryFile]: the file is new. *)
Hypothesis mkstemp_fresh : forall names, ~ In (mkstemp names) names.

Lemma query_get_id rs report_id r :
  query_get rs report_id = Some r -> Report.id r = report_id.
Proof.
  unfold query_get. intros H. apply find_some in H.
  apply String.eqb_eq. tauto.
Qed.

Lemma query_get_app rs r report_id :
  query_get (rs ++ [r]) report_id
  = match query_get rs report_id with
    | Some x => Some x
    | None => if String.eqb (Report.id r) report_id then Some r else None
    end.
Proof.
  unfold query_get. induction rs as [|x rs IH]; simpl; [reflexivity|].
  destruct (String.eqb (Report.id x) report_id); [reflexivity|exact IH].
Qed.

(** The three outcomes of a run of the worker on a job. *)
Lemma worker_outcomes report_id w :
  (job w report_id = None /\ generate_report_and_update_db pytz_timezone mkstemp report_id w = w)
  \/ (exists r, job w report_id = Some r
        /\ reports (db (generate_report_and_update_db pytz_timezone mkstemp report_id w))
           = update_report report_id set_error (reports (db w))
        /\ tmpdir (generate_report_and_update_db pytz_timezone mkstemp report_id w) = tmpdir w
        /\ executor (generate_report_and_update_db pytz_timezone mkstemp report_id w) = executor w)
  \/ (exists r rows, job w report_id = Some r
        /\ reports (db (generate_report_and_update_db pytz_timezone mkstemp report_id w))
           = update_report report_id
               (set_complete (mkstemp (map fst (tmpdir w)))) (reports (db w))
        /\ tmpdir (generate_report_and_update_db pytz_timezone mkstemp report_id w)
           = (mkstemp (map fst (tmpdir w)), rows) :: tmpdir w
        /\ executor (generate_report_and_update_db pytz_timezone mkstemp report_id w) = executor w).
Proof.
  unfold generate_report_and_update_db, job.
  destruct (query_get (reports (db w)) report_id) as [r|]; [|left; auto].
  right.
  destruct (max_timestamp (store_status (db w))) as [now|].
  - destruct (process_batches pytz_timezone (db w) now _ [] (effects w))
      as [[rows|e] log].
    + right. exists r, rows. auto.
    + left. exists r. auto.
  - left. exists r. auto.
Qed.

Lemma well_formed_job_more_files w w' r :
  (forall name, In name (map fst (tmpdir w)) -> In name (map fst (tmpdir w'))) ->
  well_formed_job w r -> well_formed_job w' r.
Proof.
  intros Hsub [H|[H|(H & name & Hf & Hin)]]; [left; exact H|right; left; exact H|].
  right. right. split; [exact H|]. exists name. auto.
Qed.

(** A run of the worker on a Running job that is not submitted twice. *)
Lemma worker_step report_id w r :
  job w report_id = Some r ->
  Report.status r = "Running"%string ->
  Report.filename r = None ->
  ~ In report_id (executor w) ->
  (forall other, In other (executor w) ->
     exists x, job w other = Some x /\ Report.status x = "Running"%string) ->
  (forall other x, job w other = Some x ->
     Report.id x = other /\ well_formed_job w x) ->
  let w' := generate_report_and_update_db pytz_timezone mkstemp report_id w in
  executor w' = executor w
  /\ (exists r', job w' report_id = Some r' /\ transition r r'
                 /\ Report.status r' <> "Running"%string)
  /\ (forall other, other <> report_id -> job w' other = job w other)
  /\ (forall other x, job w' other = Some x ->
        Report.id x = other /\ well_formed_job w' x)
  /\ (exists new, tmpdir w' = new ++ tmpdir w
                  /\ forall f, In f new -> ~ In (fst f) (map fst (tmpdir w))).
Proof.
  intros Hjob Hrun Hfile Hnotin Hq Hwf w'. subst w'.
  destruct (worker_outcomes report_id w)
    as [[Hnone _]|[(r0 & Hr0 & Hrs & Htmp & Hex)
                  |(r0 & rows & Hr0 & Hrs & Htmp & Hex)]].
  - congruence.
  - assert (r0 = r) by congruence. subst r0.
    unfold job in *. rewrite Hrs.
    split; [exact Hex|]. split; [|split; [|split]].
    + exists (set_error r). rewrite query_get_update_same by reflexivity.
      rewrite Hjob. split; [reflexivity|]. split; [|simpl; discriminate].
      right. right. simpl. auto.
    + intros other Hne. apply query_get_update_other; [reflexivity|exact Hne].
    + intros other x Hx.
      destruct (String.eqb_spec other report_id) as [->|Hne].
      * rewrite query_get_update_same in Hx by reflexivity.
        rewrite Hjob in Hx. inversion Hx; subst x.
        split; [apply (Hwf _ _ Hjob)|]. right. left. simpl. auto.
      * rewrite query_get_update_other in Hx by (reflexivity || exact Hne).
        destruct (Hwf _ _ Hx) as [Hid Hw]. split; [exact Hid|].
        eapply well_formed_job_more_files; [|exact Hw].
        rewrite Htmp. auto.
    + exists []. rewrite Htmp. split; [reflexivity|]. intros f [].
  - assert (r0 = r) by congruence. subst r0.
    unfold job in *. rewrite Hrs.
    split; [exact Hex|]. split; [|split; [|split]].
    + exists (set_complete (mkstemp (map fst (tmpdir w))) r).
      rewrite query_get_update_same by reflexivity.
      rewrite Hjob. split; [reflexivity|]. split; [|simpl; discriminate].
      right. left. simpl. eauto.
    + intros other Hne. apply query_get_update_other; [reflexivity|exact Hne].
    + intros other x Hx.
      destruct (String.eqb_spec other report_id) as [->|Hne].
      * rewrite query_get_update_same in Hx by reflexivity.
        rewrite Hjob in Hx. inversion Hx; subst x.
        split; [apply (Hwf _ _ Hjob)|]. right. right. simpl.
        split; [reflexivity|]. eexists. split; [reflexivity|].
        rewrite Htmp. left. reflexivity.
      * rewrite query_get_update_other in Hx by (reflexivity || exact Hne).
        destruct (Hwf _ _ Hx) as [Hid Hw]. split; [exact Hid|].
        eapply well_formed_job_more_files; [|exact Hw].
        rewrite Htmp. intros name Hin. right. exact Hin.
    + exists [(mkstemp (map fst (tmpdir w)), rows)]. rewrite Htmp.
      split; [reflexivity|]. intros f [<-|[]]. simpl. apply mkstemp_fresh.
Qed.

Lemma running_job_has_no_file w r :
  well_formed_job w r -> Report.status r = "Running"%string ->
  Report.filename r = None.
Proof.
  intros [[_ H]|[[_ H]|[H _]]] Hrun; auto. rewrite Hrun in H. discriminate.
Qed.

Lemma step_effect_refl w : step_effect w w.
Proof.
  split.
  - intros id r H. exists r. split; [exact H|]. split; [left|]; reflexivity.
  - exists []. split; [reflexivity|]. intros f [].
Qed.

Lemma trigger_step uuid w :
  invariant w ->
  invariant (fst (trigger_report uuid w))
  /\ step_effect w (fst (trigger_report uuid w)).
Proof.
  intros (Hnd & Hq & Hwf). unfold trigger_report.
  destruct (query_get (reports (db w)) uuid) as [x|] eqn:Hu; simpl.
  - split; [exact (conj Hnd (conj Hq Hwf))|apply step_effect_refl].
  - assert (Hkeep : forall id r, job w id = Some r ->
              query_get (reports (db w) ++
                           [{| Report.id := uuid; Report.status := "Running";
                               Report.filename := None |}]) id = Some r).
    { intros id r H. rewrite query_get_app. unfold job in H. rewrite H.
      reflexivity. }
    split; [split; [|split]|split].
    + apply NoDup_app; [exact Hnd|repeat constructor; intros []|].
      intros id Hin [<-|[]]. destruct (Hq _ Hin) as (r & Hr & _).
      unfold job in Hr. congruence.
    + intros id Hin. unfold job. simpl. apply in_app_or in Hin.
      destruct Hin as [Hin|[<-|[]]].
      * destruct (Hq _ Hin) as (r & Hr & Hs). exists r. auto.
      * rewrite query_get_app, Hu. simpl. rewrite String.eqb_refl.
        eexists. split; reflexivity.
    + intros id r. unfold job. simpl. rewrite query_get_app.
      destruct (query_get (reports (db w)) id) as [x|] eqn:Hx.
      * intros E. inversion E; subst x. destruct (Hwf _ _ Hx) as [Hid Hw].
        split; [exact Hid|]. exact Hw.
      * simpl. destruct (String.eqb_spec uuid id) as [->|]; [|discriminate].
        intros E. inversion E; subst r. split; [reflexivity|].
        left. simpl. auto.
    + intros id r H. exists r. split; [apply Hkeep; exact H|].
      split; [left|]; reflexivity.
    + exists []. split; [reflexivity|]. intros f [].
Qed.

Lemma work_step w :
  invariant w ->
  invariant (worker_run pytz_timezone mkstemp w)
  /\ step_effect w (worker_run pytz_timezone mkstemp w).
Proof.
  intros (Hnd & Hq & Hwf). unfold worker_run.
  destruct (executor w) as [|report_id rest] eqn:Hex.
  - split; [|apply step_effect_refl].
    unfold invariant. rewrite Hex. auto.
  - set (w0 := {| db := db w; tmpdir := tmpdir w; executor := rest;
                  effects := effects w |}).
    inversion Hnd as [|? ? Hnotin Hnd']; subst.
    destruct (Hq report_id (or_introl eq_refl)) as (r & Hr & Hrun).
    destruct (Hwf _ _ Hr) as [Hid Hw].
    pose proof (running_job_has_no_file w r Hw Hrun) as Hfile.
    assert (Hq0 : forall other, In other (executor w0) ->
              exists x, job w0 other = Some x
                        /\ Report.status x = "Running"%string)
      by (intros other Hin; apply Hq; right; exact Hin).
    destruct (@worker_step report_id w0 r Hr Hrun Hfile Hnotin Hq0 Hwf)
      as (Hex' & (r' & Hr' & Htr & Hterm) & Hother & Hwf' & Hnew).
    split; [split; [|split]|split].
    + rewrite Hex'. exact Hnd'.
    + intros other Hin. rewrite Hex' in Hin.
      assert (other <> report_id) by (intros ->; contradiction).
      rewrite Hother by assumption. apply Hq0. exact Hin.
    + exact Hwf'.
    + intros id x Hx. destruct (String.eqb_spec id report_id) as [->|Hne].
      * assert (x = r) by (unfold job in *; congruence). subst x.
        exists r'. split; [exact Hr'|]. split; [exact Htr|].
        intros Hn. contradiction.
      * exists x. rewrite Hother by exact Hne.
        split; [exact Hx|]. split; [left|]; reflexivity.
    + exact Hnew.
Qed.

Lemma step_invariant o w :
  invariant w ->
  invariant (step pytz_timezone mkstemp o w)
  /\ step_effect w (step pytz_timezone mkstemp o w).
Proof.
  intros Hinv. destruct o as [uuid| |report_id]; simpl.
  - apply trigger_step. exact Hinv.
  - apply work_step. exact Hinv.
  - split; [exact Hinv|apply step_effect_refl].
Qed.

Lemma reachable_invariant w :
  reachable pytz_timezone mkstemp w -> invariant w.
Proof.
  induction 1 as [w Hr He|o w _ IH].
  - unfold invariant, job. rewrite Hr, He. simpl.
    split; [constructor|]. split; [intros ? []|discriminate].
  - apply step_invariant. exact IH.
Qed.

Lemma reachable_run ops : forall w,
  reachable pytz_timezone mkstemp w ->
  reachable pytz_timezone mkstemp (run pytz_timezone mkstemp ops w).
Proof.
  induction ops as [|o ops IH]; intros w H; simpl; [exact H|].
  apply IH. apply reachable_step. exact H.
Qed.

Lemma find_file_more name new (files : list (string * list ReportRow)) :
  (forall f, In f new -> ~ In (fst f) (map fst files)) ->
  In name (map fst files) ->
  find (fun f => String.eqb (fst f) name) (new ++ files)
  = find (fun f => String.eqb (fst f) name) files.
Proof.
  intros Hnew Hin. induction new as [|f new IH]; simpl; [reflexivity|].
  destruct (String.eqb_spec (fst f) name) as [E|_].
  - exfalso. apply (Hnew f (or_introl eq_refl)). rewrite E. exact Hin.
  - apply IH. intros g Hg. apply Hnew. right. exact Hg.
Qed.

(** A terminal job and the answer to its poll survive a step. *)
Lemma terminal_job_step o w report_id r :
  invariant w ->
  job w report_id = Some r ->
  Report.status r <> "Running"%string ->
  job (step pytz_timezone mkstemp o w) report_id = Some r
  /\ get_report report_id (step pytz_timezone mkstemp o w)
     = get_report report_id w.
Proof.
  intros Hinv Hjob Hterm.
  destruct (step_invariant o w Hinv) as (_ & Hjobs & (new & Htmp & Hnew)).
  destruct (Hjobs _ _ Hjob) as (r' & Hr' & _ & Hsame).
  rewrite (Hsame Hterm) in Hr'. split; [exact Hr'|].
  unfold get_report. unfold job in Hjob, Hr'. rewrite Hjob, Hr'.
  destruct Hinv as (_ & _ & Hwf). destruct (Hwf _ _ Hjob) as [_ Hw].
  destruct Hw as [[H _]|[[H _]|(H & name & Hf & Hin)]];
    rewrite H; simpl; try reflexivity; try contradiction.
  rewrite Hf, Htmp, (find_file_more name new _ Hnew Hin). reflexivity.
Qed.

Lemma terminal_job_run ops : forall w report_id r,
  reachable pytz_timezone mkstemp w ->
  job w report_id = Some r ->
  Report.status r <> "Running"%string ->
  job (run pytz_timezone mkstemp ops w) report_id = Some r
  /\ get_report report_id (run pytz_timezone mkstemp ops w)
     = get_report report_id w.
Proof.
  induction ops as [|o ops IH]; intros w report_id r Hreach Hjob Hterm;
    simpl; [auto|].
  destruct (terminal_job_step o w report_id r
              (reachable_invariant w Hreach) Hjob Hterm) as [Hj Hg].
  destruct (IH _ report_id r (reachable_step _ _ o w Hreach) Hj Hterm) as [Hj' Hg'].
  split; [exact Hj'|]. rewrite Hg'. exact Hg.
Qed.

End LifeCycle.

Lemma append_length (a b : string) :
  String.length (a ++ b) = (String.length a + String.length b)%nat.
Proof. induction a as [|c a IH]; simpl; [reflexivity|]. rewrite IH. reflexivity. Qed.

Lemma longer_name_fresh names : ~ In (longer_name names) names.
Proof.
  assert (H : forall x, In x names ->
            (String.length x
             <= String.length (fold_right String.append EmptyString names))%nat).
  { induction names as [|n names IH]; intros x []; simpl; rewrite append_length.
    - subst. lia.
    - specialize (IH x H). lia. }
  intros Hin. specialize (H _ Hin). unfold longer_name in H. simpl in H. lia.
Qed.

(** C8. In every world the service can reach: a triggered job starts in
    Running without a filename; every job row is Running or Error
    without a filename, or Complete with the name of a file that exists;
    one operation changes a job row by at most one transition, from
    Running to Complete (with a filename) or from Running to Error
    (without one), and never changes a row that is not Running; a poll
    leaves the world as it is; and after any further operations a
    terminal job has the same row and its poll gives the same answer. *)
Theorem job_life_cycle :
  forall (pytz_timezone : string -> option tzinfo)
         (mkstemp : list string -> string),
    (forall names, ~ In (mkstemp names) names) ->
    forall w : World,
      reachable pytz_timezone mkstemp w ->
      (forall uuid, job w uuid = None ->
         job (step pytz_timezone mkstemp (Trigger uuid) w) uuid
         = Some {| Report.id := uuid; Report.status := "Running";
                   Report.filename := None |}
         /\ get_report uuid (step pytz_timezone mkstemp (Trigger uuid) w)
            = StatusRunning)
      /\ (forall report_id r, job w report_id = Some r -> well_formed_job w r)
      /\ (forall o report_id r,
            job w report_id = Some r ->
            exists r',
              job (step pytz_timezone mkstemp o w) report_id = Some r'
              /\ transition r r'
              /\ (Report.status r <> "Running"%string -> r' = r))
      /\ (forall report_id, step pytz_timezone mkstemp (Poll report_id) w = w)
      /\ (forall ops report_id r,
            job w report_id = Some r ->
            Report.status r <> "Running"%string ->
            job (run pytz_timezone mkstemp ops w) report_id = Some r
            /\ get_report report_id (run pytz_timezone mkstemp ops w)
               = get_report report_id w).
Proof.
  intros pytz mkstemp Hfresh w Hreach.
  pose proof (reachable_invariant pytz mkstemp Hfresh w Hreach) as Hinv.
  split; [|split; [|split; [|split]]].
  - intros uuid Hnone.
    assert (J : job (step pytz mkstemp (Trigger uuid) w) uuid
                = Some {| Report.id := uuid; Report.status := "Running";
                          Report.filename := None |}).
    { unfold job in *. simpl. unfold trigger_report. rewrite Hnone. simpl.
      rewrite query_get_app, Hnone. simpl. rewrite String.eqb_refl.
      reflexivity. }
    split; [exact J|]. unfold get_report. unfold job in J. rewrite J.
    reflexivity.
  - intros id r Hjob. destruct Hinv as (_ & _ & Hwf). apply (Hwf _ _ Hjob).
  - intros o id r Hjob.
    destruct (step_invariant pytz mkstemp Hfresh o w Hinv) as (_ & Hjobs & _).
    apply Hjobs. exact Hjob.
  - reflexivity.
  - intros ops id r Hjob Hterm.
    apply (terminal_job_run pytz mkstemp Hfresh ops w id r Hreach Hjob Hterm).
Qed.

Lemma job_life_cycle_witness :
  let w := run zones_2023 longer_name [Trigger "job"; Work] one_store in
  reachable zones_2023 longer_name w
  /\ (exists rows, get_report "job" w = CsvFile "t" rows)
  /\ get_report "job"
       (run zones_2023 longer_name
          [Poll "job"; Trigger "next"; Work; Trigger "job"; Poll "job"] w)
     = get_report "job" w.
Proof.
  intros w.
  assert (R : reachable zones_2023 longer_name w).
  { unfold w. apply reachable_run.
    apply reachable_start; reflexivity. }
  split; [exact R|]. split; [eexists; vm_compute; reflexivity|].
  destruct (job_life_cycle zones_2023 longer_name longer_name_fresh w R)
    as (_ & _ & _ & _ & Hstable).
  eapply Hstable; [vm_compute; reflexivity|discriminate].
Defined.

(** ** Uptime and downtime against the schedule *)

(** C4, counterexample.  Default zone America/Chicago, no business hours
    row (open around the clock), window 2023-03-12 07:30 to 08:30 UTC,
    that is 01:30 CST to 03:30 CDT: the window lasts 60 minutes, all of
    them scheduled open, and the estimator returns an uptime of 120. *)
Lemma spring_forward_hour_counted_twice :
  mkdatetime 2023 3 12 7 30 0 <= mkdatetime 2023 3 12 8 30 0
  /\ zones_2023 (get_store_timezone spring_forward "store")
     = Some america_chicago_2023
  /\ calculate_uptime_downtime zones_2023 spring_forward "store"
       (mkdatetime 2023 3 12 7 30 0) (mkdatetime 2023 3 12 8 30 0)
     = Ok (120, 0)
  /\ scheduled_open_minutes america_chicago_2023 spring_forward "store"
       (mkdatetime 2023 3 12 7 30 0) (mkdatetime 2023 3 12 8 30 0) = 60
  /\ ~ (120 + 0 <= 60).
Proof.
  split; [vm_compute; discriminate|]. split; [reflexivity|].
  split; [vm_compute; reflexivity|]. split; [vm_compute; reflexivity|lia].
Qed.

Lemma count_from_nonneg p n : forall a, 0 <= count_from p a n.
Proof.
  induction n as [|n IH]; intros a; simpl; [lia|].
  specialize (IH (a + 1)). destruct (p a); lia.
Qed.

Lemma count_from_app p n m : forall a,
  count_from p a (n + m)
  = count_from p a n + count_from p (a + Z.of_nat n) m.
Proof.
  induction n as [|n IH]; intros a.
  - simpl. rewrite Z.add_0_r. reflexivity.
  - cbn [Nat.add count_from]. rewrite IH.
    replace (a + 1 + Z.of_nat n) with (a + Z.of_nat (S n)) by lia. lia.
Qed.

Lemma count_from_mono p a n m :
  (n <= m)%nat -> count_from p a n <= count_from p a m.
Proof.
  intros H. replace m with (n + (m - n))%nat by lia.
  rewrite count_from_app.
  pose proof (count_from_nonneg p (m - n) (a + Z.of_nat n)). lia.
Qed.

Lemma count_from_ext p q n : forall a b,
  (forall k, 0 <= k < Z.of_nat n -> p (a + k) = q (b + k)) ->
  count_from p a n = count_from q b n.
Proof.
  induction n as [|n IH]; intros a b H; simpl; [reflexivity|].
  pose proof (H 0 ltac:(lia)) as H0. rewrite !Z.add_0_r in H0. rewrite H0.
  rewrite (IH (a + 1) (b + 1)); [reflexivity|].
  intros k Hk. replace (a + 1 + k) with (a + (k + 1)) by lia.
  replace (b + 1 + k) with (b + (k + 1)) by lia. apply H. lia.
Qed.

(** Counting the minutes of an interval of one day that lie within
    business hours is what [calculate_overlap] computes. *)
Lemma count_interval bs be n : forall m,
  count_from (fun x => (bs <=? x) && (x <? be)) m n
  = calculate_overlap bs be m (m + Z.of_nat n).
Proof.
  unfold calculate_overlap.
  induction n as [|n IH]; intros m.
  - simpl. lia.
  - cbn [count_from]. rewrite IH, Nat2Z.inj_succ.
    destruct (Z.leb_spec bs m); destruct (Z.ltb_spec m be); cbn [andb]; lia.
Qed.

Section Schedule.

Variable session : Session.
Variable store_id : string.

Lemma open_minute_day d m :
  0 <= m < 1440 ->
  open_minute session store_id (d * 1440 + m)
  = (let '(bs, be) := get_business_hours session store_id ((d + 3) mod 7) in
     (bs <=? m) && (m <? be)).
Proof.
  intros Hm. unfold open_minute.
  replace ((d * 1440 + m) / 1440) with d
    by (rewrite Z.add_comm, Z.div_add by lia; rewrite Z.div_small by lia; lia).
  replace ((d * 1440 + m) mod 1440) with m
    by (rewrite Z.add_comm, Z.mod_add by lia; rewrite Z.mod_small by lia; lia).
  reflexivity.
Qed.

(** Within one day, the open minutes from minute [m] on are the overlap
    of the day's business hours with the interval. *)
Lemma open_count_within_day d m n :
  0 <= m -> m + Z.of_nat n <= 1440 ->
  count_from (open_minute session store_id) (d * 1440 + m) n
  = overlap_on session store_id ((d + 3) mod 7) m (m + Z.of_nat n).
Proof.
  intros Hm Hn. unfold overlap_on.
  destruct (get_business_hours session store_id ((d + 3) mod 7))
    as [bs be] eqn:E.
  rewrite <- count_interval. apply count_from_ext.
  intros k Hk. replace (d * 1440 + m + k) with (d * 1440 + (m + k)) by lia.
  rewrite open_minute_day by lia. rewrite E. reflexivity.
Qed.

Lemma overlap_on_nonneg day i_s i_e :
  0 <= overlap_on session store_id day i_s i_e.
Proof.
  unfold overlap_on. destruct (get_business_hours session store_id day).
  apply calculate_overlap_nonneg.
Qed.

Lemma overlap_on_mono day i_s i_e i_e' :
  i_e <= i_e' ->
  overlap_on session store_id day i_s i_e
  <= overlap_on session store_id day i_s i_e'.
Proof.
  intros H. unfold overlap_on.
  destruct (get_business_hours session store_id day).
  unfold calculate_overlap. lia.
Qed.

(** The minutes credited between two local minutes [j1 <= j2]: what the
    loop body and the early return compute from the clock readings. *)
Lemma same_day_overlap_bound j1 j2 :
  j1 <= j2 -> j1 / 1440 = j2 / 1440 ->
  overlap_on session store_id ((j1 / 1440 + 3) mod 7)
    (j1 mod 1440) (j2 mod 1440)
  = count_from (open_minute session store_id) j1 (Z.to_nat (j2 - j1)).
Proof.
  intros Hle Hday.
  pose proof (Z.div_mod j1 1440 ltac:(lia)) as E1.
  pose proof (Z.div_mod j2 1440 ltac:(lia)) as E2.
  pose proof (Z.mod_pos_bound j1 1440 ltac:(lia)) as B1.
  pose proof (Z.mod_pos_bound j2 1440 ltac:(lia)) as B2.
  rewrite E1 at 3.
  replace (1440 * (j1 / 1440) + j1 mod 1440)
    with (j1 / 1440 * 1440 + j1 mod 1440) by lia.
  rewrite open_count_within_day by lia.
  f_equal. lia.
Qed.

Lemma first_day_overlap_bound j1 j2 i_e :
  j1 / 1440 < j2 / 1440 -> i_e <= 1440 ->
  overlap_on session store_id ((j1 / 1440 + 3) mod 7) (j1 mod 1440) i_e
  <= count_from (open_minute session store_id) j1
       (Z.to_nat ((j1 / 1440 + 1) * 1440 - j1)).
Proof.
  intros Hday Hie.
  pose proof (Z.div_mod j1 1440 ltac:(lia)) as E1.
  pose proof (Z.mod_pos_bound j1 1440 ltac:(lia)) as B1.
  rewrite E1 at 3.
  replace (1440 * (j1 / 1440) + j1 mod 1440)
    with (j1 / 1440 * 1440 + j1 mod 1440) by lia.
  rewrite open_count_within_day by lia.
  etransitivity; [apply (overlap_on_mono _ _ i_e 1440); lia|].
  apply Z.eq_le_incl. f_equal. lia.
Qed.

Lemma split_day_overlap_bound j1 j2 :
  j1 / 1440 < j2 / 1440 ->
  overlap_on session store_id ((j1 / 1440 + 3) mod 7)
    (j1 mod 1440) (23 * 60 + 59)
  + overlap_on session store_id ((j2 / 1440 + 3) mod 7) 0 (j2 mod 1440)
  <= count_from (open_minute session store_id) j1 (Z.to_nat (j2 - j1)).
Proof.
  intros Hday.
  pose proof (Z.div_mod j1 1440 ltac:(lia)) as E1.
  pose proof (Z.div_mod j2 1440 ltac:(lia)) as E2.
  pose proof (Z.mod_pos_bound j1 1440 ltac:(lia)) as B1.
  pose proof (Z.mod_pos_bound j2 1440 ltac:(lia)) as B2.
  pose proof (first_day_overlap_bound j1 j2 (23 * 60 + 59) Hday ltac:(lia)) as F.
  assert (S2 : overlap_on session store_id ((j2 / 1440 + 3) mod 7)
                 0 (j2 mod 1440)
               = count_from (open_minute session store_id)
                   (j2 / 1440 * 1440) (Z.to_nat (j2 mod 1440))).
  { replace (j2 / 1440 * 1440) with (j2 / 1440 * 1440 + 0) by lia.
    rewrite open_count_within_day by lia. f_equal. lia. }
  set (n1 := Z.to_nat ((j1 / 1440 + 1) * 1440 - j1)) in *.
  set (n2 := Z.to_nat (j2 / 1440 * 1440 - (j1 / 1440 + 1) * 1440)).
  set (n3 := Z.to_nat (j2 mod 1440)) in *.
  replace (Z.to_nat (j2 - j1)) with (n1 + (n2 + n3))%nat by (unfold n1, n2, n3; lia).
  rewrite !count_from_app.
  pose proof (count_from_nonneg (open_minute session store_id) n2
                (j1 + Z.of_nat n1)) as N2.
  replace (j1 + Z.of_nat n1 + Z.of_nat n2) with (j2 / 1440 * 1440)
    by (unfold n1, n2; lia).
  lia.
Qed.

End Schedule.

Lemma date_local_minute a : date a = local_minute a / 1440.
Proof. apply date_wall. Qed.

Lemma minute_of_day_local_minute a : minute_of_day a = local_minute a mod 1440.
Proof. apply minute_of_day_wall. Qed.

Lemma is_open_at_local tz session store_id t :
  is_open_at tz session store_id t
  = open_minute session store_id (local_minute (astimezone tz t)).
Proof.
  unfold is_open_at, open_minute, weekday.
  rewrite date_local_minute, minute_of_day_local_minute. reflexivity.
Qed.

Lemma credit_total status m acc : total (credit status m acc) = total acc + m.
Proof.
  unfold credit, total. destruct acc as [u d].
  destruct (String.eqb status "active"); simpl; lia.
Qed.

Lemma credit_nonneg status m acc :
  0 <= m -> 0 <= fst acc /\ 0 <= snd acc ->
  0 <= fst (credit status m acc) /\ 0 <= snd (credit status m acc).
Proof.
  unfold credit. destruct acc as [u d].
  destruct (String.eqb status "active"); simpl; lia.
Qed.

Section Segments.

Variable session : Session.
Variable store_id : string.

Lemma segment_nonneg p q acc :
  0 <= fst acc /\ 0 <= snd acc ->
  0 <= fst (segment session store_id p q acc)
  /\ 0 <= snd (segment session store_id p q acc).
Proof.
  intros H. unfold segment.
  destruct (negb (date (fst p) =? date (fst q)));
    repeat apply credit_nonneg; auto using overlap_on_nonneg.
Qed.

Lemma segments_nonneg points : forall acc,
  0 <= fst acc /\ 0 <= snd acc ->
  0 <= fst (segments session store_id points acc)
  /\ 0 <= snd (segments session store_id points acc).
Proof.
  induction points as [|p rest IH]; intros acc H; [exact H|].
  destruct rest as [|q rest]; [exact H|].
  change (segments session store_id (p :: q :: rest) acc)
    with (segments session store_id (q :: rest)
            (segment session store_id p q acc)).
  apply IH. apply segment_nonneg. exact H.
Qed.

(** One pass of the loop credits at most the open minutes between the
    two points. *)
Lemma segment_bound p q acc :
  local_minute (fst p) <= local_minute (fst q) ->
  total (segment session store_id p q acc)
  <= total acc
     + count_from (open_minute session store_id) (local_minute (fst p))
         (Z.to_nat (local_minute (fst q) - local_minute (fst p))).
Proof.
  intros Hle. unfold segment, weekday.
  rewrite !date_local_minute, !minute_of_day_local_minute.
  set (j1 := local_minute (fst p)) in *.
  set (j2 := local_minute (fst q)) in *.
  destruct (Z.eqb_spec (j1 / 1440) (j2 / 1440)) as [E|N]; cbn [negb].
  - rewrite credit_total, same_day_overlap_bound by assumption. reflexivity.
  - rewrite !credit_total.
    assert (Hd : j1 / 1440 < j2 / 1440).
    { pose proof (Z.div_le_mono j1 j2 1440 ltac:(lia) Hle). lia. }
    pose proof (split_day_overlap_bound session store_id j1 j2 Hd).
    lia.
Qed.

Lemma last_cons_default {A} (l : list A) : forall x d,
  last (x :: l) d = last l x.
Proof.
  induction l as [|y l IH]; intros x d; [reflexivity|].
  change (last (x :: y :: l) d) with (last (y :: l) d).
  rewrite !IH. reflexivity.
Qed.

Lemma last_in {A} (l : list A) : forall d, In (last l d) (d :: l).
Proof.
  induction l as [|x l IH]; intros d; [left; reflexivity|].
  right. rewrite last_cons_default. apply IH.
Qed.

Lemma segments_bound points : forall p acc,
  StronglySorted minute_le (p :: points) ->
  total (segments session store_id (p :: points) acc)
  <= total acc
     + count_from (open_minute session store_id) (local_minute (fst p))
         (Z.to_nat (local_minute (fst (last points p))
                    - local_minute (fst p))).
Proof.
  induction points as [|q rest IH]; intros p acc Hs.
  - simpl. rewrite Z.sub_diag. simpl. lia.
  - apply StronglySorted_inv in Hs. destruct Hs as [Hs Hall].
    assert (Hpq : minute_le p q) by (inversion Hall; assumption).
    assert (Hql : minute_le q (last rest q)).
    { destruct (last_in rest q) as [<-|Hin]; [unfold minute_le; lia|].
      apply StronglySorted_inv in Hs. destruct Hs as [_ Hq].
      rewrite Forall_forall in Hq. apply Hq. exact Hin. }
    change (segments session store_id (p :: q :: rest) acc)
      with (segments session store_id (q :: rest)
              (segment session store_id p q acc)).
    rewrite last_cons_default.
    pose proof (IH q (segment session store_id p q acc) Hs) as B.
    pose proof (segment_bound p q acc Hpq) as S.
    unfold minute_le in Hpq, Hql.
    replace (Z.to_nat (local_minute (fst (last rest q)) - local_minute (fst p)))
      with (Z.to_nat (local_minute (fst q) - local_minute (fst p))
            + Z.to_nat (local_minute (fst (last rest q))
                        - local_minute (fst q)))%nat by lia.
    rewrite count_from_app.
    replace (local_minute (fst p)
             + Z.of_nat (Z.to_nat (local_minute (fst q) - local_minute (fst p))))
      with (local_minute (fst q)) by lia.
    lia.
Qed.

End Segments.

(** *** The points are in time order *)

Lemma insert_by_sorted x l :
  StronglySorted (fun a b => asc a b = true) l ->
  StronglySorted (fun a b => asc a b = true) (insert_by asc x l).
Proof.
  induction 1 as [|y l Hs IH Hall]; simpl.
  - constructor; constructor.
  - destruct (asc x y) eqn:E.
    + constructor; [constructor; assumption|].
      constructor; [exact E|].
      rewrite Forall_forall in *. intros z Hz. specialize (Hall z Hz).
      unfold asc in *. rewrite Z.leb_le in *. lia.
    + constructor; [exact IH|].
      rewrite Forall_forall in *. intros z Hz.
      apply insert_by_in in Hz. destruct Hz as [->|Hz]; [|auto].
      unfold asc in *. rewrite Z.leb_le. rewrite Z.leb_gt in E. lia.
Qed.

Lemma order_by_sorted l :
  StronglySorted (fun a b => asc a b = true) (order_by asc l).
Proof.
  induction l as [|x l IH]; simpl; [constructor|].
  apply insert_by_sorted. exact IH.
Qed.

Lemma StronglySorted_filter {A} (R : A -> A -> Prop) (f : A -> bool) l :
  StronglySorted R l -> StronglySorted R (filter f l).
Proof.
  induction 1 as [|x l Hs IH Hall]; simpl; [constructor|].
  destruct (f x); [|exact IH]. constructor; [exact IH|].
  rewrite Forall_forall in *. intros y Hy. apply filter_In in Hy.
  apply Hall. tauto.
Qed.

Lemma StronglySorted_map {A B} (R : B -> B -> Prop) (f : A -> B) l :
  StronglySorted (fun a b => R (f a) (f b)) l -> StronglySorted R (map f l).
Proof.
  induction 1 as [|x l Hs IH Hall]; simpl; constructor; [exact IH|].
  rewrite Forall_forall in *. intros y Hy. apply in_map_iff in Hy.
  destruct Hy as (a & <- & Ha). auto.
Qed.

Lemma StronglySorted_snoc {A} (R : A -> A -> Prop) l z :
  StronglySorted R l -> Forall (fun x => R x z) l ->
  StronglySorted R (l ++ [z]).
Proof.
  induction 1 as [|x l Hs IH Hall]; intros Hz; simpl.
  - constructor; constructor.
  - inversion Hz; subst. constructor; [auto|].
    apply Forall_app. split; [exact Hall|]. constructor; [assumption|constructor].
Qed.

Section Window.

Variable tz : tzinfo.
Variable start_time end_time : datetime.
Hypothesis window : start_time <= end_time.
Hypothesis one_offset :
  forall t, start_time <= t <= end_time -> tz t = tz start_time.

Lemma local_minute_mono t1 t2 :
  start_time <= t1 -> t1 <= t2 -> t2 <= end_time ->
  local_minute (astimezone tz t1) <= local_minute (astimezone tz t2).
Proof.
  intros H1 H12 H2. unfold local_minute, wall, astimezone. simpl.
  rewrite (one_offset t1), (one_offset t2) by lia.
  apply Z.div_le_mono; [unfold US_PER_MINUTE|]; lia.
Qed.

Lemma all_status_points_sorted initial_status status_records :
  StronglySorted (fun a b => asc a b = true) status_records ->
  StronglySorted minute_le
    (all_status_points tz start_time end_time initial_status status_records).
Proof.
  intros Hs. unfold all_status_points. cbn [app].
  set (inside := fun record : StoreStatus.t =>
         aware_ltb (astimezone tz start_time)
           (astimezone tz (StoreStatus.timestamp_utc record))
         && aware_ltb (astimezone tz (StoreStatus.timestamp_utc record))
              (astimezone tz end_time)).
  assert (Hin : forall r, In r (filter inside status_records) ->
            start_time < StoreStatus.timestamp_utc r < end_time).
  { intros r Hr. apply filter_In in Hr. destruct Hr as [_ Hr].
    unfold inside, aware_ltb in Hr. simpl in Hr.
    apply andb_prop in Hr. rewrite !Z.ltb_lt in Hr. exact Hr. }
  constructor.
  - apply StronglySorted_snoc.
    + apply StronglySorted_map.
      assert (Hf := StronglySorted_filter _ inside _ Hs).
      revert Hin. induction Hf as [|x l Hl IH Hall]; intros Hin; constructor.
      * apply IH. intros r Hr. apply Hin. right. exact Hr.
      * rewrite Forall_forall in *. intros y Hy. specialize (Hall y Hy).
        unfold asc in Hall. rewrite Z.leb_le in Hall.
        unfold minute_le. simpl.
        pose proof (Hin x (or_introl eq_refl)).
        pose proof (Hin y (or_intror Hy)).
        apply local_minute_mono; lia.
    + rewrite Forall_forall. intros p Hp. apply in_map_iff in Hp.
      destruct Hp as (r & <- & Hr). specialize (Hin r Hr).
      unfold minute_le. simpl. apply local_minute_mono; lia.
  - rewrite Forall_forall. intros p Hp. apply in_app_or in Hp.
    unfold minute_le. simpl.
    destruct Hp as [Hp|[<-|[]]].
    + apply in_map_iff in Hp. destruct Hp as (r & <- & Hr).
      specialize (Hin r Hr). simpl. apply local_minute_mono; lia.
    + simpl. apply local_minute_mono; lia.
Qed.

Lemma all_status_points_ends initial_status status_records :
  exists s0 mids s1,
    all_status_points tz start_time end_time initial_status status_records
    = (astimezone tz start_time, s0) :: mids
    /\ last mids (astimezone tz start_time, s0) = (astimezone tz end_time, s1).
Proof.
  unfold all_status_points. cbn [app].
  eexists _, _, _. split; [reflexivity|]. apply last_last.
Qed.

(** The minutes of the window, on the local time line. *)
Lemma window_minutes_cover :
  (Z.to_nat (local_minute (astimezone tz end_time)
             - local_minute (astimezone tz start_time))
   <= window_minutes start_time end_time)%nat.
Proof.
  unfold window_minutes, local_minute, wall, astimezone. simpl.
  rewrite (one_offset end_time) by lia.
  set (a := start_time + tz start_time).
  set (d := end_time - start_time).
  replace (end_time + tz start_time) with (a + d) by (unfold a, d; lia).
  assert (Hd : 0 <= d) by (unfold d; lia).
  unfold US_PER_MINUTE.
  pose proof (Z.div_mod (d + 60000000 - 1) 60000000 ltac:(lia)) as E.
  pose proof (Z.mod_pos_bound (d + 60000000 - 1) 60000000 ltac:(lia)) as B.
  set (n := (d + 60000000 - 1) / 60000000) in *.
  assert (Hn : (a + d) / 60000000 <= a / 60000000 + n).
  { rewrite <- Z.div_add by lia. apply Z.div_le_mono; lia. }
  lia.
Qed.

Lemma scheduled_open_minutes_local session store_id :
  scheduled_open_minutes tz session store_id start_time end_time
  = count_from (open_minute session store_id)
      (local_minute (astimezone tz start_time))
      (window_minutes start_time end_time).
Proof.
  unfold scheduled_open_minutes. apply count_from_ext.
  intros k Hk. rewrite Z.add_0_l, is_open_at_local. f_equal.
  assert (Hin : start_time <= start_time + k * US_PER_MINUTE <= end_time).
  { unfold window_minutes, US_PER_MINUTE in *.
    pose proof (Z.div_mod (end_time - start_time + 60000000 - 1) 60000000
                  ltac:(lia)) as E.
    pose proof (Z.mod_pos_bound (end_time - start_time + 60000000 - 1)
                  60000000 ltac:(lia)) as B.
    set (n := (end_time - start_time + 60000000 - 1) / 60000000) in *.
    assert (0 <= n) by (apply Z.div_pos; lia). lia. }
  unfold local_minute, wall, astimezone. cbn [instant utcoffset].
  rewrite (one_offset _ Hin). unfold US_PER_MINUTE.
  replace (start_time + k * 60000000 + tz start_time)
    with (start_time + tz start_time + k * 60000000) by lia.
  apply Z.div_add. lia.
Qed.

End Window.

Lemma calculation_path_points tz session store_id s e points :
  calculation_path tz session store_id s e = StatusPoints points ->
  points = all_status_points tz s e
             (query_initial_status session store_id s)
             (query_status_records session store_id s e).
Proof.
  unfold calculation_path.
  destruct (query_initial_status session store_id s);
    destruct (query_status_records session store_id s e);
    intros H; inversion H; reflexivity.
Qed.

Lemma early_return_bound tz session store_id s e :
  s <= e ->
  (forall t, s <= t <= e -> tz t = tz s) ->
  overlap_on session store_id (weekday (astimezone tz s))
    (minute_of_day (astimezone tz s)) (minute_of_day (astimezone tz e))
  <= scheduled_open_minutes tz session store_id s e.
Proof.
  intros Hw Hone.
  rewrite (scheduled_open_minutes_local tz s e Hw Hone).
  pose proof (window_minutes_cover tz s e Hw Hone) as Hcover.
  pose proof (local_minute_mono tz s e Hone s e ltac:(lia) Hw ltac:(lia)) as Hle.
  unfold weekday. rewrite date_local_minute, !minute_of_day_local_minute.
  set (j1 := local_minute (astimezone tz s)) in *.
  set (j2 := local_minute (astimezone tz e)) in *.
  destruct (Z.eq_dec (j1 / 1440) (j2 / 1440)) as [E|N].
  - rewrite same_day_overlap_bound by assumption.
    apply count_from_mono. exact Hcover.
  - assert (Hd : j1 / 1440 < j2 / 1440).
    { pose proof (Z.div_le_mono j1 j2 1440 ltac:(lia) Hle). lia. }
    pose proof (Z.mod_pos_bound j2 1440 ltac:(lia)) as B2.
    etransitivity;
      [apply (first_day_overlap_bound session store_id j1 j2); lia|].
    apply count_from_mono.
    pose proof (Z.div_mod j2 1440 ltac:(lia)). lia.
Qed.

(** C4, as the code has it.  For a store whose zone resolves and a
    window with [start_time <= end_time], the estimator returns an uptime
    and a downtime that are not negative; and when the zone keeps one
    UTC offset over the window, their sum is at most the scheduled-open
    minutes of the window.  (Across a change of offset the clock readings
    of the two ends are still subtracted as if the day had no gap, so the
    bound can fail there.) *)
Theorem uptime_downtime_within_schedule :
  forall (pytz_timezone : string -> option tzinfo) (session : Session)
         (store_id : string) (start_time end_time : datetime) (tz : tzinfo),
    pytz_timezone (get_store_timezone session store_id) = Some tz ->
    start_time <= end_time ->
    exists uptime downtime : Z,
      calculate_uptime_downtime pytz_timezone session store_id
        start_time end_time = Ok (uptime, downtime)
      /\ 0 <= uptime
      /\ 0 <= downtime
      /\ ((forall t, start_time <= t <= end_time -> tz t = tz start_time) ->
          uptime + downtime
          <= scheduled_open_minutes tz session store_id start_time end_time).
Proof.
  intros pytz session store_id s e tz Htz Hw.
  unfold calculate_uptime_downtime, lookup_timezone. rewrite Htz. cbn [bind].
  destruct (calculation_path tz session store_id s e) as [|points] eqn:P.
  - eexists _, _. split; [reflexivity|]. split; [lia|].
    split; [pose proof (overlap_on_nonneg session store_id
                          (weekday (astimezone tz s))
                          (minute_of_day (astimezone tz s))
                          (minute_of_day (astimezone tz e))); lia|].
    intros Hone.
    pose proof (early_return_bound tz session store_id s e Hw Hone). lia.
  - destruct (segments session store_id points (0, 0)) as [u d] eqn:S.
    exists u, d. split; [reflexivity|].
    pose proof (segments_nonneg session store_id points (0, 0)
                  ltac:(simpl; lia)) as N.
    rewrite S in N. simpl in N. split; [tauto|]. split; [tauto|].
    intros Hone.
    apply calculation_path_points in P.
    pose proof (all_status_points_sorted tz s e Hw Hone
                  (query_initial_status session store_id s)
                  (query_status_records session store_id s e)
                  (order_by_sorted _)) as Hs.
    destruct (all_status_points_ends tz s e
                (query_initial_status session store_id s)
                (query_status_records session store_id s e))
      as (s0 & mids & s1 & Hpts & Hlast).
    rewrite <- P in Hs, Hpts. rewrite Hpts in Hs.
    pose proof (segments_bound session store_id mids
                  (astimezone tz s, s0) (0, 0) Hs) as B.
    rewrite <- Hpts, S, Hlast in B. unfold total in B. simpl in B.
    rewrite (scheduled_open_minutes_local tz s e Hw Hone).
    pose proof (count_from_mono (open_minute session store_id)
                  (local_minute (astimezone tz s)) _ _
                  (window_minutes_cover tz s e Hw Hone)).
    lia.
Qed.

Lemma uptime_downtime_within_schedule_witness :
  zones_2023 (get_store_timezone (carry_forward 19380) "store") = Some utc
  /\ at_clock 19380 9 0 <= at_clock 19380 11 0
  /\ calculate_uptime_downtime zones_2023 (carry_forward 19380) "store"
       (at_clock 19380 9 0) (at_clock 19380 11 0) = Ok (60, 60)
  /\ 60 + 60 <= scheduled_open_minutes utc (carry_forward 19380) "store"
                  (at_clock 19380 9 0) (at_clock 19380 11 0).
Proof.
  split; [reflexivity|]. split; [vm_compute; discriminate|].
  destruct (uptime_downtime_within_schedule zones_2023 (carry_forward 19380)
              "store" (at_clock 19380 9 0) (at_clock 19380 11 0) utc
              eq_refl ltac:(vm_compute; discriminate))
    as (u & d & E & _ & _ & B).
  assert (E' : calculate_uptime_downtime zones_2023 (carry_forward 19380)
                 "store" (at_clock 19380 9 0) (at_clock 19380 11 0)
               = Ok (60, 60)) by (vm_compute; reflexivity).
  split; [exact E'|].
  rewrite E' in E. inversion E; subst u d.
  apply B. intros t _. reflexivity.
Defined.

(** * Further properties of the code *)

(** ** [calculate_overlap] as a measure *)

(** X1. The overlap does not depend on which of the two intervals is
    called the business hours. *)
Theorem calculate_overlap_symmetric :
  forall business_start business_end interval_start interval_end : Z,
    calculate_overlap business_start business_end interval_start interval_end
    = calculate_overlap interval_start interval_end business_start business_end.
Proof. intros. unfold calculate_overlap. lia. Qed.

(** X2. Overlaps of adjacent intervals add up: cutting an interval at a
    point inside it does not change the minutes counted. *)
Theorem calculate_overlap_additive :
  forall business_start business_end i0 i1 i2 : Z,
    i0 <= i1 -> i1 <= i2 ->
    calculate_overlap business_start business_end i0 i1
    + calculate_overlap business_start business_end i1 i2
    = calculate_overlap business_start business_end i0 i2.
Proof. intros. unfold calculate_overlap. lia. Qed.

Lemma calculate_overlap_additive_witness :
  calculate_overlap 540 1020 500 600 + calculate_overlap 540 1020 600 1100
  = calculate_overlap 540 1020 500 1100.
Proof. apply calculate_overlap_additive; lia. Defined.

(** X3. The overlap is the number of whole minutes of the interval that
    lie within the business hours; in particular it is 0 exactly when no
    minute of the interval does. *)
Theorem calculate_overlap_counts_minutes :
  forall business_start business_end interval_start interval_end : Z,
    interval_start <= interval_end ->
    calculate_overlap business_start business_end interval_start interval_end
    = count_from (fun x => (business_start <=? x) && (x <? business_end))
        interval_start (Z.to_nat (interval_end - interval_start))
    /\ (calculate_overlap business_start business_end
          interval_start interval_end = 0
        <-> forall x, interval_start <= x < interval_end ->
                      ~ (business_start <= x < business_end)).
Proof.
  intros bs be i_s i_e H. split.
  - rewrite count_interval. f_equal. lia.
  - unfold calculate_overlap. split.
    + intros Z0 x Hx Hb. lia.
    + intros Hno.
      destruct (Z_lt_le_dec (Z.max bs i_s) (Z.min be i_e)) as [Hlt|Hge]; [|lia].
      exfalso. apply (Hno (Z.max bs i_s)); lia.
Qed.

Lemma calculate_overlap_counts_minutes_witness :
  calculate_overlap 540 1020 600 660
  = count_from (fun x => (540 <=? x) && (x <? 1020)) 600 (Z.to_nat (660 - 600)).
Proof. apply (calculate_overlap_counts_minutes 540 1020 600 660). lia. Defined.

(** ** [parse_time_to_minutes] on well-formed strings *)

Lemma parse_time_to_minutes_parts {a b c h m s} :
  Py.int a = Some h -> Py.int b = Some m -> Py.int c = Some s ->
  parse_time_to_minutes (a ++ ":" ++ b ++ ":" ++ c) = h * 60 + m + s / 60.
Proof.
  intros Ha Hb Hc. unfold parse_time_to_minutes. cbn [String.append].
  rewrite (split_app_sep _ _ _ (int_no_colon _ _ Ha)).
  rewrite (split_app_sep _ _ _ (int_no_colon _ _ Hb)).
  rewrite (split_no_sep _ _ (int_no_colon _ _ Hc)).
  simpl. rewrite Ha, Hb, Hc. reflexivity.
Qed.

(** X4. When the three parts between the colons read as integers [h],
    [m] and [s] (signs, surrounding blanks and digit-group underscores
    included), the result is [h * 60 + m + s // 60]: whole minutes of the
    seconds are added, the rest is dropped, and no range is checked. *)
Theorem parse_time_to_minutes_of_parts :
  forall (a b c : string) (h m s : Z),
    Py.int a = Some h -> Py.int b = Some m -> Py.int c = Some s ->
    parse_time_to_minutes (a ++ ":" ++ b ++ ":" ++ c) = h * 60 + m + s / 60
    /\ (0 <= s < 60 ->
        parse_time_to_minutes (a ++ ":" ++ b ++ ":" ++ c) = h * 60 + m).
Proof.
  intros a b c h m s Ha Hb Hc.
  rewrite (parse_time_to_minutes_parts Ha Hb Hc). split; [reflexivity|].
  intros Hs. rewrite Z.div_small by lia. lia.
Qed.

Lemma parse_time_to_minutes_of_parts_witness :
  parse_time_to_minutes (" 9" ++ ":" ++ "+30" ++ ":" ++ "1_20")
  = 9 * 60 + 30 + 120 / 60.
Proof.
  apply (parse_time_to_minutes_of_parts " 9" "+30" "1_20" 9 30 120);
    reflexivity.
Defined.

Lemma int_two_digits n : 0 <= n < 100 -> Py.int (two_digits n) = Some n.
Proof.
  intros H.
  assert (E : n = Z.of_nat (Z.to_nat n)) by lia.
  assert (B : (Z.to_nat n < 100)%nat) by lia.
  rewrite E. generalize dependent (Z.to_nat n). clear. intros k _ B.
  do 100 (destruct k as [|k]; [vm_compute; reflexivity|]). lia.
Qed.

(** X5. Reading back the text [HH:MM:SS] of a clock time gives its
    minutes since midnight, [h * 60 + m], a value from 0 to 1439; the
    seconds do not count. *)
Theorem parse_time_to_minutes_of_clock_text :
  forall h m s : Z,
    0 <= h < 24 -> 0 <= m < 60 -> 0 <= s < 60 ->
    parse_time_to_minutes (format_hms h m s) = h * 60 + m
    /\ 0 <= parse_time_to_minutes (format_hms h m s) < 1440.
Proof.
  intros h m s Hh Hm Hs. unfold format_hms.
  rewrite (parse_time_to_minutes_parts
             (int_two_digits h ltac:(lia)) (int_two_digits m ltac:(lia))
             (int_two_digits s ltac:(lia))).
  rewrite Z.div_small by lia. lia.
Qed.

Lemma parse_time_to_minutes_of_clock_text_witness :
  format_hms 17 5 59 = "17:05:59"%string
  /\ parse_time_to_minutes (format_hms 17 5 59) = 17 * 60 + 5.
Proof.
  split; [reflexivity|].
  apply (parse_time_to_minutes_of_clock_text 17 5 59); lia.
Defined.

(** ** The lookups and their defaults *)

Lemma first_filter_none {A} (f : A -> bool) l :
  (forall x, In x l -> f x = false) -> first (filter f l) = None.
Proof.
  induction l as [|x l IH]; intros H; simpl; [reflexivity|].
  rewrite (H x (or_introl eq_refl)). apply IH. intros y Hy. apply H. right. exact Hy.
Qed.

Lemma first_filter_found {A} (f : A -> bool) pre r post :
  (forall x, In x pre -> f x = false) -> f r = true ->
  first (filter f (pre ++ r :: post)) = Some r.
Proof.
  induction pre as [|x pre IH]; intros H Hr; simpl.
  - rewrite Hr. reflexivity.
  - rewrite (H x (or_introl eq_refl)). apply IH; [|exact Hr].
    intros y Hy. apply H. right. exact Hy.
Qed.

(** X6. [get_business_hours] answers from the first row of the store for
    that day of the week (rows of other stores and of other days are
    passed over, later rows for the same day are ignored), and answers
    00:00-24:00, that is [(0, 1440)], when the store has no row for the
    day. *)
Theorem get_business_hours_lookup :
  forall (statuses : list StoreStatus.t) (zones : list StoreTimezone.t)
         (jobs : list Report.t) (store_id : string) (day_of_week : Z),
    (forall rows : list BusinessHours.t,
        (forall x, In x rows ->
           ~ (BusinessHours.store_id x = store_id
              /\ BusinessHours.day_of_week x = day_of_week)) ->
        get_business_hours (MkSession statuses rows zones jobs)
          store_id day_of_week = (0, 1440))
    /\ (forall (before after : list BusinessHours.t) (row : BusinessHours.t),
          BusinessHours.store_id row = store_id ->
          BusinessHours.day_of_week row = day_of_week ->
          (forall x, In x before ->
             ~ (BusinessHours.store_id x = store_id
                /\ BusinessHours.day_of_week x = day_of_week)) ->
          get_business_hours
            (MkSession statuses (before ++ row :: after) zones jobs)
            store_id day_of_week
          = (parse_time_to_minutes (BusinessHours.start_time_local row),
             parse_time_to_minutes (BusinessHours.end_time_local row))).
Proof.
  intros statuses zones jobs store_id day.
  assert (M : forall rows : list BusinessHours.t,
            (forall x, In x rows ->
               ~ (BusinessHours.store_id x = store_id
                  /\ BusinessHours.day_of_week x = day)) ->
            forall x, In x rows ->
              String.eqb (BusinessHours.store_id x) store_id
              && (BusinessHours.day_of_week x =? day) = false).
  { intros rows H x Hx. apply andb_false_iff.
    destruct (String.eqb_spec (BusinessHours.store_id x) store_id) as [E|];
      [|left; reflexivity].
    right. apply Z.eqb_neq. intros E'. apply (H x Hx). split; assumption. }
  split.
  - intros rows H. unfold get_business_hours, query_business_hours. simpl.
    rewrite first_filter_none by (apply M; exact H). reflexivity.
  - intros before after row Hs Hd H.
    unfold get_business_hours, query_business_hours. simpl.
    rewrite first_filter_found; [reflexivity|apply M; exact H|].
    rewrite Hs, Hd, String.eqb_refl, Z.eqb_refl. reflexivity.
Qed.

Lemma get_business_hours_lookup_witness :
  get_business_hours
    (MkSession [] [BusinessHours.Build "b" 0 "08:00:00" "12:00:00";
                   BusinessHours.Build "a" 1 "10:00:00" "11:00:00"] [] [])
    "a" 0 = (0, 1440)
  /\ get_business_hours
       (MkSession []
          ([BusinessHours.Build "b" 0 "08:00:00" "12:00:00";
            BusinessHours.Build "a" 1 "10:00:00" "11:00:00"]
           ++ BusinessHours.Build "a" 0 "09:00:00" "17:30:00"
              :: [BusinessHours.Build "a" 0 "00:00:00" "01:00:00"]) [] [])
       "a" 0
     = (parse_time_to_minutes "09:00:00", parse_time_to_minutes "17:30:00").
Proof.
  destruct (get_business_hours_lookup [] [] [] "a" 0) as [D F]. split.
  - apply D. intros x [<-|[<-|[]]] [H1 H2]; discriminate.
  - apply (F _ _ (BusinessHours.Build "a" 0 "09:00:00" "17:30:00"));
      [reflexivity|reflexivity|].
    intros x [<-|[<-|[]]] [H1 H2]; discriminate.
Defined.

(** X7. [get_store_timezone] answers with the zone name of the store's
    first row, whatever rows other stores have and whatever rows of the
    store follow, and with America/Chicago when the store has no row. *)
Theorem get_store_timezone_lookup :
  forall (statuses : list StoreStatus.t) (hours : list BusinessHours.t)
         (jobs : list Report.t) (store_id : string),
    (forall rows : list StoreTimezone.t,
        (forall x, In x rows -> StoreTimezone.store_id x <> store_id) ->
        get_store_timezone (MkSession statuses hours rows jobs) store_id
        = "America/Chicago"%string)
    /\ (forall (before after : list StoreTimezone.t) (row : StoreTimezone.t),
          StoreTimezone.store_id row = store_id ->
          (forall x, In x before -> StoreTimezone.store_id x <> store_id) ->
          get_store_timezone
            (MkSession statuses hours (before ++ row :: after) jobs) store_id
          = StoreTimezone.timezone_str row).
Proof.
  intros statuses hours jobs store_id.
  assert (M : forall rows : list StoreTimezone.t,
            (forall x, In x rows -> StoreTimezone.store_id x <> store_id) ->
            forall x, In x rows ->
              String.eqb (StoreTimezone.store_id x) store_id = false).
  { intros rows H x Hx. apply String.eqb_neq. apply H. exact Hx. }
  split.
  - intros rows H. unfold get_store_timezone. simpl.
    rewrite first_filter_none by (apply M; exact H). reflexivity.
  - intros before after row Hs H. unfold get_store_timezone. simpl.
    rewrite first_filter_found; [reflexivity|apply M; exact H|].
    rewrite Hs. apply String.eqb_refl.
Qed.

Lemma get_store_timezone_lookup_witness :
  get_store_timezone
    (MkSession [] [] [StoreTimezone.Build "b" "UTC"] []) "a"
  = "America/Chicago"%string
  /\ get_store_timezone
       (MkSession [] []
          ([StoreTimezone.Build "b" "UTC"]
           ++ StoreTimezone.Build "a" "Asia/Kolkata"
              :: [StoreTimezone.Build "a" "UTC"]) []) "a"
     = "Asia/Kolkata"%string.
Proof.
  destruct (get_store_timezone_lookup [] [] [] "a") as [D F]. split.
  - apply D. intros x [<-|[]]. discriminate.
  - apply (F _ _ (StoreTimezone.Build "a" "Asia/Kolkata")); [reflexivity|].
    intros x [<-|[]]. discriminate.
Defined.

(** ** The estimator: failure, and what its result depends on *)



Lemma filter_filter_implied {A} (f g : A -> bool) l :
  (forall x, f x = true -> g x = true) ->
  filter f (filter g l) = filter f l.
Proof.
  intros H. induction l as [|x l IH]; simpl; [reflexivity|].
  destruct (g x) eqn:G; simpl.
  - rewrite IH. reflexivity.
  - destruct (f x) eqn:F; [|exact IH]. rewrite (H x F) in G. discriminate.
Qed.

Lemma segments_same_hours s1 s2 store_id points :
  (forall day, get_business_hours s1 store_id day
               = get_business_hours s2 store_id day) ->
  forall acc, segments s1 store_id points acc = segments s2 store_id points acc.
Proof.
  intros H. induction points as [|p rest IH]; intros acc; [reflexivity|].
  destruct rest as [|q rest]; [reflexivity|].
  change (segments s1 store_id (p :: q :: rest) acc)
    with (segments s1 store_id (q :: rest) (segment s1 store_id p q acc)).
  change (segments s2 store_id (p :: q :: rest) acc)
    with (segments s2 store_id (q :: rest) (segment s2 store_id p q acc)).
  rewrite IH. f_equal. unfold segment, overlap_on. rewrite !H. reflexivity.
Qed.

(** The estimator reads the database through four queries only. *)
Lemma calculate_uptime_downtime_same_queries pytz s1 s2 store_id s e :
  get_store_timezone s1 store_id = get_store_timezone s2 store_id ->
  (forall day, get_business_hours s1 store_id day
               = get_business_hours s2 store_id day) ->
  query_initial_status s1 store_id s = query_initial_status s2 store_id s ->
  query_status_records s1 store_id s e = query_status_records s2 store_id s e ->
  calculate_uptime_downtime pytz s1 store_id s e
  = calculate_uptime_downtime pytz s2 store_id s e.
Proof.
  intros Hz Hh Hi Hr. unfold calculate_uptime_downtime. rewrite Hz.
  destruct (lookup_timezone pytz (get_store_timezone s2 store_id)) as [tz|x];
    [|reflexivity].
  cbn [bind]. unfold calculation_path. rewrite Hi, Hr.
  destruct (query_initial_status s2 store_id s);
    destruct (query_status_records s2 store_id s e);
    try (f_equal; apply segments_same_hours; exact Hh).
  unfold overlap_on. rewrite Hh. reflexivity.
Qed.

(** X9. The result for a store depends on the rows of that store only:
    removing every row of the other stores from the observations, the
    business hours and the zones changes nothing. *)
Theorem other_stores_do_not_matter :
  forall (pytz_timezone : string -> option tzinfo) (session : Session)
         (store_id : string) (start_time end_time : datetime),
    calculate_uptime_downtime pytz_timezone
      (rows_of_store store_id session) store_id start_time end_time
    = calculate_uptime_downtime pytz_timezone session store_id
        start_time end_time.
Proof.
  intros pytz session store_id s e.
  apply calculate_uptime_downtime_same_queries.
  - unfold get_store_timezone, rows_of_store. simpl.
    rewrite filter_filter_implied by auto. reflexivity.
  - intros day. unfold get_business_hours, query_business_hours, rows_of_store.
    simpl. rewrite filter_filter_implied; [reflexivity|].
    intros x Hx. apply andb_prop in Hx. tauto.
  - unfold query_initial_status, rows_of_store. simpl.
    rewrite filter_filter_implied; [reflexivity|].
    intros x Hx. apply andb_prop in Hx. tauto.
  - unfold query_status_records, rows_of_store. simpl.
    rewrite filter_filter_implied; [reflexivity|].
    intros x Hx. apply andb_prop in Hx. destruct Hx as [Hx _].
    apply andb_prop in Hx. tauto.
Qed.

(** X10. Observations later than the end of the window have no
    influence on the result (for a window with [start_time <= end_time]). *)
Theorem later_observations_do_not_matter :
  forall (pytz_timezone : string -> option tzinfo) (session : Session)
         (store_id : string) (start_time end_time : datetime),
    start_time <= end_time ->
    calculate_uptime_downtime pytz_timezone
      (observed_until end_time session) store_id start_time end_time
    = calculate_uptime_downtime pytz_timezone session store_id
        start_time end_time.
Proof.
  intros pytz session store_id s e Hse.
  apply calculate_uptime_downtime_same_queries; try reflexivity.
  - unfold query_initial_status, observed_until. simpl.
    rewrite filter_filter_implied; [reflexivity|].
    intros x Hx. apply andb_prop in Hx. destruct Hx as [_ Hx].
    rewrite Z.leb_le in *. lia.
  - unfold query_status_records, observed_until. simpl.
    rewrite filter_filter_implied; [reflexivity|].
    intros x Hx. apply andb_prop in Hx. tauto.
Qed.

Lemma later_observations_do_not_matter_witness :
  calculate_uptime_downtime zones_2023
    (observed_until (at_clock 19380 9 30) (carry_forward 19380)) "store"
    (at_clock 19380 9 0) (at_clock 19380 9 30)
  = calculate_uptime_downtime zones_2023 (carry_forward 19380) "store"
      (at_clock 19380 9 0) (at_clock 19380 9 30)
  /\ store_status (observed_until (at_clock 19380 9 30) (carry_forward 19380))
     = [].
Proof.
  split; [|reflexivity].
  apply later_observations_do_not_matter. vm_compute. discriminate.
Defined.

(** ** The estimator: statuses *)

Lemma query_initial_status_row session store_id start_time r :
  query_initial_status session store_id start_time = Some r ->
  In r (store_status session)
  /\ StoreStatus.store_id r = store_id
  /\ StoreStatus.timestamp_utc r <= start_time.
Proof.
  unfold query_initial_status, first. intros H.
  assert (Hin : In r (order_by desc
                        (filter (fun r => String.eqb (StoreStatus.store_id r) store_id
                                          && (StoreStatus.timestamp_utc r <=? start_time))
                           (store_status session)))).
  { destruct (order_by desc _) as [|x l]; [discriminate|].
    inversion H. left. reflexivity. }
  rewrite order_by_in, filter_In, andb_true_iff, String.eqb_eq, Z.leb_le in Hin.
  tauto.
Qed.

Lemma all_status_points_statuses (P : string -> Prop) tz s e initial records :
  match initial with
  | Some r => P (StoreStatus.status r)
  | None => P "inactive"%string
  end ->
  (forall r, In r records -> P (StoreStatus.status r)) ->
  Forall (fun p => P (snd p)) (all_status_points tz s e initial records).
Proof.
  intros Hi Hr. unfold all_status_points.
  set (current := match initial with
                  | Some r => StoreStatus.status r
                  | None => "inactive"%string
                  end).
  assert (Hc : P current) by (unfold current; destruct initial; exact Hi).
  apply Forall_app. split; [constructor; [exact Hc|constructor]|].
  apply Forall_app. split.
  - rewrite Forall_forall. intros p Hp. apply in_map_iff in Hp.
    destruct Hp as (r & <- & Hin). apply filter_In in Hin. simpl.
    apply Hr. tauto.
  - constructor; [|constructor]. simpl. unfold last_status_of.
    destruct records as [|r rest]; [exact Hc|].
    apply Hr. destruct (last_in rest r) as [<-|Hin]; [left; reflexivity|].
    right. exact Hin.
Qed.

Lemma segments_uptime_kept session store_id points : forall acc,
  Forall (fun p => snd p <> "active"%string) points ->
  fst (segments session store_id points acc) = fst acc.
Proof.
  induction points as [|p rest IH]; intros acc H; [reflexivity|].
  destruct rest as [|q rest]; [reflexivity|].
  change (segments session store_id (p :: q :: rest) acc)
    with (segments session store_id (q :: rest)
            (segment session store_id p q acc)).
  inversion H as [|? ? Hp Hrest]; subst. rewrite IH by exact Hrest.
  unfold segment, credit. apply String.eqb_neq in Hp. rewrite Hp.
  destruct (negb (date (fst p) =? date (fst q))); destruct acc; reflexivity.
Qed.

Lemma segments_downtime_kept session store_id points : forall acc,
  Forall (fun p => snd p = "active"%string) points ->
  snd (segments session store_id points acc) = snd acc.
Proof.
  induction points as [|p rest IH]; intros acc H; [reflexivity|].
  destruct rest as [|q rest]; [reflexivity|].
  change (segments session store_id (p :: q :: rest) acc)
    with (segments session store_id (q :: rest)
            (segment session store_id p q acc)).
  inversion H as [|? ? Hp Hrest]; subst. rewrite IH by exact Hrest.
  unfold segment, credit. rewrite Hp. simpl.
  destruct (negb (date (fst p) =? date (fst q))); destruct acc; reflexivity.
Qed.

(** X11. Only the exact status text [active] counts as uptime: for a
    store none of whose observations has that status (other spellings
    included), the uptime is 0 for every window. *)
Theorem never_active_has_no_uptime :
  forall (pytz_timezone : string -> option tzinfo) (session : Session)
         (store_id : string) (start_time end_time : datetime) (tz : tzinfo),
    pytz_timezone (get_store_timezone session store_id) = Some tz ->
    (forall r, In r (store_status session) ->
               StoreStatus.store_id r = store_id ->
               StoreStatus.status r <> "active"%string) ->
    exists downtime,
      calculate_uptime_downtime pytz_timezone session store_id
        start_time end_time = Ok (0, downtime).
Proof.
  intros pytz session store_id s e tz Htz Hnever.
  unfold calculate_uptime_downtime, lookup_timezone. rewrite Htz. cbn [bind].
  destruct (calculation_path tz session store_id s e) as [|points] eqn:P.
  - eexists. reflexivity.
  - apply calculation_path_points in P.
    assert (F : Forall (fun p => snd p <> "active"%string) points).
    { rewrite P.
      apply (all_status_points_statuses (fun st => st <> "active"%string)).
      - destruct (query_initial_status session store_id s) as [r|] eqn:I;
          [|discriminate].
        apply query_initial_status_row in I. apply Hnever; tauto.
      - intros r Hr. apply query_status_records_in in Hr. apply Hnever; tauto. }
    pose proof (segments_uptime_kept session store_id points (0, 0) F) as U.
    destruct (segments session store_id points (0, 0)) as [u d].
    simpl in U. subst u. exists d. reflexivity.
Qed.

Lemma never_active_has_no_uptime_witness :
  exists downtime,
    calculate_uptime_downtime zones_2023
      (MkSession [StoreStatus.Build "s" (mkdatetime 2023 1 23 10 0 0) "Active"]
         [] [StoreTimezone.Build "s" "UTC"] []) "s"
      (mkdatetime 2023 1 23 9 0 0) (mkdatetime 2023 1 23 11 0 0)
    = Ok (0, downtime).
Proof.
  apply (never_active_has_no_uptime zones_2023 _ "s" _ _ utc); [reflexivity|].
  intros r [<-|[]] _. discriminate.
Defined.

(** X12. A store seen at or before the start of the window, all of whose
    observations have status [active], has downtime 0. *)
Theorem always_active_has_no_downtime :
  forall (pytz_timezone : string -> option tzinfo) (session : Session)
         (store_id : string) (start_time end_time : datetime) (tz : tzinfo),
    pytz_timezone (get_store_timezone session store_id) = Some tz ->
    observed_at_or_before session store_id start_time ->
    (forall r, In r (store_status session) ->
               StoreStatus.store_id r = store_id ->
               StoreStatus.status r = "active"%string) ->
    exists uptime,
      calculate_uptime_downtime pytz_timezone session store_id
        start_time end_time = Ok (uptime, 0).
Proof.
  intros pytz session store_id s e tz Htz Hseen Hal.
  unfold calculate_uptime_downtime, lookup_timezone. rewrite Htz. cbn [bind].
  destruct (calculation_path tz session store_id s e) as [|points] eqn:P.
  - apply early_return_iff in P. tauto.
  - apply calculation_path_points in P.
    assert (F : Forall (fun p => snd p = "active"%string) points).
    { rewrite P.
      apply (all_status_points_statuses (fun st => st = "active"%string)).
      - destruct (query_initial_status session store_id s) as [r|] eqn:I.
        + apply query_initial_status_row in I. apply Hal; tauto.
        + apply query_initial_status_none in I. contradiction.
      - intros r Hr. apply query_status_records_in in Hr. apply Hal; tauto. }
    pose proof (segments_downtime_kept session store_id points (0, 0) F) as D.
    destruct (segments session store_id points (0, 0)) as [u d].
    simpl in D. subst d. exists u. reflexivity.
Qed.

Lemma always_active_has_no_downtime_witness :
  exists uptime,
    calculate_uptime_downtime zones_2023 seen_once "store"
      (mkdatetime 2023 1 2 13 0 0) (mkdatetime 2023 1 2 14 0 0)
    = Ok (uptime, 0).
Proof.
  apply (always_active_has_no_downtime zones_2023 seen_once "store" _ _ utc).
  - reflexivity.
  - eexists. split; [left; reflexivity|]. split; [reflexivity|].
    vm_compute. discriminate.
  - intros r [<-|[]] _. reflexivity.
Defined.

Lemma insert_by_desc_sorted x l :
  StronglySorted (fun a b => desc a b = true) l ->
  StronglySorted (fun a b => desc a b = true) (insert_by desc x l).
Proof.
  induction 1 as [|y l Hs IH Hall]; simpl.
  - constructor; constructor.
  - destruct (desc x y) eqn:E.
    + constructor; [constructor; assumption|].
      constructor; [exact E|].
      rewrite Forall_forall in *. intros z Hz. specialize (Hall z Hz).
      unfold desc in *. rewrite Z.leb_le in *. lia.
    + constructor; [exact IH|].
      rewrite Forall_forall in *. intros z Hz.
      apply insert_by_in in Hz. destruct Hz as [->|Hz]; [|auto].
      unfold desc in *. rewrite Z.leb_le. rewrite Z.leb_gt in E. lia.
Qed.

Lemma order_by_desc_sorted l :
  StronglySorted (fun a b => desc a b = true) (order_by desc l).
Proof.
  induction l as [|x l IH]; simpl; [constructor|].
  apply insert_by_desc_sorted. exact IH.
Qed.

(** X13. The initial status is that of the latest observation of the
    store at or before the start of the window: the row found belongs to
    the store, is not later than [start_time], and no other such row of
    the store is later than it; no row is found exactly when the store
    has no observation at or before [start_time]. *)
Theorem initial_status_is_the_latest :
  forall (session : Session) (store_id : string) (start_time : datetime),
    (forall r,
        query_initial_status session store_id start_time = Some r ->
        In r (store_status session)
        /\ StoreStatus.store_id r = store_id
        /\ StoreStatus.timestamp_utc r <= start_time
        /\ forall x, In x (store_status session) ->
                     StoreStatus.store_id x = store_id ->
                     StoreStatus.timestamp_utc x <= start_time ->
                     StoreStatus.timestamp_utc x <= StoreStatus.timestamp_utc r)
    /\ (query_initial_status session store_id start_time = None
        <-> ~ observed_at_or_before session store_id start_time).
Proof.
  intros session store_id s. split; [|apply query_initial_status_none].
  intros r H. destruct (query_initial_status_row _ _ _ _ H) as (Hin & Hid & Hts).
  repeat split; try assumption.
  intros x Hx Hxid Hxts. unfold query_initial_status, first in H.
  set (rows := filter (fun r => String.eqb (StoreStatus.store_id r) store_id
                                && (StoreStatus.timestamp_utc r <=? s))
                 (store_status session)) in *.
  assert (Hx' : In x (order_by desc rows)).
  { apply order_by_in. unfold rows. apply filter_In. split; [exact Hx|].
    rewrite Hxid, String.eqb_refl. simpl. apply Z.leb_le. exact Hxts. }
  pose proof (order_by_desc_sorted rows) as Hs.
  destruct (order_by desc rows) as [|y l]; [discriminate|].
  inversion H; subst y. destruct Hx' as [<-|Hx']; [lia|].
  apply StronglySorted_inv in Hs. destruct Hs as [_ Hall].
  rewrite Forall_forall in Hall. specialize (Hall x Hx').
  unfold desc in Hall. apply Z.leb_le in Hall. exact Hall.
Qed.

(** ** The estimator: a window without an observation inside *)

Lemma overlap_on_at_most session store_id day i_s i_e :
  overlap_on session store_id day i_s i_e <= Z.max 0 (i_e - i_s).
Proof.
  unfold overlap_on. destruct (get_business_hours session store_id day).
  unfold calculate_overlap. lia.
Qed.

(** X14. When no observation of the store falls in the closed window,
    the store is credited for the first and the last calendar day of the
    window only: uptime plus downtime is at most 2878 minutes however
    long the window is, and at most 1439 when the two ends of the window
    show the same clock time, as the ends of a window of whole days do.
    The days in between count for nothing. *)
Theorem window_without_observation_counts_two_days :
  forall (pytz_timezone : string -> option tzinfo) (session : Session)
         (store_id : string) (start_time end_time : datetime) (tz : tzinfo),
    pytz_timezone (get_store_timezone session store_id) = Some tz ->
    ~ observed_within session store_id start_time end_time ->
    exists uptime downtime,
      calculate_uptime_downtime pytz_timezone session store_id
        start_time end_time = Ok (uptime, downtime)
      /\ uptime + downtime <= 2878
      /\ (minute_of_day (astimezone tz end_time)
          = minute_of_day (astimezone tz start_time) ->
          uptime + downtime <= 1439).
Proof.
  intros pytz session store_id s e tz Htz Hno.
  apply query_status_records_nil in Hno.
  unfold calculate_uptime_downtime, lookup_timezone. rewrite Htz. cbn [bind].
  pose proof (minute_of_day_bounds (astimezone tz s)) as Bs.
  pose proof (minute_of_day_bounds (astimezone tz e)) as Be.
  unfold calculation_path. rewrite Hno.
  destruct (query_initial_status session store_id s) as [r|].
  - unfold all_status_points. cbn [filter map app segments last_status_of].
    unfold segment. cbn [fst snd].
    set (st := StoreStatus.status r).
    destruct (negb (date (astimezone tz s) =? date (astimezone tz e))).
    + pose proof (overlap_on_at_most session store_id
                    (weekday (astimezone tz s))
                    (minute_of_day (astimezone tz s)) (23 * 60 + 59)) as O1.
      pose proof (overlap_on_at_most session store_id
                    (weekday (astimezone tz e))
                    0 (minute_of_day (astimezone tz e))) as O2.
      set (acc := credit st _ (credit st _ (0, 0))).
      assert (T : total acc
                  = overlap_on session store_id (weekday (astimezone tz s))
                      (minute_of_day (astimezone tz s)) (23 * 60 + 59)
                    + overlap_on session store_id (weekday (astimezone tz e))
                        0 (minute_of_day (astimezone tz e)))
        by (unfold acc; rewrite !credit_total; reflexivity).
      destruct acc as [u d]. unfold total in T. cbn [fst snd] in T.
      exists u, d. split; [reflexivity|]. lia.
    + pose proof (overlap_on_at_most session store_id
                    (weekday (astimezone tz s))
                    (minute_of_day (astimezone tz s))
                    (minute_of_day (astimezone tz e))) as O.
      set (acc := credit st _ (0, 0)).
      assert (T : total acc
                  = overlap_on session store_id (weekday (astimezone tz s))
                      (minute_of_day (astimezone tz s))
                      (minute_of_day (astimezone tz e)))
        by (unfold acc; rewrite credit_total; reflexivity).
      destruct acc as [u d]. unfold total in T. cbn [fst snd] in T.
      exists u, d. split; [reflexivity|]. lia.
  - pose proof (overlap_on_at_most session store_id
                  (weekday (astimezone tz s))
                  (minute_of_day (astimezone tz s))
                  (minute_of_day (astimezone tz e))) as O.
    eexists _, _. split; [reflexivity|]. lia.
Qed.

Lemma window_without_observation_counts_two_days_witness :
  exists uptime downtime,
    calculate_uptime_downtime zones_2023 seen_once "store"
      (mkdatetime 2023 1 9 12 0 0) (mkdatetime 2023 1 16 12 0 0)
    = Ok (uptime, downtime)
    /\ uptime + downtime <= 2878
    /\ (minute_of_day (astimezone utc (mkdatetime 2023 1 16 12 0 0))
        = minute_of_day (astimezone utc (mkdatetime 2023 1 9 12 0 0)) ->
        uptime + downtime <= 1439).
Proof.
  apply (window_without_observation_counts_two_days zones_2023 seen_once
           "store" _ _ utc); [reflexivity|].
  intros (r & [<-|[]] & _ & H). vm_compute in H. destruct H as [H _].
  apply H. reflexivity.
Defined.

(** The week before 2023-01-16 12:00 UTC of a store that was active
    throughout and open around the clock: 1439 minutes of uptime. *)
Example active_week_counts_one_day :
  calculate_uptime_downtime zones_2023 seen_once "store"
    (mkdatetime 2023 1 9 12 0 0) (mkdatetime 2023 1 16 12 0 0)
  = Ok (1439, 0).
Proof. vm_compute. reflexivity. Qed.

(** ** What the worker enumerates *)

Lemma max_timestamp_is_max rows m :
  max_timestamp rows = Some m ->
  (exists r, In r rows /\ StoreStatus.timestamp_utc r = m)
  /\ forall r, In r rows -> StoreStatus.timestamp_utc r <= m.
Proof.
  revert m. induction rows as [|x rows IH]; intros m H; [discriminate|].
  simpl in H. destruct (max_timestamp rows) as [m'|] eqn:E.
  - destruct (IH m' eq_refl) as ((r & Hr & Hm) & Hall).
    inversion H; subst m. split.
    + destruct (Z.max_spec (StoreStatus.timestamp_utc x) m') as [[_ ->]|[_ ->]].
      * exists r. split; [right; exact Hr|exact Hm].
      * exists x. split; [left|]; reflexivity.
    + intros y [<-|Hy]; [lia|]. specialize (Hall y Hy). lia.
  - apply max_timestamp_none in E. subst rows. inversion H; subst m. split.
    + exists x. split; [left|]; reflexivity.
    + intros y [<-|[]]. lia.
Qed.

(** X15. The reference instant of a run is the timestamp of some
    observation and no observation is later; there is none exactly when
    the observation table is empty. *)
Theorem max_timestamp_is_the_latest_observation :
  forall rows : list StoreStatus.t,
    (max_timestamp rows = None <-> rows = [])
    /\ forall m, max_timestamp rows = Some m ->
         (exists r, In r rows /\ StoreStatus.timestamp_utc r = m)
         /\ forall r, In r rows -> StoreStatus.timestamp_utc r <= m.
Proof.
  intros rows. split; [apply max_timestamp_none|].
  intros m H. apply max_timestamp_is_max. exact H.
Qed.

Lemma distinct_in l x : In x (distinct l) <-> In x l.
Proof.
  induction l as [|a l IH]; simpl; [tauto|].
  rewrite filter_In, IH, negb_true_iff, String.eqb_neq.
  destruct (string_dec a x); intuition congruence.
Qed.

Lemma distinct_nodup l : NoDup (distinct l).
Proof.
  induction l as [|a l IH]; simpl; constructor.
  - rewrite filter_In, negb_true_iff, String.eqb_neq. tauto.
  - apply NoDup_filter. exact IH.
Qed.

(** X16. The store ids of a run are the stores that have an observation,
    each listed once. *)
Theorem distinct_lists_each_store_once :
  forall rows : list StoreStatus.t,
    NoDup (distinct (map StoreStatus.store_id rows))
    /\ forall store_id,
         In store_id (distinct (map StoreStatus.store_id rows))
         <-> exists r, In r rows /\ StoreStatus.store_id r = store_id.
Proof.
  intros rows. split; [apply distinct_nodup|].
  intros store_id. rewrite distinct_in, in_map_iff.
  split; intros (r & H1 & H2); exists r; tauto.
Qed.

(** X17. The batches cut the list of stores into consecutive slices:
    put end to end they give the list back, none is empty, none is
    longer than the batch size, and there are as many as the length
    divided by the batch size, rounded up. *)
Theorem batches_partition :
  forall (A : Type) (batch_size : nat) (l : list A),
    (0 < batch_size)%nat ->
    List.concat (batches batch_size l) = l
    /\ Forall (fun batch => (1 <= List.length batch <= batch_size)%nat)
         (batches batch_size l)
    /\ List.length (batches batch_size l)
       = ((List.length l + batch_size - 1) / batch_size)%nat.
Proof.
  intros A n l Hn. split; [apply batches_concat; exact Hn|]. split.
  - unfold batches. rewrite Forall_forall. intros batch Hb.
    apply in_map_iff in Hb. destruct Hb as (k & <- & Hk).
    apply in_seq in Hk. rewrite length_firstn, length_skipn.
    pose proof (Nat.div_mod_eq (List.length l + n - 1) n) as E.
    pose proof (Nat.mod_upper_bound (List.length l + n - 1) n ltac:(lia)) as B.
    nia.
  - unfold batches. rewrite length_map, length_seq. reflexivity.
Qed.

Lemma batches_partition_witness :
  List.concat (batches 2 [1; 2; 3; 4; 5]) = [1; 2; 3; 4; 5]
  /\ batches 2 [1; 2; 3; 4; 5] = [[1; 2]; [3; 4]; [5]].
Proof.
  split; [|reflexivity].
  apply (batches_partition Z 2 [1; 2; 3; 4; 5]). lia.
Defined.

(** X18. In a run of the worker the estimator never takes the no-data
    early return: every store of the run has an observation at or before
    the reference instant, so for every window that ends there the list
    of points is built. *)
Theorem stores_of_a_run_have_data :
  forall (session : Session) (now : datetime) (store_id : string),
    max_timestamp (store_status session) = Some now ->
    In store_id (distinct (map StoreStatus.store_id (store_status session))) ->
    forall (tz : tzinfo) (start_time : datetime),
      calculation_path tz session store_id start_time now
      <> WholeWindowInactive.
Proof.
  intros session now store_id Hmax Hin tz s Hp.
  apply distinct_in, in_map_iff in Hin. destruct Hin as (r & Hid & Hr).
  destruct (max_timestamp_is_max _ _ Hmax) as [_ Hall].
  specialize (Hall r Hr).
  apply early_return_iff in Hp. destruct Hp as [H1 H2].
  destruct (Z_le_gt_dec (StoreStatus.timestamp_utc r) s) as [Hle|Hgt].
  - apply H1. exists r. auto.
  - apply H2. exists r. repeat split; auto; lia.
Qed.

Lemma stores_of_a_run_have_data_witness :
  calculation_path utc (db two_stores) "a"
    (mkdatetime 2023 1 23 10 30 0 - timedelta_of 0 0 1)
    (mkdatetime 2023 1 23 10 30 0)
  <> WholeWindowInactive.
Proof.
  apply (stores_of_a_run_have_data (db two_stores)
           (mkdatetime 2023 1 23 10 30 0) "a"); [reflexivity|].
  simpl. tauto.
Defined.

(** ** A run of the worker *)




(** X20. A run of the worker touches nothing but the row of its job and
    the temporary directory, where it adds at most one file: the three
    data tables, the submitted jobs, the identifiers in the job table,
    the rows of the other jobs and the files already present stay as
    they were, the effects so far are kept, and a run for an identifier
    that has no row changes nothing at all. *)
Theorem run_leaves_the_rest_alone :
  forall (pytz_timezone : string -> option tzinfo)
         (mkstemp : list string -> string) (report_id : string) (w : World),
    let w' := generate_report_and_update_db pytz_timezone mkstemp report_id w in
    store_status (db w') = store_status (db w)
    /\ business_hours (db w') = business_hours (db w)
    /\ store_timezone (db w') = store_timezone (db w)
    /\ executor w' = executor w
    /\ map Report.id (reports (db w')) = map Report.id (reports (db w))
    /\ (forall other, other <> report_id -> job w' other = job w other)
    /\ (tmpdir w' = tmpdir w \/ exists file, tmpdir w' = file :: tmpdir w)
    /\ (exists more, effects w' = effects w ++ more)
    /\ (job w report_id = None -> w' = w).
Proof.
  intros pytz mkstemp report_id w w'. subst w'.
  assert (Hids : forall f, (forall r, Report.id (f r) = Report.id r) ->
            map Report.id (update_report report_id f (reports (db w)))
            = map Report.id (reports (db w))).
  { intros f Hf. unfold update_report. rewrite map_map. apply map_ext.
    intros r. destruct (String.eqb (Report.id r) report_id); auto. }
  assert (Hother : forall f, (forall r, Report.id (f r) = Report.id r) ->
            forall other, other <> report_id ->
              query_get (update_report report_id f (reports (db w))) other
              = query_get (reports (db w)) other).
  { intros f Hf other Hne. apply query_get_update_other; assumption. }
  unfold generate_report_and_update_db, job.
  destruct (query_get (reports (db w)) report_id) as [r|] eqn:Hget.
  2:{ do 6 (split; [reflexivity|]). split; [left; reflexivity|].
      split; [exists []; rewrite app_nil_r|]; reflexivity. }
  destruct (max_timestamp (store_status (db w))) as [now|].
  - destruct (process_batches_log pytz (db w) now
                (batches 100 (distinct (map StoreStatus.store_id
                                          (store_status (db w)))))
                [] (effects w)) as (calls & El).
    destruct (process_batches pytz (db w) now _ [] (effects w))
      as [[rows|e] log]; simpl in El; subst log;
      cbn [db tmpdir executor effects with_reports store_status
             business_hours store_timezone reports].
    + do 4 (split; [reflexivity|]). split; [apply Hids; reflexivity|].
      split; [apply Hother; reflexivity|].
      split; [right; eexists; reflexivity|].
      split; [eexists; rewrite <- app_assoc; reflexivity|discriminate].
    + do 4 (split; [reflexivity|]). split; [apply Hids; reflexivity|].
      split; [apply Hother; reflexivity|].
      split; [left; reflexivity|].
      split; [eexists; reflexivity|discriminate].
  - cbn [db tmpdir executor effects with_reports store_status
           business_hours store_timezone reports].
    do 4 (split; [reflexivity|]). split; [apply Hids; reflexivity|].
    split; [apply Hother; reflexivity|].
    split; [left; reflexivity|].
    split; [exists []; rewrite app_nil_r; reflexivity|discriminate].
Qed.

(** ** Progress of the jobs *)

Section Progress.

Variable pytz_timezone : string -> option tzinfo.
Variable mkstemp : list string -> string.
Hypothesis mkstemp_fresh : forall names, ~ In (mkstemp names) names.

Lemma work_takes_the_oldest w report_id rest :
  invariant w -> running_jobs_wait w ->
  executor w = report_id :: rest ->
  invariant (worker_run pytz_timezone mkstemp w)
  /\ running_jobs_wait (worker_run pytz_timezone mkstemp w)
  /\ executor (worker_run pytz_timezone mkstemp w) = rest
  /\ exists r', job (worker_run pytz_timezone mkstemp w) report_id = Some r'
                /\ Report.status r' <> "Running"%string.
Proof.
  intros Hinv Hwait Hex.
  split; [apply (work_step pytz_timezone mkstemp mkstemp_fresh w Hinv)|].
  destruct Hinv as (Hnd & Hq & Hwf).
  unfold worker_run. rewrite Hex in *.
  set (w0 := {| db := db w; tmpdir := tmpdir w; executor := rest;
                effects := effects w |}).
  inversion Hnd as [|? ? Hnotin Hnd']; subst.
  destruct (Hq report_id (or_introl eq_refl)) as (r & Hr & Hrun).
  destruct (Hwf _ _ Hr) as [Hid Hw].
  pose proof (running_job_has_no_file w r Hw Hrun) as Hfile.
  assert (Hq0 : forall other, In other (executor w0) ->
            exists x, job w0 other = Some x
                      /\ Report.status x = "Running"%string)
    by (intros other Hin; apply Hq; right; exact Hin).
  destruct (worker_step pytz_timezone mkstemp mkstemp_fresh report_id w0 r
              Hr Hrun Hfile Hnotin Hq0 Hwf)
    as (Hex' & (r' & Hr' & _ & Hterm) & Hother & _ & _).
  split; [|split; [exact Hex'|exists r'; split; assumption]].
  intros other x Hx Hxrun. rewrite Hex'. simpl.
  destruct (String.eqb_spec other report_id) as [->|Hne].
  - rewrite Hr' in Hx. inversion Hx; subst x. contradiction.
  - rewrite (Hother other Hne) in Hx.
    pose proof (Hwait other x Hx Hxrun) as Hin. rewrite Hex in Hin.
    destruct Hin as [E|Hin]; [congruence|exact Hin].
Qed.

Lemma step_keeps_running_jobs_waiting o w :
  invariant w -> running_jobs_wait w ->
  running_jobs_wait (step pytz_timezone mkstemp o w).
Proof.
  intros Hinv Hwait. destruct o as [uuid| |report_id]; simpl; [| |exact Hwait].
  - unfold trigger_report.
    destruct (query_get (reports (db w)) uuid) as [x|] eqn:Hu; simpl;
      [exact Hwait|].
    intros id r. unfold job. simpl. rewrite query_get_app.
    destruct (query_get (reports (db w)) id) as [x|] eqn:Hx.
    + intros E Hrun. inversion E; subst x. apply in_or_app. left.
      apply (Hwait id r Hx Hrun).
    + simpl. destruct (String.eqb_spec uuid id) as [->|]; [|discriminate].
      intros _ _. apply in_or_app. right. left. reflexivity.
  - destruct (executor w) as [|report_id rest] eqn:Hex.
    + unfold worker_run. rewrite Hex. exact Hwait.
    + apply (work_takes_the_oldest w report_id rest Hinv Hwait Hex).
Qed.

Lemma reachable_running_jobs_wait w :
  reachable pytz_timezone mkstemp w -> running_jobs_wait w.
Proof.
  induction 1 as [w Hr He|o w Hreach IH].
  - intros id r. unfold job. rewrite Hr. discriminate.
  - apply step_keeps_running_jobs_waiting; [|exact IH].
    apply (reachable_invariant pytz_timezone mkstemp mkstemp_fresh w Hreach).
Qed.

Lemma drain n : forall w,
  invariant w -> running_jobs_wait w ->
  List.length (executor w) = n ->
  executor (run pytz_timezone mkstemp (repeat Work n) w) = []
  /\ running_jobs_wait (run pytz_timezone mkstemp (repeat Work n) w).
Proof.
  induction n as [|n IH]; intros w Hinv Hwait Hlen.
  - simpl. split; [|exact Hwait].
    destruct (executor w); [reflexivity|discriminate].
  - destruct (executor w) as [|report_id rest] eqn:Hex; [discriminate|].
    destruct (work_takes_the_oldest w report_id rest Hinv Hwait Hex)
      as (Hinv' & Hwait' & Hex' & _).
    simpl. apply IH; auto. rewrite Hex'. simpl in Hlen. lia.
Qed.

End Progress.

(** X21. In every reachable world the Running jobs are exactly the jobs
    that wait in the executor; the worker's next run takes the oldest of
    them and leaves it in a terminal state; and after as many runs as
    there are waiting jobs, none waits and no job is Running. *)
Theorem every_job_gets_its_run :
  forall (pytz_timezone : string -> option tzinfo)
         (mkstemp : list string -> string),
    (forall names, ~ In (mkstemp names) names) ->
    forall w : World,
      reachable pytz_timezone mkstemp w ->
      (forall report_id r,
         job w report_id = Some r ->
         (Report.status r = "Running"%string <-> In report_id (executor w)))
      /\ (forall report_id rest,
            executor w = report_id :: rest ->
            executor (step pytz_timezone mkstemp Work w) = rest
            /\ exists r',
                 job (step pytz_timezone mkstemp Work w) report_id = Some r'
                 /\ Report.status r' <> "Running"%string)
      /\ (let w' := run pytz_timezone mkstemp
                      (repeat Work (List.length (executor w))) w in
          executor w' = []
          /\ forall report_id r,
               job w' report_id = Some r ->
               Report.status r <> "Running"%string).
Proof.
  intros pytz mkstemp Hfresh w Hreach.
  pose proof (reachable_invariant pytz mkstemp Hfresh w Hreach) as Hinv.
  pose proof (reachable_running_jobs_wait pytz mkstemp Hfresh w Hreach) as Hwait.
  split; [|split].
  - intros id r Hjob. split; [apply Hwait; exact Hjob|].
    intros Hin. destruct Hinv as (_ & Hq & _).
    destruct (Hq id Hin) as (x & Hx & Hrun). congruence.
  - intros id rest Hex.
    destruct (work_takes_the_oldest pytz mkstemp Hfresh w id rest Hinv Hwait Hex)
      as (_ & _ & E & T).
    split; assumption.
  - destruct (drain pytz mkstemp Hfresh (List.length (executor w)) w
                Hinv Hwait eq_refl) as [E W].
    split; [exact E|]. intros id r Hjob Hrun.
    specialize (W id r Hjob Hrun). rewrite E in W. destruct W.
Qed.

Lemma every_job_gets_its_run_witness :
  let w := run zones_2023 longer_name [Trigger "j1"; Trigger "j2"] one_store in
  executor w = ["j1"; "j2"]%string
  /\ executor (run zones_2023 longer_name
                 (repeat Work (List.length (executor w))) w) = [].
Proof.
  intros w. split; [reflexivity|].
  assert (R : reachable zones_2023 longer_name w).
  { unfold w. apply reachable_run. apply reachable_start; reflexivity. }
  apply (every_job_gets_its_run zones_2023 longer_name longer_name_fresh w R).
Defined.

(** ** Polls *)

(** X22. In every reachable world a poll has one of four answers, each
    telling the state of the job: not found exactly when the identifier
    has no row; Running and Error when the row has that status; and for a
    Complete job the file named in its row, which is in the temporary
    directory.  The answers for an unknown status, a missing filename or
    a missing file never occur. *)
Theorem poll_answers :
  forall (pytz_timezone : string -> option tzinfo)
         (mkstemp : list string -> string),
    (forall names, ~ In (mkstemp names) names) ->
    forall (w : World) (report_id : string),
      reachable pytz_timezone mkstemp w ->
      match get_report report_id w with
      | ReportNotFound => job w report_id = None
      | StatusRunning =>
          exists r, job w report_id = Some r
                    /\ Report.status r = "Running"%string
      | StatusError =>
          exists r, job w report_id = Some r
                    /\ Report.status r = "Error"%string
      | CsvFile name rows =>
          exists r, job w report_id = Some r
                    /\ Report.status r = "Complete"%string
                    /\ Report.filename r = Some name
                    /\ In (name, rows) (tmpdir w)
      | ReportId _ | InternalServerError | CsvFileNotFound | StatusUnknown =>
          False
      end.
Proof.
  intros pytz mkstemp Hfresh w report_id Hreach.
  destruct (reachable_invariant pytz mkstemp Hfresh w Hreach) as (_ & _ & Hwf).
  unfold get_report. fold (job w report_id).
  destruct (job w report_id) as [r|] eqn:Hjob; [|reflexivity].
  destruct (Hwf _ _ Hjob) as [_ [[Hs Hf]|[[Hs Hf]|(Hs & name & Hf & Hin)]]];
    rewrite Hs; simpl.
  - exists r. auto.
  - exists r. auto.
  - rewrite Hf.
    destruct (find (fun f => String.eqb (fst f) name) (tmpdir w))
      as [[n rows]|] eqn:Hfind.
    + apply find_some in Hfind. destruct Hfind as [Hin' Hn].
      simpl in Hn. apply String.eqb_eq in Hn. subst n.
      exists r. auto.
    + apply in_map_iff in Hin. destruct Hin as (f & Hname & Hf').
      pose proof (find_none _ _ Hfind f Hf') as Hnone. simpl in Hnone.
      rewrite Hname, String.eqb_refl in Hnone. discriminate.
Qed.

Lemma poll_answers_witness :
  let w := run zones_2023 longer_name [Trigger "job"; Work] one_store in
  reachable zones_2023 longer_name w
  /\ exists r,
       job w "job" = Some r
       /\ Report.status r = "Complete"%string
       /\ Report.filename r = Some "t"%string
       /\ exists rows, In ("t"%string, rows) (tmpdir w).
Proof.
  intros w.
  assert (R : reachable zones_2023 longer_name w).
  { apply reachable_run. apply reachable_start; reflexivity. }
  split; [exact R|].
  pose proof (poll_answers zones_2023 longer_name longer_name_fresh w "job" R)
    as P.
  destruct (get_report "job" w) as [| | | | |name rows| |] eqn:G;
    try (vm_compute in G; discriminate).
  destruct P as (r & J & S & F & I).
  assert (N : name = "t"%string) by (vm_compute in G; congruence).
  subst name. exists r. repeat split; try assumption. exists rows. exact I.
Defined.

(** ** Bounds on the report of a store *)

Lemma count_from_at_most p n : forall a, count_from p a n <= Z.of_nat n.
Proof.
  induction n as [|n IH]; intros a; [simpl; lia|].
  cbn [count_from]. specialize (IH (a + 1)). destruct (p a); lia.
Qed.

Lemma estimator_at_most_window pytz session store_id s e tz :
  pytz (get_store_timezone session store_id) = Some tz ->
  s <= e ->
  (forall t, s <= t <= e -> tz t = tz s) ->
  exists uptime downtime,
    calculate_uptime_downtime pytz session store_id s e = Ok (uptime, downtime)
    /\ 0 <= uptime /\ 0 <= downtime
    /\ uptime + downtime <= Z.of_nat (window_minutes s e).
Proof.
  intros Htz Hw Hone.
  assert (Hsched : scheduled_open_minutes tz session store_id s e
                   <= Z.of_nat (window_minutes s e)).
  { unfold scheduled_open_minutes. apply count_from_at_most. }
  unfold calculate_uptime_downtime, lookup_timezone. rewrite Htz. cbn [bind].
  destruct (calculation_path tz session store_id s e) as [|points] eqn:P.
  - eexists _, _. split; [reflexivity|].
    pose proof (overlap_on_nonneg session store_id
                  (weekday (astimezone tz s))
                  (minute_of_day (astimezone tz s))
                  (minute_of_day (astimezone tz e))).
    pose proof (early_return_bound tz session store_id s e Hw Hone). lia.
  - destruct (segments session store_id points (0, 0)) as [u d] eqn:S.
    exists u, d. split; [reflexivity|].
    pose proof (segments_nonneg session store_id points (0, 0)
                  ltac:(simpl; lia)) as N.
    rewrite S in N. simpl in N. split; [tauto|]. split; [tauto|].
    apply calculation_path_points in P.
    pose proof (all_status_points_sorted tz s e Hw Hone
                  (query_initial_status session store_id s)
                  (query_status_records session store_id s e)
                  (order_by_sorted _)) as Hs.
    destruct (all_status_points_ends tz s e
                (query_initial_status session store_id s)
                (query_status_records session store_id s e))
      as (s0 & mids & s1 & Hpts & Hlast).
    rewrite <- P in Hs, Hpts. rewrite Hpts in Hs.
    pose proof (segments_bound session store_id mids
                  (astimezone tz s, s0) (0, 0) Hs) as B.
    rewrite <- Hpts, S, Hlast in B. unfold total in B. simpl in B.
    rewrite (scheduled_open_minutes_local tz s e Hw Hone) in Hsched.
    pose proof (count_from_mono (open_minute session store_id)
                  (local_minute (astimezone tz s)) _ _
                  (window_minutes_cover tz s e Hw Hone)).
    pose proof (count_from_at_most (open_minute session store_id)
                  (window_minutes s e) (local_minute (astimezone tz s))).
    lia.
Qed.

Lemma window_minutes_back now d :
  0 <= d ->
  Z.of_nat (window_minutes (now - d * US_PER_MINUTE) now) = d.
Proof.
  intros Hd. unfold window_minutes, US_PER_MINUTE.
  replace (now - (now - d * 60000000) + 60000000 - 1)
    with (59999999 + d * 60000000) by lia.
  rewrite Z.div_add by lia. rewrite Z.div_small by lia. lia.
Qed.

(** X23. For a store whose zone keeps one UTC offset over the week
    before [now], the fields of its report are not negative and stay
    within the length of their windows: the two minute fields of the
    last hour add up to at most 60, the two hour fields of the last day
    to at most 24, and those of the last week to at most 168. *)
Theorem report_fields_within_their_windows :
  forall (pytz_timezone : string -> option tzinfo) (session : Session)
         (store_id : string) (now : datetime) (tz : tzinfo),
    pytz_timezone (get_store_timezone session store_id) = Some tz ->
    (forall t, now - timedelta_of 1 0 0 <= t <= now -> tz t = tz now) ->
    exists row,
      generate_store_report pytz_timezone session store_id now = Ok row
      /\ 0 <= uptime_last_hour row /\ 0 <= downtime_last_hour row
      /\ uptime_last_hour row + downtime_last_hour row <= 60
      /\ (0 <= uptime_last_day row /\ 0 <= downtime_last_day row
          /\ uptime_last_day row + downtime_last_day row <= 24
          /\ 0 <= uptime_last_week row /\ 0 <= downtime_last_week row
          /\ uptime_last_week row + downtime_last_week row <= 168)%Q.
Proof.
  intros pytz session store_id now tz Htz Hone.
  assert (W : forall d, 0 <= d <= 10080 ->
            exists u v,
              calculate_uptime_downtime pytz session store_id
                (now - d * US_PER_MINUTE) now = Ok (u, v)
              /\ 0 <= u /\ 0 <= v /\ u + v <= d).
  { intros d Hd.
    destruct (estimator_at_most_window pytz session store_id
                (now - d * US_PER_MINUTE) now tz Htz) as (u & v & E & B).
    - unfold US_PER_MINUTE. lia.
    - intros t Ht. rewrite (Hone t), (Hone (now - d * US_PER_MINUTE));
        [reflexivity| |]; unfold timedelta_of, US_PER_DAY, US_PER_HOUR,
                            US_PER_MINUTE in *; lia.
    - rewrite window_minutes_back in B by lia. exists u, v. tauto. }
  destruct (W 60 ltac:(lia)) as (uh & dh & Eh & Bh).
  destruct (W 1440 ltac:(lia)) as (ud & dd & Ed & Bd).
  destruct (W 10080 ltac:(lia)) as (uw & dw & Ew & Bw).
  unfold generate_store_report.
  replace (now - timedelta_of 0 0 1) with (now - 60 * US_PER_MINUTE)
    by reflexivity.
  replace (now - timedelta_of 0 1 0) with (now - 1440 * US_PER_MINUTE)
    by reflexivity.
  replace (now - timedelta_of 1 0 0) with (now - 10080 * US_PER_MINUTE)
    by reflexivity.
  rewrite Eh, Ed, Ew. cbn [bind]. eexists. split; [reflexivity|].
  cbn [uptime_last_hour downtime_last_hour uptime_last_day downtime_last_day
         uptime_last_week downtime_last_week].
  split; [tauto|]. split; [tauto|]. split; [tauto|].
  unfold div60, Qle, Qplus. simpl. lia.
Qed.

Lemma report_fields_within_their_windows_witness :
  exists row,
    generate_store_report zones_2023 (carry_forward 19380) "store"
      (at_clock 19380 11 30) = Ok row
    /\ uptime_last_hour row + downtime_last_hour row <= 60
    /\ (uptime_last_day row + downtime_last_day row <= 24)%Q.
Proof.
  destruct (report_fields_within_their_windows zones_2023
              (carry_forward 19380) "store" (at_clock 19380 11 30) utc
              eq_refl (fun _ _ => eq_refl))
    as (row & E & _ & _ & H & _ & _ & D & _).
  exists row. auto.
Defined.

(** ** Batches against one pass *)

Lemma comprehension_app {A B} (f : A -> result B) l1 l2 :
  comprehension f (l1 ++ l2)
  = (r1 <- comprehension f l1 ;; r2 <- comprehension f l2 ;; Ok (r1 ++ r2)).
Proof.
  induction l1 as [|x l1 IH]; simpl.
  - destruct (comprehension f l2); reflexivity.
  - destruct (f x) as [y|e]; [|reflexivity]. cbn [bind]. rewrite IH.
    destruct (comprehension f l1) as [r1|e]; [|reflexivity]. cbn [bind].
    destruct (comprehension f l2); reflexivity.
Qed.

Lemma batch_results_comprehension pytz session now batch : forall log,
  fst (batch_results pytz session now batch log)
  = comprehension (fun store_id => generate_store_report pytz session store_id now)
      batch.
Proof.
  induction batch as [|x rest IH]; intros log; simpl; [reflexivity|].
  destruct (generate_store_report pytz session x now) as [r|e]; [|reflexivity].
  cbn [bind]. rewrite <- (IH (log ++ [StoreReportCall x])).
  destruct (batch_results pytz session now rest (log ++ [StoreReportCall x]))
    as [[rs|e] log']; reflexivity.
Qed.

Lemma process_batches_comprehension pytz session now bs :
  forall all_results log,
  fst (process_batches pytz session now bs all_results log)
  = (rows <- comprehension
               (fun store_id => generate_store_report pytz session store_id now)
               (List.concat bs) ;;
     Ok (all_results ++ rows)).
Proof.
  induction bs as [|batch rest IH]; intros all_results log; simpl.
  - rewrite app_nil_r. reflexivity.
  - rewrite comprehension_app.
    rewrite <- (batch_results_comprehension pytz session now batch log).
    destruct (batch_results pytz session now batch log) as [[rs|e] log1];
      [|reflexivity].
    cbn [fst bind]. rewrite IH.
    destruct (comprehension _ (List.concat rest)); cbn [bind];
      [rewrite app_assoc|]; reflexivity.
Qed.

(** X24. Cutting the stores into batches changes nothing: for every
    positive batch size, the loop over the batches ends with the rows,
    or with the exception, of a single pass over all the stores. *)
Theorem batches_give_the_rows_of_one_pass :
  forall (pytz_timezone : string -> option tzinfo) (session : Session)
         (now : datetime) (store_ids : list string) (batch_size : nat)
         (log : list event),
    (0 < batch_size)%nat ->
    fst (process_batches pytz_timezone session now
           (batches batch_size store_ids) [] log)
    = comprehension
        (fun store_id =>
           generate_store_report pytz_timezone session store_id now)
        store_ids.
Proof.
  intros pytz session now store_ids n log Hn.
  rewrite process_batches_comprehension, batches_concat by exact Hn.
  destruct (comprehension _ store_ids); reflexivity.
Qed.

Lemma batches_give_the_rows_of_one_pass_witness :
  fst (process_batches zones_2023 (db two_stores)
         (mkdatetime 2023 1 23 10 30 0) (batches 1 ["a"; "b"]%string) [] [])
  = comprehension
      (fun store_id =>
         generate_store_report zones_2023 (db two_stores) store_id
           (mkdatetime 2023 1 23 10 30 0))
      ["a"; "b"]%string.
Proof. apply batches_give_the_rows_of_one_pass. lia. Defined.

(** X25. [generate_report_csv] and the worker agree.  When the one
    returns the text of some rows, a run of the worker on an existing
    job writes a file with those rows and completes the job; when the
    one raises, the run sets the job to Error and writes nothing.  They
    differ on an empty dataset only: the one returns a fixed message,
    the run sets the job to Error. *)
Theorem generate_report_csv_agrees_with_the_worker :
  forall (pytz_timezone : string -> option tzinfo)
         (mkstemp : list string -> string)
         (to_csv : list ReportRow -> string)
         (report_id : string) (w : World) (report : Report.t),
    job w report_id = Some report ->
    let w' := generate_report_and_update_db pytz_timezone mkstemp report_id w in
    let name := mkstemp (map fst (tmpdir w)) in
    match generate_report_csv pytz_timezone to_csv (db w) with
    | Ok text =>
        (store_status (db w) = []
         /\ text = "No data available to generate report."%string
         /\ job w' report_id = Some (set_error report)
         /\ tmpdir w' = tmpdir w)
        \/ (store_status (db w) <> []
            /\ exists rows,
                 text = to_csv rows
                 /\ job w' report_id = Some (set_complete name report)
                 /\ tmpdir w' = (name, rows) :: tmpdir w)
    | Raise e =>
        job w' report_id = Some (set_error report)
        /\ tmpdir w' = tmpdir w
    end.
Proof.
  intros pytz mkstemp to_csv report_id w report Hjob w' name. subst w' name.
  unfold generate_report_csv, generate_report_and_update_db, job in *.
  rewrite Hjob.
  destruct (max_timestamp (store_status (db w))) as [now|] eqn:Hmax.
  - pose proof (batches_concat 100
                  (distinct (map StoreStatus.store_id (store_status (db w))))
                  ltac:(lia)) as Hc.
    pose proof (process_batches_comprehension pytz (db w) now
                  (batches 100 (distinct (map StoreStatus.store_id
                                            (store_status (db w)))))
                  [] (effects w)) as E.
    rewrite Hc in E.
    destruct (process_batches pytz (db w) now _ [] (effects w))
      as [res log]. simpl in E. subst res.
    destruct (comprehension _ _) as [rows|e]; cbn [bind app db tmpdir
                                                    with_reports reports].
    + right. split.
      { intros Hnil. rewrite Hnil in Hmax. discriminate. }
      exists rows. rewrite query_get_update_same by reflexivity.
      rewrite Hjob. auto.
    + rewrite query_get_update_same by reflexivity. rewrite Hjob. auto.
  - left. apply max_timestamp_none in Hmax.
    cbn [db tmpdir with_reports reports].
    rewrite query_get_update_same by reflexivity. rewrite Hjob. auto.
Qed.

Lemma generate_report_csv_agrees_with_the_worker_witness :
  generate_report_csv zones_2023 (fun _ => "csv"%string) (db two_stores)
  = Raise (UnknownTimeZoneError "Mars/Olympus")
  /\ job (generate_report_and_update_db zones_2023 longer_name "job" two_stores)
       "job" = Some (Report.Build "job" "Error" None).
Proof.
  pose proof (generate_report_csv_agrees_with_the_worker zones_2023
                longer_name (fun _ => "csv"%string) "job" two_stores
                (Report.Build "job" "Running" None) eq_refl) as H.
  cbv zeta in H.
  assert (E : generate_report_csv zones_2023 (fun _ => "csv"%string)
                (db two_stores)
              = Raise (UnknownTimeZoneError "Mars/Olympus"))
    by (vm_compute; reflexivity).
  rewrite E in H. split; [exact E|]. apply H.
Defined.

(** ** The order of the jobs *)

Lemma update_report_absent report_id f rs :
  ~ In report_id (map Report.id rs) -> update_report report_id f rs = rs.
Proof.
  induction rs as [|r rs IH]; intros H; [reflexivity|]. simpl.
  destruct (String.eqb_spec (Report.id r) report_id) as [E|_].
  - exfalso. apply H. left. exact E.
  - rewrite IH; [reflexivity|]. intros Hin. apply H. right. exact Hin.
Qed.

Lemma running_ids_after_update report_id f rs rest :
  NoDup (map Report.id rs) ->
  running_ids rs = report_id :: rest ->
  (forall r, Report.id (f r) = Report.id r) ->
  (forall r, String.eqb (Report.status (f r)) "Running" = false) ->
  running_ids (update_report report_id f rs) = rest.
Proof.
  intros Hnd Hrun Hid Hterm. unfold running_ids in *.
  induction rs as [|r rs IH]; [discriminate|].
  inversion Hnd as [|? ? Hnotin Hnd']; subst. simpl in Hrun |- *.
  destruct (String.eqb (Report.status r) "Running") eqn:Hr.
  - simpl in Hrun. inversion Hrun as [[Hhead Hrest]].
    rewrite Hhead, String.eqb_refl, Hterm.
    rewrite update_report_absent; [reflexivity|].
    rewrite <- Hhead. exact Hnotin.
  - destruct (String.eqb (Report.id r) report_id).
    + rewrite Hterm. apply IH; assumption.
    + rewrite Hr. apply IH; assumption.
Qed.

Lemma query_get_none_not_in rs report_id :
  query_get rs report_id = None -> ~ In report_id (map Report.id rs).
Proof.
  unfold query_get. intros H Hin. apply in_map_iff in Hin.
  destruct Hin as (r & Hid & Hr).
  pose proof (find_none _ _ H r Hr) as N. simpl in N.
  rewrite Hid, String.eqb_refl in N. discriminate.
Qed.

Lemma query_get_none_of_not_in rs report_id :
  ~ In report_id (map Report.id rs) -> query_get rs report_id = None.
Proof.
  unfold query_get. intros H.
  destruct (find (fun r => String.eqb (Report.id r) report_id) rs) as [r|] eqn:F;
    [|reflexivity].
  apply find_some in F. destruct F as [Hin E]. apply String.eqb_eq in E.
  exfalso. apply H. apply in_map_iff. exists r. auto.
Qed.

(** X26. Job identifiers are unique, and the jobs wait in the order in
    which they were triggered: in every reachable world the executor
    holds the identifiers of the Running rows of the job table, in row
    order.  As the worker takes the head of the executor, it runs the
    jobs first come, first served. *)
Theorem jobs_wait_in_trigger_order :
  forall (pytz_timezone : string -> option tzinfo)
         (mkstemp : list string -> string) (w : World),
    reachable pytz_timezone mkstemp w ->
    NoDup (map Report.id (reports (db w)))
    /\ executor w = running_ids (reports (db w)).
Proof.
  intros pytz mkstemp w Hreach.
  induction Hreach as [w Hr He|o w Hreach [Hnd Hex]].
  - rewrite Hr, He. split; [constructor|reflexivity].
  - destruct o as [uuid| |report_id]; simpl; [| |auto].
    + unfold trigger_report.
      destruct (query_get (reports (db w)) uuid) as [x|] eqn:Hu; simpl; [auto|].
      split.
      * rewrite map_app. apply NoDup_app; [exact Hnd|repeat constructor; intros []|].
        intros id Hin [<-|[]]. simpl in *.
        exact (query_get_none_not_in _ _ Hu Hin).
      * unfold running_ids. rewrite filter_app, map_app. simpl.
        rewrite Hex. reflexivity.
    + unfold worker_run. destruct (executor w) as [|report_id rest] eqn:E;
        [rewrite E; auto|].
      set (w0 := {| db := db w; tmpdir := tmpdir w; executor := rest;
                    effects := effects w |}).
      assert (Hids : forall f, (forall r, Report.id (f r) = Report.id r) ->
                map Report.id (update_report report_id f (reports (db w)))
                = map Report.id (reports (db w))).
      { intros f Hf. unfold update_report. rewrite map_map. apply map_ext.
        intros r. destruct (String.eqb (Report.id r) report_id); auto. }
      destruct (worker_outcomes pytz mkstemp report_id w0)
        as [[Hnone _]|[(r0 & Hr0 & Hrs & Htmp & Hexe)
                      |(r0 & rows & Hr0 & Hrs & Htmp & Hexe)]].
      * exfalso. unfold job in Hnone. simpl in Hnone.
        apply query_get_none_not_in in Hnone. apply Hnone.
        assert (Hin : In report_id (running_ids (reports (db w))))
          by (rewrite <- Hex; left; reflexivity).
        unfold running_ids in Hin. apply in_map_iff in Hin.
        destruct Hin as (r & Hid & Hr). apply filter_In in Hr.
        apply in_map_iff. exists r. tauto.
      * rewrite Hrs, Hexe. simpl. split.
        -- rewrite Hids by reflexivity. exact Hnd.
        -- symmetry. apply running_ids_after_update; auto.
      * rewrite Hrs, Hexe. simpl. split.
        -- rewrite Hids by reflexivity. exact Hnd.
        -- symmetry. apply running_ids_after_update; auto.
Qed.

Lemma jobs_wait_in_trigger_order_witness :
  let w := run zones_2023 longer_name
             [Trigger "j1"; Trigger "j2"; Work; Trigger "j3"] one_store in
  executor w = ["j2"; "j3"]%string
  /\ executor w = running_ids (reports (db w)).
Proof.
  intros w. split; [reflexivity|].
  apply (jobs_wait_in_trigger_order zones_2023 longer_name w).
  apply reachable_run. apply reachable_start; reflexivity.
Defined.

(** ** A window inside one calendar day *)

Lemma segment_exact session store_id p q acc :
  local_minute (fst p) <= local_minute (fst q) ->
  local_minute (fst p) / 1440 = local_minute (fst q) / 1440 ->
  total (segment session store_id p q acc)
  = total acc
    + count_from (open_minute session store_id) (local_minute (fst p))
        (Z.to_nat (local_minute (fst q) - local_minute (fst p))).
Proof.
  intros Hle Hday. unfold segment, weekday.
  rewrite !date_local_minute, !minute_of_day_local_minute.
  rewrite Hday, Z.eqb_refl. cbn [negb].
  rewrite credit_total, <- Hday, same_day_overlap_bound by assumption.
  reflexivity.
Qed.

Lemma segments_exact session store_id points : forall p acc,
  StronglySorted minute_le (p :: points) ->
  local_minute (fst p) / 1440 = local_minute (fst (last points p)) / 1440 ->
  total (segments session store_id (p :: points) acc)
  = total acc
    + count_from (open_minute session store_id) (local_minute (fst p))
        (Z.to_nat (local_minute (fst (last points p))
                   - local_minute (fst p))).
Proof.
  induction points as [|q rest IH]; intros p acc Hs Hday.
  - simpl. rewrite Z.sub_diag. simpl. lia.
  - apply StronglySorted_inv in Hs. destruct Hs as [Hs Hall].
    assert (Hpq : minute_le p q) by (inversion Hall; assumption).
    assert (Hql : minute_le q (last rest q)).
    { destruct (last_in rest q) as [<-|Hin]; [unfold minute_le; lia|].
      apply StronglySorted_inv in Hs. destruct Hs as [_ Hq].
      rewrite Forall_forall in Hq. apply Hq. exact Hin. }
    change (segments session store_id (p :: q :: rest) acc)
      with (segments session store_id (q :: rest)
              (segment session store_id p q acc)).
    rewrite last_cons_default in *.
    unfold minute_le in Hpq, Hql.
    pose proof (Z.div_le_mono _ _ 1440 ltac:(lia) Hpq) as D1.
    pose proof (Z.div_le_mono _ _ 1440 ltac:(lia) Hql) as D2.
    rewrite (IH q (segment session store_id p q acc) Hs) by lia.
    rewrite segment_exact by lia.
    replace (Z.to_nat (local_minute (fst (last rest q)) - local_minute (fst p)))
      with (Z.to_nat (local_minute (fst q) - local_minute (fst p))
            + Z.to_nat (local_minute (fst (last rest q))
                        - local_minute (fst q)))%nat by lia.
    rewrite count_from_app.
    replace (local_minute (fst p)
             + Z.of_nat (Z.to_nat (local_minute (fst q) - local_minute (fst p))))
      with (local_minute (fst q)) by lia.
    lia.
Qed.

(** X27. Within one local calendar day and one UTC offset, the minutes
    of the window are fully accounted for, whatever the observations:
    uptime plus downtime is exactly the overlap of that day's business
    hours with the window, no minute of it lost and none counted
    twice. *)
Theorem one_day_window_is_fully_accounted :
  forall (pytz_timezone : string -> option tzinfo) (session : Session)
         (store_id : string) (start_time end_time : datetime) (tz : tzinfo),
    pytz_timezone (get_store_timezone session store_id) = Some tz ->
    start_time <= end_time ->
    (forall t, start_time <= t <= end_time -> tz t = tz start_time) ->
    date (astimezone tz start_time) = date (astimezone tz end_time) ->
    exists uptime downtime,
      calculate_uptime_downtime pytz_timezone session store_id
        start_time end_time = Ok (uptime, downtime)
      /\ uptime + downtime
         = overlap_on session store_id (weekday (astimezone tz start_time))
             (minute_of_day (astimezone tz start_time))
             (minute_of_day (astimezone tz end_time)).
Proof.
  intros pytz session store_id s e tz Htz Hw Hone Hday.
  unfold calculate_uptime_downtime, lookup_timezone. rewrite Htz. cbn [bind].
  destruct (calculation_path tz session store_id s e) as [|points] eqn:P.
  - eexists _, _. split; reflexivity.
  - destruct (segments session store_id points (0, 0)) as [u d] eqn:S.
    exists u, d. split; [reflexivity|].
    apply calculation_path_points in P.
    pose proof (all_status_points_sorted tz s e Hw Hone
                  (query_initial_status session store_id s)
                  (query_status_records session store_id s e)
                  (order_by_sorted _)) as Hs.
    destruct (all_status_points_ends tz s e
                (query_initial_status session store_id s)
                (query_status_records session store_id s e))
      as (s0 & mids & s1 & Hpts & Hlast).
    rewrite <- P in Hs, Hpts. rewrite Hpts in Hs.
    rewrite !date_local_minute in Hday.
    pose proof (segments_exact session store_id mids
                  (astimezone tz s, s0) (0, 0) Hs) as B.
    rewrite Hlast in B. cbn [fst] in B. specialize (B Hday).
    rewrite <- Hpts, S in B. unfold total in B. cbn [fst snd] in B.
    pose proof (local_minute_mono tz s e Hone s e ltac:(lia) Hw ltac:(lia))
      as Hle.
    unfold weekday. rewrite date_local_minute, !minute_of_day_local_minute.
    rewrite same_day_overlap_bound by assumption. lia.
Qed.

Lemma one_day_window_is_fully_accounted_witness :
  exists uptime downtime,
    calculate_uptime_downtime zones_2023 (carry_forward 19380) "store"
      (at_clock 19380 8 0) (at_clock 19380 18 0) = Ok (uptime, downtime)
    /\ uptime + downtime
       = overlap_on (carry_forward 19380) "store"
           (weekday (astimezone utc (at_clock 19380 8 0)))
           (minute_of_day (astimezone utc (at_clock 19380 8 0)))
           (minute_of_day (astimezone utc (at_clock 19380 18 0))).
Proof.
  apply (one_day_window_is_fully_accounted zones_2023 (carry_forward 19380)
           "store" _ _ utc).
  - reflexivity.
  - vm_compute. discriminate.
  - intros t _. reflexivity.
  - reflexivity.
Defined.

(** Business hours 09:00-17:00, window 08:00-18:00 of that Monday, one
    observation at 10:00: 60 minutes down, 420 up, 480 in all. *)
Example monday_fully_accounted :
  calculate_uptime_downtime zones_2023 (carry_forward 19380) "store"
    (at_clock 19380 8 0) (at_clock 19380 18 0) = Ok (420, 60).
Proof. vm_compute. reflexivity. Qed.

(** ** Instances *)

Lemma initial_status_is_the_latest_witness :
  In (StoreStatus.Build "store" (mkdatetime 2023 1 2 12 0 0) "active")
    (store_status seen_once)
  /\ mkdatetime 2023 1 2 12 0 0 <= mkdatetime 2023 1 9 12 0 0.
Proof.
  destruct (initial_status_is_the_latest seen_once "store"
              (mkdatetime 2023 1 9 12 0 0)) as [L _].
  destruct (L (StoreStatus.Build "store" (mkdatetime 2023 1 2 12 0 0) "active")
              eq_refl) as (Hin & _ & Hts & _).
  split; [exact Hin|exact Hts].
Defined.

Lemma max_timestamp_is_the_latest_observation_witness :
  max_timestamp (store_status (db two_stores))
  = Some (mkdatetime 2023 1 23 10 30 0)
  /\ mkdatetime 2023 1 23 10 0 0 <= mkdatetime 2023 1 23 10 30 0.
Proof.
  split; [reflexivity|].
  destruct (max_timestamp_is_the_latest_observation
              (store_status (db two_stores))) as [_ M].
  destruct (M (mkdatetime 2023 1 23 10 30 0) eq_refl) as [_ U].
  apply (U (StoreStatus.Build "a" (mkdatetime 2023 1 23 10 0 0) "active")).
  left. reflexivity.
Defined.

Lemma run_leaves_the_rest_alone_witness :
  job (generate_report_and_update_db zones_2023 longer_name "job" two_stores)
    "other" = job two_stores "other"
  /\ generate_report_and_update_db zones_2023 longer_name "other" two_stores
     = two_stores.
Proof.
  split.
  - apply (run_leaves_the_rest_alone zones_2023 longer_name "job" two_stores).
    discriminate.
  - apply (run_leaves_the_rest_alone zones_2023 longer_name "other" two_stores).
    reflexivity.
Defined.
